(** * Layer-builder: document ingestion and reconciliation engine

    A shallow embedding of [excel_parser.py] and [pdf_parser.py]: the numeric
    normalizer [parse_currency] (both modules), the layer pattern recognizer
    [extract_layer_from_text], the row classifiers, the column mapper, the
    sheet walker of [parse_excel_program], the free-text extractor of the PDF
    path and the two merge engines.

    Modelling conventions.
    - Text is a list of characters ([text]); the model covers ASCII text:
      characters above 127 are opaque symbols without case, never digits,
      spaces or word characters.
    - A Python [float] is an exact rational ([Q]): binary64 rounding,
      infinities and NaN are not modelled.  A Python [int] is a [Z];
      converting an integer that is too large for a double raises
      [OverflowError], as [float(int)] does.
    - Regular expressions are values of [re], written from the pattern
      strings of the source, and run by a backtracking matcher with Python's
      priorities (leftmost, greedy before lazy alternatives).
    - Exceptions are values of [exn] carried by [result]; the module-level
      flag [DEBUG_PARSING] and the logger of [excel_parser.py] are a reader
      and a writer around it (monad [M]).
    - The libraries the code calls ([openpyxl.load_workbook], [pdfplumber],
      the text that [str] prints for a float) are parameters. *)

From Stdlib Require Import Ascii String.
From Stdlib Require Import List Bool Arith ZArith QArith Qabs Lia DecimalString Sorted.
Import ListNotations.
Open Scope string_scope.
Open Scope list_scope.
Open Scope nat_scope.

Set Implicit Arguments.

(** ** Text *)

Definition text := list ascii.

Definition text_of_string (s : string) : text := list_ascii_of_string s.
Coercion text_of_string : string >-> text.

Module Py.

Definition code (c : ascii) : nat := nat_of_ascii c.

Definition between (lo hi : nat) (c : ascii) : bool :=
  (lo <=? code c) && (code c <=? hi).

(** [str.isspace] on one character of the ASCII range, which is also what
    the pattern [\s] accepts. *)
Definition is_space (c : ascii) : bool :=
  between 9 13 c || between 28 32 c.

Definition is_digit (c : ascii) : bool := between 48 57 c.
Definition is_upper (c : ascii) : bool := between 65 90 c.
Definition is_lower (c : ascii) : bool := between 97 122 c.
Definition is_alpha (c : ascii) : bool := is_upper c || is_lower c.
Definition is_word (c : ascii) : bool :=
  is_alpha c || is_digit c || (code c =? 95).

Definition to_upper (c : ascii) : ascii :=
  if is_lower c then ascii_of_nat (code c - 32) else c.
Definition to_lower (c : ascii) : ascii :=
  if is_upper c then ascii_of_nat (code c + 32) else c.

Definition upper (s : text) : text := map to_upper s.
Definition lower (s : text) : text := map to_lower s.

Fixpoint lstrip (s : text) : text :=
  match s with
  | c :: s' => if is_space c then lstrip s' else s
  | [] => []
  end.
Definition rstrip (s : text) : text := rev (lstrip (rev s)).
Definition strip (s : text) : text := rstrip (lstrip s).

Definition ascii_eqb (a b : ascii) : bool := Ascii.eqb a b.

Fixpoint text_eqb (a b : text) : bool :=
  match a, b with
  | [], [] => true
  | x :: a', y :: b' => ascii_eqb x y && text_eqb a' b'
  | _, _ => false
  end.

(** [s.startswith(p)] *)
Fixpoint startswith (p s : text) : bool :=
  match p, s with
  | [], _ => true
  | x :: p', y :: s' => ascii_eqb x y && startswith p' s'
  | _ :: _, [] => false
  end.

(** [p in s] on strings *)
Fixpoint contains (p s : text) : bool :=
  startswith p s ||
  match s with
  | [] => false
  | _ :: s' => contains p s'
  end.

(** [x in xs] for a list or set of strings *)
Definition mem (x : text) (xs : list text) : bool := existsb (text_eqb x) xs.

(** [s.replace(old, new)] for a non-empty [old]: every occurrence, left to
    right, without overlap.  [skip] counts the characters of an occurrence
    still to be dropped. *)
Fixpoint replace_from (old new : text) (skip : nat) (s : text) : text :=
  match s with
  | [] => []
  | c :: s' =>
      match skip with
      | S k => replace_from old new k s'
      | O =>
          if startswith old s
          then new ++ replace_from old new (length old - 1) s'
          else c :: replace_from old new 0 s'
      end
  end.
Definition replace (old new s : text) : text := replace_from old new 0 s.

(** [s.split(sep)] for a one-character separator. *)
Fixpoint split_char (sep : ascii) (cur : text) (s : text) : list text :=
  match s with
  | [] => [rev cur]
  | c :: s' =>
      if ascii_eqb c sep then rev cur :: split_char sep [] s'
      else split_char sep (c :: cur) s'
  end.
Definition split (sep : ascii) (s : text) : list text := split_char sep [] s.

(** [s.split()]: the maximal runs of non-space characters. *)
Fixpoint words_from (cur : text) (s : text) : list text :=
  match s with
  | [] => match cur with [] => [] | _ => [rev cur] end
  | c :: s' =>
      if is_space c
      then match cur with [] => words_from [] s' | _ => rev cur :: words_from [] s' end
      else words_from (c :: cur) s'
  end.
Definition words (s : text) : list text := words_from [] s.

(** [s[a:b]] for [0 <= a <= b] *)
Definition slice (a b : nat) (s : text) : text := firstn (b - a) (skipn a s).

(** [sep.join(xs)] *)
Fixpoint join (sep : text) (xs : list text) : text :=
  match xs with
  | [] => []
  | [x] => x
  | x :: xs' => x ++ sep ++ join sep xs'
  end.

End Py.

(** ** Regular expressions

    The fragment of Python's [re] syntax the two modules use. *)

Module Re.

(** One item of a character set [[...]]. *)
Inductive item : Type :=
| IChar (c : ascii)
| IRange (lo hi : ascii)
| IDigit            (* \d *)
| ISpace            (* \s *)
| IWord.            (* \w *)

Inductive re : Type :=
| Eps
| Lit (s : text)                    (* a literal run of characters *)
| Set_ (neg : bool) (items : list item)
| Dot                               (* any character but a newline *)
| Cat (r1 r2 : re)
| Alt (r1 r2 : re)
| Star (greedy : bool) (r : re)
| Grp (n : nat) (r : re)            (* capturing group number n *)
| Bol                               (* ^ *)
| Eol.                              (* $ *)

Definition item_has (i : item) (c : ascii) : bool :=
  match i with
  | IChar d => Py.ascii_eqb c d
  | IRange lo hi => Py.between (Py.code lo) (Py.code hi) c
  | IDigit => Py.is_digit c
  | ISpace => Py.is_space c
  | IWord => Py.is_word c
  end.

(** Under [re.IGNORECASE] a character is in a set when it or its other
    case is. *)
Definition set_has (ci : bool) (items : list item) (c : ascii) : bool :=
  existsb (fun i => item_has i c
                    || (ci && (item_has i (Py.to_lower c) || item_has i (Py.to_upper c))))
          items.

Definition chr_eq (ci : bool) (p c : ascii) : bool :=
  if ci then Py.ascii_eqb (Py.to_lower p) (Py.to_lower c) else Py.ascii_eqb p c.

(** Group captures: group number, start and end offsets; the latest
    capture of a group comes first. *)
Definition caps := list (nat * (nat * nat)).

Fixpoint lit_match (ci : bool) (p s : text) : option text :=
  match p, s with
  | [], _ => Some s
  | x :: p', y :: s' => if chr_eq ci x y then lit_match ci p' s' else None
  | _ :: _, [] => None
  end.

Definition newline : ascii := ascii_of_nat 10.

Section Matcher.
Variable A : Type.
Variable ci : bool.

(** [run r pos s g k]: match [r] at offset [pos], where [s] is the rest
    of the subject, then continue with [k]; alternatives are tried in
    Python's order and the first success is kept. *)
Fixpoint run (r : re) (pos : nat) (s : text) (g : caps)
         (k : nat -> text -> caps -> option A) {struct r} : option A :=
  match r with
  | Eps => k pos s g
  | Lit p =>
      match lit_match ci p s with
      | Some s' => k (pos + length p) s' g
      | None => None
      end
  | Set_ neg items =>
      match s with
      | c :: s' => if xorb neg (set_has ci items c) then k (S pos) s' g else None
      | [] => None
      end
  | Dot =>
      match s with
      | c :: s' => if Py.ascii_eqb c newline then None else k (S pos) s' g
      | [] => None
      end
  | Cat r1 r2 => run r1 pos s g (fun pos' s' g' => run r2 pos' s' g' k)
  | Alt r1 r2 =>
      match run r1 pos s g k with
      | Some x => Some x
      | None => run r2 pos s g k
      end
  | Star greedy r1 =>
      (fix loop (fuel : nat) (pos : nat) (s : text) (g : caps) {struct fuel} : option A :=
         match fuel with
         | O => k pos s g
         | S fuel' =>
             let again :=
               run r1 pos s g
                   (fun pos' s' g' =>
                      if length s' <? length s then loop fuel' pos' s' g' else None) in
             if greedy
             then match again with Some x => Some x | None => k pos s g end
             else match k pos s g with Some x => Some x | None => again end
         end) (length s) pos s g
  | Grp n r1 => run r1 pos s g (fun pos' s' g' => k pos' s' ((n, (pos, pos')) :: g'))
  | Bol => if pos =? 0 then k pos s g else None
  | Eol =>
      match s with
      | [] => k pos s g
      | [c] => if Py.ascii_eqb c newline then k pos s g else None
      | _ => None
      end
  end.
End Matcher.

(** Derived forms. *)
Definition Plus (greedy : bool) (r : re) : re := Cat r (Star greedy r).
Definition Opt (r : re) : re := Alt r Eps.
Definition seq (rs : list re) : re := fold_right Cat Eps rs.
Fixpoint alts (rs : list re) : re :=
  match rs with
  | [] => Set_ false []
  | [r] => r
  | r :: rs' => Alt r (alts rs')
  end.
Definition digit : re := Set_ false [IDigit].
Definition space : re := Set_ false [ISpace].
Definition spaces0 : re := Star true space.       (* \s* *)
Definition spaces1 : re := Plus true space.       (* \s+ *)
Definition chr (c : string) : re := Lit c.
Definition set (cs : string) (more : list item) : re :=
  Set_ false (map IChar (text_of_string cs) ++ more).

(** A match object: the subject, the span of the match and the groups. *)
Record mobj : Type := MObj
  { m_subject : text; m_start : nat; m_end : nat; m_caps : caps }.

Definition group0 (m : mobj) : text := Py.slice (m_start m) (m_end m) (m_subject m).

Fixpoint find_cap (n : nat) (g : caps) : option (nat * nat) :=
  match g with
  | [] => None
  | (i, span) :: g' => if i =? n then Some span else find_cap n g'
  end.

(** [m.group(n)]: [None] when the group took no part in the match. *)
Definition group (n : nat) (m : mobj) : option text :=
  match find_cap n (m_caps m) with
  | Some (a, b) => Some (Py.slice a b (m_subject m))
  | None => None
  end.

(** [m.group(n) or ""] and [m.group(n)] for a group that always takes
    part. *)
Definition group_or_empty (n : nat) (m : mobj) : text :=
  match group n m with Some t => t | None => [] end.

Definition match_at (ci : bool) (r : re) (subject : text) (pos : nat) (s : text)
  : option mobj :=
  run ci r pos s [] (fun e _ g => Some (MObj subject pos e g)).

Fixpoint search_from (ci : bool) (r : re) (subject : text) (pos : nat) (s : text)
  : option mobj :=
  match match_at ci r subject pos s with
  | Some m => Some m
  | None =>
      match s with
      | [] => None
      | _ :: s' => search_from ci r subject (S pos) s'
      end
  end.

(** [re.search(r, s, flags)] *)
Definition search (ci : bool) (r : re) (s : text) : option mobj :=
  search_from ci r s 0 s.

(** [re.match(r, s, flags)] *)
Definition match_ (ci : bool) (r : re) (s : text) : option mobj :=
  match_at ci r s 0 s.

(** [re.finditer(r, s, flags)]: the matches from left to right, the next
    search starting where the last match ended (one character further
    after an empty match). *)
Fixpoint finditer_from (fuel : nat) (ci : bool) (r : re) (subject : text)
         (pos : nat) (s : text) : list mobj :=
  match fuel with
  | O => []
  | S fuel' =>
      match search_from ci r subject pos s with
      | None => []
      | Some m =>
          let next := if m_end m =? m_start m then S (m_end m) else m_end m in
          m :: finditer_from fuel' ci r subject next (skipn next subject)
      end
  end.
Definition finditer (ci : bool) (r : re) (s : text) : list mobj :=
  finditer_from (S (length s)) ci r s 0 s.

(** [re.sub(r, repl, s)] where [repl] computes the replacement from the
    match. *)
Fixpoint sub_pieces (repl : mobj -> text) (s : text) (pos : nat) (ms : list mobj) : text :=
  match ms with
  | [] => skipn pos s
  | m :: ms' => Py.slice pos (m_start m) s ++ repl m ++ sub_pieces repl s (m_end m) ms'
  end.
Definition sub (ci : bool) (r : re) (repl : mobj -> text) (s : text) : text :=
  sub_pieces repl s 0 (finditer ci r s).

(** [re.split(r, s)] for a pattern without groups. *)
Fixpoint split_pieces (s : text) (pos : nat) (ms : list mobj) : list text :=
  match ms with
  | [] => [skipn pos s]
  | m :: ms' => Py.slice pos (m_start m) s :: split_pieces s (m_end m) ms'
  end.
Definition split (ci : bool) (r : re) (s : text) : list text :=
  split_pieces s 0 (finditer ci r s).

End Re.

(** ** Values, exceptions and numbers *)

(** A Python exception: its class and the text [str(e)] gives. *)
Record exn : Type := Exn { exn_class : string; exn_msg : text }.

Inductive result (A : Type) : Type :=
| Ret (a : A)
| Raise (e : exn).
Arguments Ret {A} a.
Arguments Raise {A} e.

Definition rbind {A B} (r : result A) (f : A -> result B) : result B :=
  match r with
  | Ret a => f a
  | Raise e => Raise e
  end.

(** The values a worksheet cell, or an argument of [parse_currency], can
    hold.  Date and time cells are not modelled. *)
Inductive pyval : Type :=
| VNone
| VStr (s : text)
| VInt (z : Z)
| VFloat (q : Q)
| VBool (b : bool).

Module Num.

Definition OverflowError : exn :=
  Exn "OverflowError" "int too large to convert to float".

(** [float(z)] for an integer: the conversion rounds to nearest-even and
    overflows from [2^1024 - 2^970] on. *)
Definition float_of_int (z : Z) : result Q :=
  if (Z.abs z <? 2 ^ 1024 - 2 ^ 970)%Z then Ret (inject_Z z) else Raise OverflowError.

Definition mul (a b : Q) : Q := Qred (a * b).
Definition add (a b : Q) : Q := Qred (a + b).
Definition sub (a b : Q) : Q := Qred (a - b).
Definition div (a b : Q) : Q := Qred (a / b).
Definition abs (a : Q) : Q := Qabs a.
Definition eqb (a b : Q) : bool := Qeq_bool a b.
Definition ltb (a b : Q) : bool := negb (Qle_bool b a).
Definition leb (a b : Q) : bool := Qle_bool a b.
Definition of_Z (z : Z) : Q := inject_Z z.

Definition digit_val (c : ascii) : Z := Z.of_nat (Py.code c - 48).

Definition underscore : ascii := ascii_of_nat 95.

(** A run of digits in which single underscores may separate digits;
    returns the digits read and the rest. *)
Fixpoint scan_digits (acc : list ascii) (s : text) : list ascii * text :=
  match s with
  | c :: s' =>
      if Py.is_digit c then scan_digits (c :: acc) s'
      else if Py.ascii_eqb c underscore then
        match acc, s' with
        | _ :: _, d :: _ => if Py.is_digit d then scan_digits acc s' else (rev acc, s)
        | _, _ => (rev acc, s)
        end
      else (rev acc, s)
  | [] => (rev acc, [])
  end.

Definition digits_val (ds : list ascii) : Z :=
  fold_left (fun acc d => (acc * 10 + digit_val d)%Z) ds 0%Z.

Definition scan_sign (s : text) : bool * text :=
  match s with
  | c :: s' =>
      if Py.ascii_eqb c "-" then (true, s')
      else if Py.ascii_eqb c "+" then (false, s')
      else (false, s)
  | [] => (false, [])
  end.

(** The exponent part, when there is one: [e] or [E], a sign, digits. *)
Definition scan_exponent (s : text) : option (Z * text) :=
  match s with
  | c :: s' =>
      if Py.ascii_eqb (Py.to_lower c) "e" then
        let '(neg, s1) := scan_sign s' in
        match scan_digits [] s1 with
        | ([], _) => None
        | (ds, rest) => Some ((if neg then - digits_val ds else digits_val ds)%Z, rest)
        end
      else Some (0%Z, s)
  | [] => Some (0%Z, [])
  end.

Definition pow10 (e : Z) : Q :=
  if (0 <=? e)%Z then inject_Z (10 ^ e) else 1 / inject_Z (10 ^ (- e)).

(** [float(s)] on a string: [None] stands for [ValueError].  The decimal
    grammar of Python is covered (sign, digits with underscores, point,
    exponent, surrounding white space); the literals [inf], [infinity]
    and [nan] are not, as the model has no such floats. *)
Definition py_float (s : text) : option Q :=
  let '(neg, s1) := scan_sign (Py.strip s) in
  let '(ip, s2) := scan_digits [] s1 in
  let '(fp, s3) :=
    match s2 with
    | c :: s2' => if Py.ascii_eqb c "." then scan_digits [] s2' else ([], s2)
    | [] => ([], [])
    end in
  match ip, fp with
  | [], [] => None
  | _, _ =>
      match scan_exponent s3 with
      | Some (e, []) =>
          let mant := (digits_val ip * 10 ^ Z.of_nat (length fp) + digits_val fp)%Z in
          let q := Qred ((mant # Pos.of_nat (Z.to_nat (10 ^ Z.of_nat (length fp)))) * pow10 e) in
          Some (if neg then Qred (- q) else q)
      | _ => None
      end
  end.

End Num.

(** ** Effects of [excel_parser.py]: the debug flag, the logger, exceptions *)

Inductive log_level : Type := DEBUG | WARNING | EXCEPTION.

(** The values formatted into a log line. *)
Inductive log_arg : Type :=
| LText (t : text)
| LNum (q : Q)
| LNat (n : nat)
| LBool (b : bool)
| LVal (v : pyval)
| LNone.

(** A log record: the level, the f-string with [{}] for each formatted
    value, and the values. *)
Record log_entry : Type := Log
  { log_lvl : log_level; log_template : string; log_args : list log_arg }.

(** A computation that reads the module's flag [DEBUG_PARSING], writes log
    records and returns or raises. *)
Definition M (A : Type) : Type := bool -> result A * list log_entry.

Definition ret {A} (a : A) : M A := fun _ => (Ret a, []).
Definition raise {A} (e : exn) : M A := fun _ => (Raise e, []).
Definition lift {A} (r : result A) : M A := fun _ => (r, []).

Definition bind {A B} (m : M A) (f : A -> M B) : M B :=
  fun d =>
    match m d with
    | (Ret a, l1) => let '(r, l2) := f a d in (r, l1 ++ l2)
    | (Raise e, l1) => (Raise e, l1)
    end.

(** [if DEBUG_PARSING: logger.debug(f"...")] *)
Definition debug_log (template : string) (args : list log_arg) : M unit :=
  fun d => (Ret tt, if d then [Log DEBUG template args] else []).

Declare Scope m_scope.
Delimit Scope m_scope with M.
Notation "x <- m ;; k" := (bind m (fun x => k))
  (at level 61, m at next level, right associativity) : m_scope.
Notation "m ;;; k" := (bind m (fun _ => k))
  (at level 61, right associativity) : m_scope.

(** The value a computation returns, and the log it writes, when the flag
    is [d]. *)
Definition value {A} (m : M A) (d : bool) : result A := fst (m d).
Definition trace {A} (m : M A) (d : bool) : list log_entry := snd (m d).

(** ** Records of the program model *)

Record rbe : Type := Rbe
  { rbe_name : text; rbe_share : Q; rbe_premium : Q; rbe_policy_number : text }.

Record carrier : Type := Carrier
  { carrier_name : text;
    share : Q;
    premium : Q;
    carrier_fee : Q;
    surplus_fee : Q;
    policy_number : option text;
    has_multiple_rbes : bool;
    rbes : list rbe }.

Record layer : Type := Layer
  { limit : Q;
    attachment : Q;
    is_primary : bool;
    carriers : list carrier }.

(** The dictionary a recognizer returns for a layer header. *)
Record layer_info : Type := LayerInfo
  { li_limit : Q;
    li_attachment : Q;
    li_is_primary : bool;
    li_raw_text : text }.

Definition log_info (i : layer_info) : list log_arg :=
  [LNum (li_limit i); LNum (li_attachment i); LBool (li_is_primary i);
   LText (li_raw_text i)].

Definition log_info_opt (i : option layer_info) : list log_arg :=
  match i with Some i => log_info i | None => [LNone] end.

(** Python's truth value of a cell. *)
Definition truthy (v : pyval) : bool :=
  match v with
  | VNone => false
  | VStr s => match s with [] => false | _ => true end
  | VInt z => negb (z =? 0)%Z
  | VFloat q => negb (Num.eqb q 0%Q)
  | VBool b => b
  end.

(** [any(row)] *)
Definition any (row : list pyval) : bool := existsb truthy row.

Definition is_str (v : pyval) : bool :=
  match v with VStr _ => true | _ => false end.

(** ** Layer dictionaries keyed by [(limit, attachment)]

    A Python [dict] keeps its keys in insertion order; two keys are the
    same when their components are equal numbers. *)

Module LayerDict.

Definition key : Type := (Q * Q)%type.

Definition key_eqb (a b : key) : bool :=
  Num.eqb (fst a) (fst b) && Num.eqb (snd a) (snd b).

Definition layer_dict : Type := list (key * layer).

Definition key_of (l : layer) : key := (limit l, attachment l).

(** [key in d] *)
Definition dict_mem (k : key) (d : layer_dict) : bool :=
  existsb (fun entry => key_eqb k (fst entry)) d.

(** [d[k] = f(d[k])] for a key that is present *)
Fixpoint dict_update (k : key) (f : layer -> layer) (d : layer_dict) : layer_dict :=
  match d with
  | [] => []
  | (k', b) :: rest =>
      if key_eqb k k' then (k', f b) :: rest else (k', b) :: dict_update k f rest
  end.

(** [if key not in d: d[key] = {limit, attachment, is_primary, carriers: []}] *)
Definition open_bucket (l : layer) (d : layer_dict) : layer_dict :=
  if dict_mem (key_of l) d then d
  else d ++ [(key_of l, Layer (limit l) (attachment l) (is_primary l) [])].

Definition with_carriers (cs : list carrier) (b : layer) : layer :=
  Layer (limit b) (attachment b) (is_primary b) cs.

(** The test both merges of [excel_parser.py] use for "the same entry":
    same name and shares closer than 0.0001. *)
Definition same_entry (existing c : carrier) : bool :=
  Py.text_eqb (carrier_name existing) (carrier_name c)
  && Num.ltb (Num.abs (Num.sub (share existing) (share c))) (1 # 10000).

(** [sorted(layers, key=lambda x: x["attachment"])]: stable. *)
Fixpoint insert_sorted (x : layer) (ls : list layer) : list layer :=
  match ls with
  | [] => [x]
  | y :: ys =>
      if Num.ltb (attachment y) (attachment x) then y :: insert_sorted x ys
      else x :: y :: ys
  end.

Fixpoint sorted_by_attachment (ls : list layer) : list layer :=
  match ls with
  | [] => []
  | x :: rest => insert_sorted x (sorted_by_attachment rest)
  end.

(** [d.get(k)] *)
Fixpoint dict_find (k : key) (d : layer_dict) : option layer :=
  match d with
  | [] => None
  | (k', b) :: rest => if key_eqb k k' then Some b else dict_find k rest
  end.

End LayerDict.

(** ** [excel_parser.py] *)

Module ExcelParser.
Import Re.
Import LayerDict.
Local Open Scope m_scope.

(** *** Numeric normalizer *)

Definition million : Z := 1000000.
Definition billion : Z := 1000000000.

(** The suffix cascade of [parse_currency]: the multiplier and the string
    the suffix was taken from. *)
Definition detect_suffix (value_str : text) : Z * text :=
  let upper_str := Py.upper value_str in
  if Py.contains "MM" upper_str then (million, Py.replace "MM" "" upper_str)
  else if Py.contains "BL" upper_str then (billion, Py.replace "BL" "" upper_str)
  else if Py.contains "B" upper_str && negb (Py.contains "BL" upper_str)
       then (billion, Py.replace "B" "" upper_str)
  else if Py.contains "M" upper_str then (million, Py.replace "M" "" upper_str)
  else if Py.contains "K" upper_str then (1000%Z, Py.replace "K" "" upper_str)
  else (1%Z, value_str).

(** [re.sub(r"[^\d.\-]", "", value_str)] *)
Definition non_numeric : re := Set_ true [IDigit; IChar "."; IChar "-"].
Definition clean_numeric (s : text) : text := sub false non_numeric (fun _ => []) s.

(** [float(value_str) * multiplier if value_str else 0.0] under
    [except (ValueError, AttributeError): return 0.0]. *)
Definition scaled (value_str : text) (multiplier : Z) : Q :=
  match value_str with
  | [] => 0%Q
  | _ =>
      match Num.py_float value_str with
      | Some q => Num.mul q (Num.of_Z multiplier)
      | None => 0%Q
      end
  end.

Definition parse_currency (value : pyval) : result Q :=
  match value with
  | VNone => Ret 0%Q
  | VInt z => Num.float_of_int z
  | VBool b => Num.float_of_int (if b then 1%Z else 0%Z)
  | VFloat q => Ret q
  | VStr s =>
      let value_str := Py.strip (Py.replace "," "" (Py.replace "$" "" s)) in
      let '(multiplier, value_str) := detect_suffix value_str in
      Ret (scaled (clean_numeric value_str) multiplier)
  end.

(** *** Layer pattern recognizer *)

(** [[\d,]+(?:\.\d+)?] as group [n] *)
Definition amount (n : nat) : re :=
  Grp n (Cat (Plus true (Set_ false [IDigit; IChar ","]))
             (Opt (Cat (Lit ".") (Plus true digit)))).

(** [([MKB](?:L)?|MM)?] as group [n] *)
Definition suffix (n : nat) : re :=
  Opt (Grp n (Alt (Cat (set "MKB" []) (Opt (Lit "L"))) (Lit "MM"))).

(** [\$?([\d,]+(?:\.\d+)?)\s*([MKB](?:L)?|MM)?\s*(?:ex|excess|xs|excess\s+of)\s*\$?([\d,]+(?:\.\d+)?)\s*([MKB](?:L)?|MM)?] *)
Definition excess_pattern : re :=
  seq [Opt (Lit "$"); amount 1; spaces0; suffix 2; spaces0;
       alts [Lit "ex"; Lit "excess"; Lit "xs"; seq [Lit "excess"; spaces1; Lit "of"]];
       spaces0; Opt (Lit "$"); amount 3; spaces0; suffix 4].

(** [\$?([\d,]+(?:\.\d+)?)\s*([MKB](?:L)?|MM)?\s*(?:primary|primary\s+layer)] *)
Definition primary_pattern : re :=
  seq [Opt (Lit "$"); amount 1; spaces0; suffix 2; spaces0;
       alts [Lit "primary"; seq [Lit "primary"; spaces1; Lit "layer"]]].

(** [^\$?([\d,]+(?:\.\d+)?)\s*([MKB](?:L)?|MM)?\s*(?:terrorism|all\s*risk|property|liability|umbrella|excess)?] *)
Definition standalone_pattern : re :=
  seq [Bol; Opt (Lit "$"); amount 1; spaces0; suffix 2; spaces0;
       Opt (alts [Lit "terrorism"; seq [Lit "all"; spaces0; Lit "risk"]; Lit "property";
                  Lit "liability"; Lit "umbrella"; Lit "excess"])].

(** [^\$[\d,]+(?:\.\d+)?[MKB]?(?:L)?$] *)
Definition bare_amount_pattern : re :=
  seq [Bol; Lit "$"; Plus true (Set_ false [IDigit; IChar ","]);
       Opt (Cat (Lit ".") (Plus true digit)); Opt (set "MKB" []); Opt (Lit "L"); Eol].

(** [all\s*risks?\s*(?:ex|excess|xs)?\s*[\w\s]*(?:lead|primary)?] *)
Definition all_risks_pattern : re :=
  seq [Lit "all"; spaces0; Lit "risk"; Opt (Lit "s"); spaces0;
       Opt (alts [Lit "ex"; Lit "excess"; Lit "xs"]); spaces0;
       Star true (Set_ false [IWord; ISpace]);
       Opt (alts [Lit "lead"; Lit "primary"])].

Definition layer_keywords : list text :=
  [ "terrorism" : text; "all risk" : text; "property" : text; "liability" : text;
    "umbrella" : text; "excess" : text; "primary" : text; "lead" : text ].

(** [parse_currency(f"{num}{suffix}")] on groups [n] and [n+1] of a match. *)
Definition group_amount (n : nat) (m : mobj) : result Q :=
  parse_currency (VStr (group_or_empty n m ++ group_or_empty (S n) m)).

Definition extract_layer_from_text (arg : pyval) : M (option layer_info) :=
  match arg with
  | VStr ((_ :: _) as arg_text) =>
      let text := Py.strip arg_text in
      debug_log "Attempting to extract layer from: '{}'" [LText text] ;;;
      match search true excess_pattern text with
      | Some m =>
          limit <- lift (group_amount 1 m) ;;
          attachment <- lift (group_amount 3 m) ;;
          debug_log "  Matched excess pattern: limit={}, attachment={}"
                    [LNum limit; LNum attachment] ;;;
          ret (Some (LayerInfo limit attachment false (Py.strip text)))
      | None =>
      match search true primary_pattern text with
      | Some m =>
          limit <- lift (group_amount 1 m) ;;
          debug_log "  Matched primary pattern: limit={}" [LNum limit] ;;;
          ret (Some (LayerInfo limit 0%Q true (Py.strip text)))
      | None =>
      (* the patterns after the first two; [None] when the standalone one
         does not return *)
      let rest : M (option layer_info) :=
        match search true all_risks_pattern text with
        | Some _ =>
            debug_log "  Matched ALL RISKS pattern (no limit in text)" [] ;;;
            ret None
        | None =>
            debug_log "  No layer pattern matched" [] ;;;
            ret None
        end in
      match search true standalone_pattern text with
      | Some m =>
          limit <- lift (group_amount 1 m) ;;
          let low := Py.lower text in
          let is_primary :=
            Py.contains "primary" low
            || (Num.ltb 0%Q limit && negb (Py.contains "ex" low) && negb (Py.contains "xs" low)) in
          if Num.ltb 0%Q limit then
            if existsb (fun kw => Py.contains kw low) layer_keywords
               || (match search true bare_amount_pattern (Py.strip text) with
                   | Some _ => true
                   | None => false
                   end)
            then
              debug_log "  Matched standalone pattern: limit={}, is_primary={}"
                        [LNum limit; LBool is_primary] ;;;
              ret (Some (LayerInfo limit 0%Q is_primary (Py.strip text)))
            else rest
          else rest
      | None => rest
      end
      end
      end
  | _ => ret None
  end.

(** *** Row classifier *)

Section Rows.

(** The text [str] prints for a float (its shortest round-trip form in
    Python); the classifiers are defined for any such printer. *)
Variable float_repr : Q -> text.

(** [str(v)] *)
Definition py_str (v : pyval) : text :=
  match v with
  | VNone => "None" : text
  | VStr s => s
  | VInt z => NilZero.string_of_int (Z.to_int z) : text
  | VFloat q => float_repr q
  | VBool b => (if b then "True" else "False") : text
  end.

Definition carrier_indicators : list text :=
  [ "insurance" : text; "company" : text; "assurance" : text; "underwriter" : text;
    "syndicate" : text; "lloyds" : text; "lloyd's" : text; "inc" : text;
    "ltd" : text; "corp" : text ].

(** [\d+[MKB]?(?:L)?\s*(?:ex|excess|xs)\s*\d+[MKB]?] *)
Definition numeric_excess_pattern : re :=
  seq [Plus true digit; Opt (set "MKB" []); Opt (Lit "L"); spaces0;
       alts [Lit "ex"; Lit "excess"; Lit "xs"]; spaces0;
       Plus true digit; Opt (set "MKB" [])].

(** [(\d+[MKB]?(?:L)?)], used without flags *)
Definition numeric_token_pattern : re :=
  Grp 1 (seq [Plus true digit; Opt (set "MKB" []); Opt (Lit "L")]).

(** [re.sub(r"(\d+[MKB]?(?:L)?)", r"$\1", cell_str)] *)
Definition add_dollar_signs (cell_str : text) : text :=
  sub false numeric_token_pattern (fun m => ("$" : text) ++ group_or_empty 1 m) cell_str.

Definition special_layer_patterns : list (string * re) :=
  [ ("^all\s*risks?\s*(?:ex|excess|xs)",
     seq [Bol; Lit "all"; spaces0; Lit "risk"; Opt (Lit "s"); spaces0;
          alts [Lit "ex"; Lit "excess"; Lit "xs"]]);
    ("^\$?\d+[MKB]?\s*terrorism",
     seq [Bol; Opt (Lit "$"); Plus true digit; Opt (set "MKB" []); spaces0;
          Lit "terrorism"]);
    ("^primary.*(?:all\s*risk|including|flood|eq)",
     seq [Bol; Lit "primary"; Star true Dot;
          alts [seq [Lit "all"; spaces0; Lit "risk"]; Lit "including"; Lit "flood";
                Lit "eq"]]) ].

Definition searches (ci : bool) (r : re) (s : text) : bool :=
  match search ci r s with Some _ => true | None => false end.

(** The loop over [j] of [is_layer_header_row]: the first cell other
    than cell [i] that holds at least 1,000,000. *)
Fixpoint find_limit (i j : nat) (cells : list pyval) : result (option Q) :=
  match cells with
  | [] => Ret None
  | val :: rest =>
      if negb (j =? i) && truthy val then
        match val with
        | VInt z =>
            if (1000000 <=? z)%Z
            then rbind (Num.float_of_int z) (fun q => Ret (Some q))
            else find_limit i (S j) rest
        | VBool _ => find_limit i (S j) rest
        | VFloat q =>
            if Num.leb 1000000%Q q then Ret (Some q) else find_limit i (S j) rest
        | VStr _ =>
            rbind (parse_currency val)
                  (fun parsed =>
                     if Num.leb 1000000%Q parsed then Ret (Some parsed)
                     else find_limit i (S j) rest)
        | VNone => find_limit i (S j) rest
        end
      else find_limit i (S j) rest
  end.

(** The loop over the first two cells. *)
Fixpoint scan_cells (row_values : list pyval) (i : nat) (cells : list pyval)
  : M (bool * option layer_info) :=
  match cells with
  | [] => ret (false, None)
  | cell_value :: rest =>
      match cell_value with
      | VStr ((_ :: _) as s) =>
          let cell_str := Py.strip s in
          let cell_lower := Py.lower cell_str in
          if existsb (fun ind => Py.contains ind cell_lower) carrier_indicators
          then scan_cells row_values (S i) rest
          else
            layer_info <- extract_layer_from_text (VStr cell_str) ;;
            match layer_info with
            | Some info =>
                debug_log "  Found layer in cell {}: {}" (LNat i :: log_info info) ;;;
                ret (true, Some info)
            | None =>
                retried <-
                  (if searches true numeric_excess_pattern cell_str
                   then extract_layer_from_text (VStr (add_dollar_signs cell_str))
                   else ret None) ;;
                match retried with
                | Some info =>
                    debug_log "  Found layer (modified) in cell {}: {}"
                              (LNat i :: log_info info) ;;;
                    ret (true, Some info)
                | None =>
                    match find (fun p => searches true (snd p) cell_str)
                               special_layer_patterns with
                    | Some (source, _) =>
                        debug_log "  Found special layer pattern in cell {}: {}"
                                  [LNat i; LText source] ;;;
                        found <- lift (find_limit i 0 row_values) ;;
                        match found with
                        | Some q =>
                            ret (true,
                                 Some (LayerInfo q 0%Q
                                                 (Py.contains "primary" (Py.lower cell_str))
                                                 cell_str))
                        | None => ret (true, None)
                        end
                    | None => scan_cells row_values (S i) rest
                    end
                end
            end
      | _ => scan_cells row_values (S i) rest
      end
  end.

Definition is_layer_header_row (row_values : list pyval) : M (bool * option layer_info) :=
  if negb (any row_values) then ret (false, None)
  else
    debug_log "Checking if layer header row: {}" (map LVal (firstn 6 row_values)) ;;;
    scan_cells row_values 0 (firstn 2 row_values).

Definition header_keywords : list text :=
  [ "participant" : text; "line" : text; "ppm" : text; "premium" : text; "fees" : text;
    "fee" : text; "carrier" : text; "share" : text; "firm" : text; "sl tax" : text;
    "surplus" : text; "total" : text; "rate" : text ].

(** [str(cell).lower().strip()] *)
Definition cell_text_of (cell : pyval) : text := Py.strip (Py.lower (py_str cell)).

(** [re.sub(r"[^a-z\s]", "", cell_text).strip()] *)
Definition cell_clean_of (cell_text : text) : text :=
  Py.strip (sub false (Set_ true [IRange "a" "z"; ISpace]) (fun _ => []) cell_text).

(** What one cell adds to [keyword_matches]: one for the membership
    test and one more from the loop over the keywords. *)
Definition keyword_hits (cell : pyval) : nat :=
  if truthy cell then
    let cell_text := cell_text_of cell in
    let cell_clean := cell_clean_of cell_text in
    (if Py.mem cell_clean header_keywords then 1 else 0)
    + (if existsb (fun kw => Py.text_eqb cell_clean kw
                             || Py.startswith (kw ++ (" " : text)) cell_text
                             || Py.startswith (kw ++ ("(" : text)) cell_text)
                  header_keywords
       then 1 else 0)
  else 0.

Definition keyword_matches (row_values : list pyval) : nat :=
  fold_left (fun n cell => n + keyword_hits cell) row_values 0.

Definition is_participant_header_row (row_values : list pyval) : M bool :=
  if negb (any row_values) then ret false
  else
    let is_header := 3 <=? keyword_matches row_values in
    (if is_header
     then debug_log "Detected participant header row: {}" (map LVal (firstn 8 row_values))
     else ret tt) ;;;
    ret is_header.

Definition total_words : list text :=
  [ "TOTAL" : text; "TOTALS" : text; "SUBTOTAL" : text; "SUM" : text;
    "GRAND TOTAL" : text; "LAYER TOTAL" : text ].

Fixpoint scan_total (i : nat) (cells : list pyval) : M bool :=
  match cells with
  | [] => ret false
  | cell :: rest =>
      let cell_val := if truthy cell then Py.upper (Py.strip (py_str cell)) else [] in
      if Py.mem cell_val total_words
      then debug_log "Detected total row at cell {}: {}" [LNat i; LText cell_val] ;;; ret true
      else scan_total (S i) rest
  end.

Definition is_total_row (row_values : list pyval) : M bool :=
  scan_total 0 (firstn 4 row_values).

Definition skip_patterns : list re :=
  [ seq [Bol; Plus true (Set_ false [IChar "-"; IChar "="; IChar "_"; ISpace]); Eol];
    seq [Bol; Lit "note"; Opt (set "s" []); Lit ":"];
    seq [Bol; Lit "comment"; Opt (set "s" []); Lit ":"];
    seq [Bol; Lit "see"; spaces1] ].

Definition is_none (v : pyval) : bool :=
  match v with VNone => true | _ => false end.

Definition is_skip_row (row_values : list pyval) : bool :=
  if negb (any row_values) then true
  else
    let non_empty :=
      filter (fun v => negb (is_none v)
                       && match Py.strip (py_str v) with [] => false | _ => true end)
             row_values in
    match non_empty with
    | [] => true
    | _ =>
        let first_val :=
          match row_values with
          | v :: _ => if truthy v then Py.lower (Py.strip (py_str v)) else []
          | [] => []
          end in
        existsb (fun p => match match_ true p first_val with
                          | Some _ => true
                          | None => false
                          end) skip_patterns
    end.


(** *** Column mapper *)

(** The dictionary [col_map]: a missing key is [None]. *)
Record col_map : Type := ColMap
  { cm_carrier : option nat;
    cm_line : option nat;
    cm_ppm : option nat;
    cm_premium : option nat;
    cm_fees : option nat;
    cm_sl_tax : option nat;
    cm_total : option nat;
    cm_data_start_col : option nat }.

Definition empty_col_map : col_map :=
  ColMap None None None None None None None None.

Definition log_col_map (m : col_map) : list log_arg :=
  map (fun o => match o with Some n => LNat n | None => LNone end)
      [cm_carrier m; cm_line m; cm_ppm m; cm_premium m; cm_fees m; cm_sl_tax m;
       cm_total m; cm_data_start_col m].

(** [\$?\d+[mkb]?\s*(?:ex|xs|excess)] *)
Definition first_cell_layer_pattern : re :=
  seq [Opt (Lit "$"); Plus true digit; Opt (set "mkb" []); spaces0;
       alts [Lit "ex"; Lit "xs"; Lit "excess"]].

Definition start_col_of (row_values : list pyval) : nat :=
  match row_values with
  | first :: _ =>
      if truthy first then
        let first_cell_lower := Py.lower (Py.strip (py_str first)) in
        if searches true first_cell_layer_pattern first_cell_lower then 1
        else if negb (Py.mem first_cell_lower
                             [ "participant" : text; "carrier" : text; "firm" : text;
                               "line" : text; "premium" : text ])
        then
          if existsb (fun cell =>
                        truthy cell
                        && Py.mem (cell_text_of cell)
                                  [ "participant" : text; "line" : text; "premium" : text ])
                     (firstn 4 (skipn 1 row_values))
          then 1 else 0
        else 0
      else 0
  | [] => 0
  end.

(** One turn of the loop over [enumerate(row_values)]. *)
Definition map_cell (start_col : nat) (m : col_map) (col_idx : nat) (cell_value : pyval)
  : col_map :=
  if col_idx <? start_col then m
  else if negb (truthy cell_value) then m
  else
    let cell_text := cell_text_of cell_value in
    let cell_clean := cell_clean_of cell_text in
    let is_in (ws : list text) := Py.mem cell_clean ws in
    if is_in [ "participant" : text; "participants" : text; "carrier" : text;
               "carriers" : text; "firm" : text ]
    then ColMap (Some col_idx) (cm_line m) (cm_ppm m) (cm_premium m) (cm_fees m)
                (cm_sl_tax m) (cm_total m) (cm_data_start_col m)
    else if is_in [ "line" : text; "lines" : text ]
    then ColMap (cm_carrier m) (Some col_idx) (cm_ppm m) (cm_premium m) (cm_fees m)
                (cm_sl_tax m) (cm_total m) (cm_data_start_col m)
    else if is_in [ "ppm" : text; "rate" : text ]
    then ColMap (cm_carrier m) (cm_line m) (Some col_idx) (cm_premium m) (cm_fees m)
                (cm_sl_tax m) (cm_total m) (cm_data_start_col m)
    else if is_in [ "premium" : text; "premiums" : text ]
    then ColMap (cm_carrier m) (cm_line m) (cm_ppm m) (Some col_idx) (cm_fees m)
                (cm_sl_tax m) (cm_total m) (cm_data_start_col m)
    else if is_in [ "fee" : text; "fees" : text ]
    then ColMap (cm_carrier m) (cm_line m) (cm_ppm m) (cm_premium m) (Some col_idx)
                (cm_sl_tax m) (cm_total m) (cm_data_start_col m)
    else if is_in [ "sl tax" : text; "sl taxes" : text ]
    then ColMap (cm_carrier m) (cm_line m) (cm_ppm m) (cm_premium m) (cm_fees m)
                (Some col_idx) (cm_total m) (cm_data_start_col m)
    else if Py.contains "sl" cell_text && Py.contains "tax" cell_text
    then ColMap (cm_carrier m) (cm_line m) (cm_ppm m) (cm_premium m) (cm_fees m)
                (Some col_idx) (cm_total m) (cm_data_start_col m)
    else if is_in [ "total" : text; "totals" : text ]
    then ColMap (cm_carrier m) (cm_line m) (cm_ppm m) (cm_premium m) (cm_fees m)
                (cm_sl_tax m) (Some col_idx) (cm_data_start_col m)
    else m.

Fixpoint map_cells (start_col : nat) (m : col_map) (col_idx : nat) (cells : list pyval)
  : col_map :=
  match cells with
  | [] => m
  | cell :: rest => map_cells start_col (map_cell start_col m col_idx cell) (S col_idx) rest
  end.

Definition map_columns (row_values : list pyval) : M col_map :=
  let start_col := start_col_of row_values in
  let m := map_cells start_col empty_col_map 0 row_values in
  let m := ColMap (cm_carrier m) (cm_line m) (cm_ppm m) (cm_premium m) (cm_fees m)
                  (cm_sl_tax m) (cm_total m) (Some start_col) in
  debug_log "Column mapping (data starts at col {}): {}" (LNat start_col :: log_col_map m) ;;;
  ret m.


(** *** Sheet walker *)

(** The loop variables of [parse_excel_program]. *)
Record walker : Type := Walker
  { current_layer : option layer;
    current_layer_info : option layer_info;
    w_col_map : col_map;
    all_layers : list layer }.

Definition skip_names : list text :=
  [ "PARTICIPANT" : text; "CARRIER" : text; "TOTAL" : text; "TOTALS" : text;
    "FIRM" : text; "INSURER" : text; "UNDERWRITER" : text; "GRAND TOTAL" : text;
    "SUBTOTAL" : text; "N/A" : text; "TBD" : text; "YES" : text; "NO" : text;
    "Y" : text; "N" : text; "TRUE" : text; "FALSE" : text; "LINE" : text;
    "PREMIUM" : text; "FEES" : text; "FEE" : text; "PPM" : text; "RATE" : text;
    "SL TAX" : text; "SURPLUS" : text ].

(** [^[\$\d,.\-\s%]+$] *)
Definition numeric_name_pattern : re :=
  seq [Bol;
       Plus true (Set_ false [IChar "$"; IDigit; IChar ","; IChar "."; IChar "-"; ISpace;
                              IChar "%"]);
       Eol].

(** [parse_currency(row_list[col_map[k]])] when the column is mapped and
    inside the row, else [0]. *)
Definition read_amount (col : option nat) (row_list : list pyval) : result Q :=
  match col with
  | Some i =>
      match nth_error row_list i with
      | Some cell => parse_currency cell
      | None => Ret 0%Q
      end
  | None => Ret 0%Q
  end.

Definition has_carriers (l : option layer) : bool :=
  match l with
  | Some l => match carriers l with [] => false | _ => true end
  | None => false
  end.

Definition add_carrier (l : layer) (c : carrier) : layer :=
  Layer (limit l) (attachment l) (is_primary l) (carriers l ++ [c]).

(** Step 5 of the row loop: read a carrier from a data row. *)
Definition extract_carrier (st : walker) (row_list : list pyval) : M walker :=
  match current_layer st, cm_carrier (w_col_map st) with
  | Some cur, Some carrier_idx =>
      let cm := w_col_map st in
      let carrier_val :=
        match nth_error row_list carrier_idx with Some v => v | None => VNone end in
      let line_val :=
        match cm_line cm with
        | Some (S _ as line_idx) =>
            match nth_error row_list line_idx with Some v => v | None => VNone end
        | _ => VNone
        end in
      debug_log "  -> Reading: carrier_col[{}]='{}', line_col[{}]='{}'"
                [LNat carrier_idx; LVal carrier_val;
                 match cm_line cm with Some i => LNat i | None => LNone end;
                 LVal line_val] ;;;
      match nth_error row_list carrier_idx with
      | Some cell =>
          if truthy cell then
            let carrier_name := Py.strip (py_str cell) in
            let carrier_upper := Py.strip (Py.upper carrier_name) in
            if match carrier_name with [] => true | _ => false end
               || Py.mem carrier_upper skip_names
            then debug_log "  -> Skipping invalid/skip name: '{}'" [LText carrier_name] ;;;
                 ret st
            else if length (Py.strip carrier_name) <? 3
            then debug_log "  -> Skipping too-short name: '{}'" [LText carrier_name] ;;;
                 ret st
            else if match match_ false numeric_name_pattern (Py.strip carrier_name) with
                    | Some _ => true
                    | None => false
                    end
            then debug_log "  -> Skipping numeric value: '{}'" [LText carrier_name] ;;;
                 ret st
            else
              line_amount <- lift (read_amount (cm_line cm) row_list) ;;
              premium0 <- lift (read_amount (cm_premium cm) row_list) ;;
              premium <-
                (if Num.eqb premium0 0%Q
                 then match cm_total cm with
                      | Some i =>
                          match nth_error row_list i with
                          | Some cell => lift (parse_currency cell)
                          | None => ret premium0
                          end
                      | None => ret premium0
                      end
                 else ret premium0) ;;
              carrier_fee <- lift (read_amount (cm_fees cm) row_list) ;;
              surplus_fee <- lift (read_amount (cm_sl_tax cm) row_list) ;;
              let layer_limit := limit cur in
              let share :=
                if Num.ltb 0%Q layer_limit && Num.ltb 0%Q line_amount
                then Num.div line_amount layer_limit
                else 0%Q in
              debug_log "  -> Share calc: {} / {} = {} ({}%)"
                        [LNum line_amount; LNum layer_limit; LNum share;
                         LNum (Num.mul share 100%Q)] ;;;
              if match carrier_name with [] => false | _ => true end
                 && (Num.ltb 0%Q line_amount || Num.ltb 0%Q premium)
              then
                let carrier_data :=
                  Carrier carrier_name share premium carrier_fee surplus_fee
                          (Some []) false [] in
                debug_log "  -> Added carrier: {}, share={} ({}%), line={}, premium={}"
                          [LText carrier_name; LNum share; LNum (Num.mul share 100%Q);
                           LNum line_amount; LNum premium] ;;;
                ret (Walker (Some (add_carrier cur carrier_data)) (current_layer_info st)
                            cm (all_layers st))
              else ret st
          else ret st
      | None => ret st
      end
  | _, _ => ret st
  end.

(** Step 3: a layer header closes the pending layer, when it has
    carriers, and opens the next one. *)
Definition on_layer_header (st : walker) (layer_info : option layer_info) : M walker :=
  debug_log "  -> Layer header detected: {}" (log_info_opt layer_info) ;;;
  saved <-
    (if has_carriers (current_layer st)
     then
       match current_layer st with
       | Some cur =>
           debug_log "  -> Saved previous layer with {} carriers"
                     [LNat (length (carriers cur))] ;;;
           ret (all_layers st ++ [cur])
       | None => ret (all_layers st)
       end
     else ret (all_layers st)) ;;
  match layer_info with
  | Some info =>
      ret (Walker (Some (Layer (li_limit info) (li_attachment info) (li_is_primary info) []))
                  (Some info) (w_col_map st) saved)
  | None => ret (Walker None None (w_col_map st) saved)
  end.

(** The body of the loop over the rows of a sheet. *)
Definition process_row (st : walker) (row_idx : nat) (row : list pyval) : M walker :=
  if negb (any row) then ret st
  else
    debug_log "\nRow {}: {}" (LNat row_idx :: map LVal (firstn 8 row)) ;;;
    if is_skip_row row
    then debug_log "  -> Skipping (skip row)" [] ;;; ret st
    else
      total <- is_total_row row ;;
      if (total : bool)
      then debug_log "  -> Skipping (total row)" [] ;;; ret st
      else
        header <- is_layer_header_row row ;;
        st1 <- (if fst header then on_layer_header st (snd header) else ret st) ;;
        columns <- is_participant_header_row row ;;
        if (columns : bool)
        then
          cm <- map_columns row ;;
          debug_log "  -> Participant header, col_map: {}" (log_col_map cm) ;;;
          ret (Walker (current_layer st1) (current_layer_info st1) cm (all_layers st1))
        else extract_carrier st1 row.

Fixpoint process_rows (st : walker) (row_idx : nat) (rows : list (list pyval)) : M walker :=
  match rows with
  | [] => ret st
  | row :: rest =>
      st' <- process_row st row_idx row ;;
      process_rows st' (S row_idx) rest
  end.

(** A workbook as [load_workbook(..., data_only=True)] gives it: the
    sheets in order, each with its name and its rows of cell values. *)
Definition worksheet : Type := (text * list (list pyval))%type.
Definition workbook : Type := list worksheet.

(** The loop over the sheets.  Its state is [all_layers] and the
    variable [current_layer], which is unbound ([None]) until a first
    sheet is entered and is read after the loop. *)
Fixpoint process_sheets (layers : list layer) (last : option (option layer))
         (sheets : workbook) : M (list layer * option (option layer)) :=
  match sheets with
  | [] => ret (layers, last)
  | (sheet_name, rows) :: rest =>
      debug_log "\n{}" [LText "=================================================="] ;;;
      debug_log "Processing sheet: {}" [LText sheet_name] ;;;
      debug_log "{}" [LText "=================================================="] ;;;
      st <- process_rows (Walker None None empty_col_map layers) 1 rows ;;
      process_sheets (all_layers st) (Some (current_layer st)) rest
  end.

Definition UnboundLocalError : exn :=
  Exn "UnboundLocalError"
      "cannot access local variable 'current_layer' where it is not associated with a value".


(** *** The per-document merge at the end of [parse_excel_program] *)

(** A carrier is added to a bucket unless the same entry is there. *)
Definition dedup_carrier (cs : list carrier) (c : carrier) : list carrier :=
  if existsb (fun existing => same_entry existing c) cs then cs else cs ++ [c].

Definition dedup_layer (d : layer_dict) (l : layer) : layer_dict :=
  fold_left (fun d c => dict_update (key_of l)
                                    (fun b => with_carriers (dedup_carrier (carriers b) c) b) d)
            (carriers l) (open_bucket l d).

Definition merged_layers (layers : list layer) : layer_dict :=
  fold_left dedup_layer layers [].

(** *** [parse_excel_program] *)

Record parse_result : Type := ParseResult
  { pr_filename : text;
    pr_layers : list layer;
    pr_success : bool;
    pr_error : option text }.

Definition warning_log (template : string) (args : list log_arg) : M unit :=
  fun d => (Ret tt, if d then [Log WARNING template args] else []).

Definition exception_log (template : string) (args : list log_arg) : M unit :=
  fun d => (Ret tt, if d then [Log EXCEPTION template args] else []).

Fixpoint for_each {A} (f : A -> M unit) (xs : list A) : M unit :=
  match xs with
  | [] => ret tt
  | x :: rest => f x ;;; for_each f rest
  end.

(** The closing loop, which only reports the shares of each layer. *)
Definition report_layer (l : layer) : M unit :=
  match carriers l with
  | [] => ret tt
  | cs =>
      let total_share := fold_left (fun acc c => Num.add acc (share c)) cs 0%Q in
      debug_log "\nLayer ${} xs ${}:" [LNum (limit l); LNum (attachment l)] ;;;
      for_each (fun c => debug_log "  - {}: {}% (line ~${})"
                                   [LText (carrier_name c); LNum (Num.mul (share c) 100%Q);
                                    LNum (Num.mul (share c) (limit l))]) cs ;;;
      debug_log "  TOTAL: {}%" [LNum (Num.mul total_share 100%Q)] ;;;
      if Num.ltb (1 # 100) (Num.abs (Num.sub total_share 1%Q))
      then warning_log "  Shares don't sum to 100%! Total: {}%"
                       [LNum (Num.mul total_share 100%Q)]
      else ret tt
  end.

(** [openpyxl.load_workbook(io.BytesIO(excel_bytes), data_only=True)] *)
Variable load_workbook : list Byte.byte -> result workbook.

(** The [try] block. *)
Definition parse_body (excel_bytes : list Byte.byte) (filename : text) : M parse_result :=
  wb <- lift (load_workbook excel_bytes) ;;
  walked <- process_sheets [] None wb ;;
  match snd walked with
  | None => raise UnboundLocalError
  | Some cur =>
      layers <-
        (if has_carriers cur
         then
           match cur with
           | Some l =>
               debug_log "\nSaved final layer with {} carriers" [LNat (length (carriers l))] ;;;
               ret (fst walked ++ [l])
           | None => ret (fst walked)
           end
         else ret (fst walked)) ;;
      let result_layers := sorted_by_attachment (map snd (merged_layers layers)) in
      debug_log "\n{}" [LText "=================================================="] ;;;
      debug_log "Parse complete: {} layers found" [LNat (length result_layers)] ;;;
      for_each report_layer result_layers ;;;
      ret (ParseResult filename result_layers true None)
  end.

Definition try_except {A} (body : M A) (handler : exn -> M A) : M A :=
  fun d =>
    match body d with
    | (Ret a, l) => (Ret a, l)
    | (Raise e, l) => let '(r, l') := handler e d in (r, l ++ l')
    end.

(** [parse_excel_program(excel_bytes, filename, debug)].  The function
    sets [DEBUG_PARSING] when [debug] is true and restores it in its
    [finally] clause: its body runs with the flag [original_debug ||
    debug]. *)
Definition parse_excel_program (excel_bytes : list Byte.byte) (filename : text)
           (debug : bool) : M parse_result :=
  fun original_debug =>
    try_except
      (parse_body excel_bytes filename)
      (fun e =>
         exception_log "Error parsing Excel file: {}" [LText (exn_msg e)] ;;;
         ret (ParseResult filename [] false (Some (exn_msg e))))
      (original_debug || debug).

(** *** [merge_excel_programs] *)

(** An incoming carrier is summed into the first same entry of the
    bucket, or a copy of it is appended. *)
Fixpoint merge_carrier (cs : list carrier) (c : carrier) : list carrier :=
  match cs with
  | [] => [c]
  | existing :: rest =>
      if same_entry existing c
      then Carrier (carrier_name existing) (share existing)
                   (Num.add (premium existing) (premium c))
                   (Num.add (carrier_fee existing) (carrier_fee c))
                   (Num.add (surplus_fee existing) (surplus_fee c))
                   (policy_number existing) (has_multiple_rbes existing) (rbes existing)
           :: rest
      else existing :: merge_carrier rest c
  end.

Definition merge_layer (d : layer_dict) (l : layer) : layer_dict :=
  fold_left (fun d c => dict_update (key_of l)
                                    (fun b => with_carriers (merge_carrier (carriers b) c) b) d)
            (carriers l) (open_bucket l d).

Definition merge_document (d : layer_dict) (excel_data : parse_result) : layer_dict :=
  if pr_success excel_data then fold_left merge_layer (pr_layers excel_data) d else d.

Record merged_program : Type := MergedProgram
  { mp_layers : list layer;
    documents_processed : nat;
    documents_failed : nat }.

Definition merge_excel_programs (excel_data_list : list parse_result) : merged_program :=
  let layer_dict := fold_left merge_document excel_data_list [] in
  MergedProgram
    (sorted_by_attachment (map snd layer_dict))
    (length (filter pr_success excel_data_list))
    (length (filter (fun d => negb (pr_success d)) excel_data_list)).

End Rows.

End ExcelParser.

(** ** [pdf_parser.py] *)

Module PdfParser.
Import Re.
Import LayerDict.

(** *** Numeric normalizer *)

Definition AttributeError (type_name : string) : exn :=
  Exn "AttributeError"
      (("'" : text) ++ (type_name : text) ++ ("' object has no attribute 'upper'" : text)).

(** [re.sub(r"[$,\s]", "", value_str.upper())] *)
Definition clean (s : text) : text :=
  sub false (Set_ false [IChar "$"; IChar ","; ISpace]) (fun _ => []) (Py.upper s).

(** The suffix cascade of this module's [parse_currency]: [M], then [K]. *)
Definition detect_suffix (clean_str : text) : Z * text :=
  if Py.contains "M" clean_str then (1000000%Z, Py.replace "M" "" clean_str)
  else if Py.contains "K" clean_str then (1000%Z, Py.replace "K" "" clean_str)
  else (1%Z, clean_str).

(** The parameter is annotated [str]; a number that is not zero reaches
    [value_str.upper()], which it does not have. *)
Definition parse_currency (value_str : pyval) : result Q :=
  if negb (truthy value_str) then Ret 0%Q
  else
    match value_str with
    | VStr s =>
        let '(multiplier, clean_str) := detect_suffix (clean s) in
        match Num.py_float clean_str with
        | Some q => Ret (Num.mul q (Num.of_Z multiplier))
        | None => Ret 0%Q
        end
    | VInt _ => Raise (AttributeError "int")
    | VFloat _ => Raise (AttributeError "float")
    | VBool _ => Raise (AttributeError "bool")
    | VNone => Ret 0%Q
    end.

(** *** Shared pieces of the patterns *)

(** [[\d,]+(?:\.\d+)?[MK]?] *)
Definition money : re :=
  seq [Plus true (Set_ false [IDigit; IChar ","]); Opt (Cat (Lit ".") (Plus true digit));
       Opt (set "MK" [])].

(** [(?:excess\s+of|xs|x/s)] *)
Definition excess_of : re :=
  alts [seq [Lit "excess"; spaces1; Lit "of"]; Lit "xs"; Lit "x/s"].

(** [(?:primary|primary\s+layer)] *)
Definition primary_word : re :=
  alts [Lit "primary"; seq [Lit "primary"; spaces1; Lit "layer"]].

(** [([A-Za-z][A-Za-z\s&\'.]+?)(?:Limits?)?:] with the name as group 1 *)
Definition named : re :=
  seq [Grp 1 (Cat (Set_ false [IRange "A" "Z"; IRange "a" "z"])
                  (Plus false (Set_ false [IRange "A" "Z"; IRange "a" "z"; ISpace;
                                           IChar "&"; IChar "'"; IChar "."])));
       Opt (Cat (Lit "Limit") (Opt (Lit "s"))); Lit ":"].

(** [\s+that\s+being\s+([\d.]+)%[^;]*?;\s*part\s+of\s+] with the
    percentage as group [n] *)
Definition that_being (n : nat) : re :=
  seq [spaces1; Lit "that"; spaces1; Lit "being"; spaces1;
       Grp n (Plus true (Set_ false [IDigit; IChar "."])); Lit "%";
       Star false (Set_ true [IChar ";"]); Lit ";"; spaces0;
       Lit "part"; spaces1; Lit "of"; spaces1].

(** [\s*\((?:being\s+)?([\d.]+)%\)\s*part\s+of\s+] with the percentage as
    group [n] *)
Definition in_parens (n : nat) : re :=
  seq [spaces0; Lit "("; Opt (Cat (Lit "being") spaces1);
       Grp n (Plus true (Set_ false [IDigit; IChar "."])); Lit "%"; Lit ")"; spaces0;
       Lit "part"; spaces1; Lit "of"; spaces1].

(** *** Limits *)

(** [\$?[\d,]+(?:\.\d+)?[MK]?\s*(?:excess\s+of|xs|x/s)\s*\$?[\d,]+(?:\.\d+)?[MK]?] *)
Definition excess_pattern : re :=
  seq [Opt (Lit "$"); money; spaces0; excess_of; spaces0; Opt (Lit "$"); money].

(** [\$?[\d,]+(?:\.\d+)?[MK]?\s*(?:primary|primary\s+layer)] *)
Definition primary_pattern : re :=
  seq [Opt (Lit "$"); money; spaces0; primary_word].

(** [(?:limit|coverage)[:\s]+\$?[\d,]+(?:\.\d+)?[MK]?] *)
Definition limit_pattern : re :=
  seq [alts [Lit "limit"; Lit "coverage"]; Plus true (Set_ false [IChar ":"; ISpace]);
       Opt (Lit "$"); money].

(** [(?:attachment|retention)[:\s]+\$?[\d,]+(?:\.\d+)?[MK]?] *)
Definition attachment_pattern : re :=
  seq [alts [Lit "attachment"; Lit "retention"]; Plus true (Set_ false [IChar ":"; ISpace]);
       Opt (Lit "$"); money].

(** [s.split(":")[-1].strip()] *)
Definition after_last_colon (s : text) : text :=
  Py.strip (last (Py.split ":" s) []).

Definition from_excess (m : mobj) : result (list layer_info) :=
  let match_text := group0 m in
  match split true excess_of match_text with
  | [before; after] =>
      rbind (parse_currency (VStr (Py.strip before))) (fun limit =>
      rbind (parse_currency (VStr (Py.strip after))) (fun attachment =>
      Ret [LayerInfo limit attachment false (Py.strip match_text)]))
  | _ => Ret []
  end.

Definition from_primary (m : mobj) : result (list layer_info) :=
  let match_text := group0 m in
  rbind (parse_currency (VStr match_text)) (fun limit =>
  if Num.ltb 0%Q limit then Ret [LayerInfo limit 0%Q true (Py.strip match_text)]
  else Ret []).

Definition from_limit (text : text) (m : mobj) : result (list layer_info) :=
  let match_text := group0 m in
  rbind (parse_currency (VStr (after_last_colon match_text))) (fun limit =>
  if Num.ltb 0%Q limit then
    let context := Py.slice (m_start m - 100) (Nat.min (length text) (m_end m + 100)) text in
    rbind (match search true attachment_pattern context with
           | Some am => parse_currency (VStr (after_last_colon (group0 am)))
           | None => Ret 0%Q
           end) (fun attachment =>
    Ret [LayerInfo limit attachment (Num.eqb attachment 0%Q) (Py.strip match_text)])
  else Ret []).

(** A [for] loop that appends what [f] makes of each match. *)
Fixpoint collect {A B} (f : A -> result (list B)) (xs : list A) : result (list B) :=
  match xs with
  | [] => Ret []
  | x :: rest => rbind (f x) (fun ys => rbind (collect f rest) (fun zs => Ret (ys ++ zs)))
  end.

Definition extract_limit_patterns (text : text) : result (list layer_info) :=
  rbind (collect from_excess (finditer true excess_pattern text)) (fun l1 =>
  rbind (collect from_primary (finditer true primary_pattern text)) (fun l2 =>
  rbind (collect (from_limit text) (finditer true limit_pattern text)) (fun l3 =>
  Ret (l1 ++ l2 ++ l3)))).

(** *** Part-of allocations *)

Record part_of : Type := PartOf
  { po_carrier_name : text;
    po_carrier_limit : Q;
    po_share : Q;
    po_layer_limit : Q;
    po_attachment : Q;
    po_is_primary : bool;
    po_raw_text : text }.

Definition ValueError (s : text) : exn :=
  Exn "ValueError" (("could not convert string to float: '" : text) ++ s ++ ("'" : text)).

(** [float(s)] where the exception is not handled *)
Definition float_of_text (s : text) : result Q :=
  match Num.py_float s with
  | Some q => Ret q
  | None => Raise (ValueError s)
  end.

Definition dollars : re := Opt (Lit "$").

(** Pattern 1, [that_being_pattern] *)
Definition that_being_pattern : re :=
  seq [named; spaces0; dollars; Grp 2 money; that_being 3; dollars; Grp 4 money;
       spaces0; excess_of; spaces0; dollars; Grp 5 money].

(** Pattern 2, [part_of_pattern] *)
Definition part_of_pattern : re :=
  seq [named; spaces0; dollars; Grp 2 money; in_parens 3; dollars; Grp 4 money;
       spaces0; excess_of; spaces0; dollars; Grp 5 money].

(** Pattern 3, [simple_that_being] *)
Definition simple_that_being : re :=
  seq [dollars; Grp 1 money; that_being 2; dollars; Grp 3 money;
       spaces0; excess_of; spaces0; dollars; Grp 4 money].

(** Pattern 4, [simple_part_of] *)
Definition simple_part_of : re :=
  seq [dollars; Grp 1 money; in_parens 2; dollars; Grp 3 money;
       spaces0; excess_of; spaces0; dollars; Grp 4 money].

(** Pattern 5, [primary_that_being] *)
Definition primary_that_being : re :=
  seq [named; spaces0; dollars; Grp 2 money; that_being 3; dollars; Grp 4 money;
       spaces0; primary_word].

(** Pattern 6, [primary_part_of] *)
Definition primary_part_of : re :=
  seq [named; spaces0; dollars; Grp 2 money; in_parens 3; dollars; Grp 4 money;
       spaces0; primary_word].

Definition group_money (n : nat) (m : mobj) : result Q :=
  parse_currency (VStr (group_or_empty n m)).

Definition hundredth (percentage : Q) : Q := Num.div percentage 100%Q.

(** The body of the loops of patterns 1 and 2. *)
Definition named_excess (results : list part_of) (m : mobj) : result (list part_of) :=
  let carrier_name := Py.strip (group_or_empty 1 m) in
  rbind (group_money 2 m) (fun carrier_amount =>
  rbind (float_of_text (group_or_empty 3 m)) (fun percentage =>
  rbind (group_money 4 m) (fun layer_limit =>
  rbind (group_money 5 m) (fun attachment =>
  Ret (results ++ [PartOf carrier_name carrier_amount (hundredth percentage) layer_limit
                          attachment false (Py.strip (group0 m))]))))).

(** [any(r["raw_text"] in match.group(0) for r in results)] *)
Definition already_captured (results : list part_of) (m : mobj) : bool :=
  existsb (fun r => Py.contains (po_raw_text r) (group0 m)) results.

(** The body of the loops of patterns 3 and 4. *)
Definition simple_excess (results : list part_of) (m : mobj) : result (list part_of) :=
  if already_captured results m then Ret results
  else
    rbind (group_money 1 m) (fun carrier_amount =>
    rbind (float_of_text (group_or_empty 2 m)) (fun percentage =>
    rbind (group_money 3 m) (fun layer_limit =>
    rbind (group_money 4 m) (fun attachment =>
    Ret (results ++ [PartOf "Unknown Carrier" carrier_amount (hundredth percentage)
                            layer_limit attachment false (Py.strip (group0 m))]))))).

(** The body of the loops of patterns 5 and 6. *)
Definition named_primary (results : list part_of) (m : mobj) : result (list part_of) :=
  let carrier_name := Py.strip (group_or_empty 1 m) in
  rbind (group_money 2 m) (fun carrier_amount =>
  rbind (float_of_text (group_or_empty 3 m)) (fun percentage =>
  rbind (group_money 4 m) (fun layer_limit =>
  Ret (results ++ [PartOf carrier_name carrier_amount (hundredth percentage) layer_limit
                          0%Q true (Py.strip (group0 m))])))).

(** [for match in re.finditer(pattern, text, re.IGNORECASE): ...] *)
Fixpoint for_matches (body : list part_of -> mobj -> result (list part_of))
         (ms : list mobj) (results : list part_of) : result (list part_of) :=
  match ms with
  | [] => Ret results
  | m :: rest => rbind (body results m) (for_matches body rest)
  end.

Definition extract_part_of_patterns (text : text) : result (list part_of) :=
  rbind (for_matches named_excess (finditer true that_being_pattern text) []) (fun r1 =>
  rbind (for_matches named_excess (finditer true part_of_pattern text) r1) (fun r2 =>
  rbind (for_matches simple_excess (finditer true simple_that_being text) r2) (fun r3 =>
  rbind (for_matches simple_excess (finditer true simple_part_of text) r3) (fun r4 =>
  rbind (for_matches named_primary (finditer true primary_that_being text) r4) (fun r5 =>
  for_matches named_primary (finditer true primary_part_of text) r5))))).

(** *** Carrier and percentage pairs *)

Record pdf_carrier : Type := PdfCarrier
  { pc_carrier_name : text;
    pc_share : Q;
    pc_premium : Q;
    pc_raw_text : text }.

Definition carrier_keywords : list text :=
  [ "insurance" : text; "assurance" : text; "indemnity" : text; "underwriters" : text;
    "syndicate" : text; "lloyd" : text; "mutual" : text; "casualty" : text; "risk" : text ].

Definition decimal : re := Cat (Plus true digit) (Opt (Cat (Lit ".") (Plus true digit))).

(** [(\d+(?:\.\d+)?)\s*%] *)
Definition percentage_pattern : re := seq [Grp 1 decimal; spaces0; Lit "%"].

(** [^(.+?)[\s-]*\d+(?:\.\d+)?\s*%] *)
Definition carrier_name_pattern : re :=
  seq [Bol; Grp 1 (Plus false Dot); Star true (Set_ false [ISpace; IChar "-"]);
       decimal; spaces0; Lit "%"].

(** [(?:premium|prem)[:\s]+\$?[\d,]+(?:\.\d+)?] *)
Definition premium_pattern : re :=
  seq [alts [Lit "premium"; Lit "prem"]; Plus true (Set_ false [IChar ":"; ISpace]);
       dollars; Plus true (Set_ false [IDigit; IChar ","]);
       Opt (Cat (Lit ".") (Plus true digit))].

(** The premium of the first context line that has one, else [0]. *)
Fixpoint nearby_premium (context_lines : list text) : result Q :=
  match context_lines with
  | [] => Ret 0%Q
  | context_line :: rest =>
      match search true premium_pattern context_line with
      | Some pm => parse_currency (VStr (group0 pm))
      | None => nearby_premium rest
      end
  end.

Definition carrier_of_line (lines : list text) (i : nat) (line : text)
  : result (list pdf_carrier) :=
  match search false percentage_pattern line with
  | Some percentage_match =>
      let line_lower := Py.lower line in
      let has_carrier_keyword :=
        existsb (fun keyword => Py.contains keyword line_lower) carrier_keywords in
      if has_carrier_keyword || (2 <? length (Py.words line)) then
        match search false carrier_name_pattern line with
        | Some carrier_name_match =>
            let carrier_name := Py.strip (group_or_empty 1 carrier_name_match) in
            rbind (float_of_text (group_or_empty 1 percentage_match)) (fun percentage =>
            let context_lines :=
              firstn (Nat.min (length lines) (i + 3) - (i - 2)) (skipn (i - 2) lines) in
            rbind (nearby_premium context_lines) (fun premium =>
            Ret [PdfCarrier carrier_name (hundredth percentage) premium (Py.strip line)]))
        | None => Ret []
        end
      else Ret []
  | None => Ret []
  end.

Fixpoint carriers_from (lines : list text) (i : nat) (todo : list text)
  : result (list pdf_carrier) :=
  match todo with
  | [] => Ret []
  | line :: rest =>
      rbind (carrier_of_line lines i line) (fun cs =>
      rbind (carriers_from lines (S i) rest) (fun more => Ret (cs ++ more)))
  end.

Definition extract_carrier_info (text : text) : result (list pdf_carrier) :=
  let lines := Py.split Re.newline text in
  carriers_from lines 0 lines.

(** *** Policy number *)

(** [(?:<kind>\s+(?:no|number|#))[:\s]+([A-Z0-9-]+)] *)
Definition number_pattern (kind : string) : re :=
  seq [Lit kind; spaces1; alts [Lit "no"; Lit "number"; Lit "#"];
       Plus true (Set_ false [IChar ":"; ISpace]);
       Grp 1 (Plus true (Set_ false [IRange "A" "Z"; IRange "0" "9"; IChar "-"]))].

Definition extract_policy_number (txt : text) : option text :=
  match find (fun p => match search true p txt with Some _ => true | None => false end)
             [number_pattern "policy"; number_pattern "certificate"; number_pattern "binder"]
  with
  | Some p =>
      match search true p txt with
      | Some m => Some (Py.strip (group_or_empty 1 m))
      | None => None
      end
  | None => None
  end.

(** *** [parse_insurance_pdf] *)

(** The dictionary [parse_insurance_pdf] returns.  The failure dictionary
    has no [document_type], [policy_number], [part_of_data] and
    [raw_text] keys: they read here as the defaults [merge_parsed_documents]
    gives to [doc.get], and [pd_document_type] as the empty text. *)
Record pdf_result : Type := PdfResult
  { pd_filename : text;
    pd_document_type : text;
    pd_policy_number : option text;
    pd_limits : list layer_info;
    pd_carriers : list pdf_carrier;
    pd_part_of_data : list part_of;
    pd_raw_text : text;
    pd_success : bool;
    pd_error : option text }.

Section Parse.

(** [pdfplumber.open(io.BytesIO(pdf_bytes))]: what [extract_text()]
    gives for each page, or the exception the library raises. *)
Variable pdf_pages : list Byte.byte -> result (list (option text)).

Definition extract_text_from_pdf (pdf_bytes : list Byte.byte) : result text :=
  match pdf_pages pdf_bytes with
  | Ret pages =>
      let text_content :=
        flat_map (fun page_text =>
                    match page_text with
                    | Some ((_ :: _) as t) => [t]
                    | _ => []
                    end) pages in
      Ret (Py.join [Re.newline] text_content)
  | Raise e =>
      Raise (Exn "Exception" (("Error extracting PDF text: " : text) ++ exn_msg e))
  end.

Definition document_type (txt : text) : text :=
  let text_lower := Py.lower txt in
  if Py.contains "quote" text_lower then "Quote" : text
  else if Py.contains "binder" text_lower then "Binder" : text
  else if Py.contains "policy" text_lower then "Policy" : text
  else if Py.contains "certificate" text_lower then "Certificate" : text
  else "Unknown" : text.

(** The [try] block. *)
Definition parse_body (pdf_bytes : list Byte.byte) (filename : text) : result pdf_result :=
  rbind (extract_text_from_pdf pdf_bytes) (fun txt =>
  rbind (extract_part_of_patterns txt) (fun part_of_data =>
  rbind (extract_limit_patterns txt) (fun limits =>
  rbind (extract_carrier_info txt) (fun carriers =>
  let policy_number := extract_policy_number txt in
  Ret (PdfResult filename (document_type txt) policy_number limits carriers part_of_data
                 (firstn 1000 txt) true None))))).

Definition parse_insurance_pdf (pdf_bytes : list Byte.byte) (filename : text) : pdf_result :=
  match parse_body pdf_bytes filename with
  | Ret r => r
  | Raise e => PdfResult filename [] None [] [] [] [] false (Some (exn_msg e))
  end.

End Parse.

(** *** [merge_parsed_documents] *)

Definition add_premium (existing : carrier) (amount : Q) : carrier :=
  Carrier (carrier_name existing) (share existing) (Num.add (premium existing) amount)
          (carrier_fee existing) (surplus_fee existing) (policy_number existing)
          (has_multiple_rbes existing) (rbes existing).

(** Priority 1: a part-of allocation goes to the first carrier of the
    bucket with its name, or becomes a new carrier. *)
Fixpoint add_part_of (policy : option text) (cs : list carrier) (p : part_of)
  : list carrier :=
  match cs with
  | [] => [Carrier (po_carrier_name p) (po_share p) (po_carrier_limit p) 0%Q 0%Q policy
                   false []]
  | existing :: rest =>
      if Py.text_eqb (carrier_name existing) (po_carrier_name p)
      then add_premium existing (po_carrier_limit p) :: rest
      else existing :: add_part_of policy rest p
  end.

(** Priority 2: a plain carrier of the document. *)
Fixpoint add_plain (policy : option text) (cs : list carrier) (c : pdf_carrier)
  : list carrier :=
  match cs with
  | [] => [Carrier (pc_carrier_name c) (pc_share c) (pc_premium c) 0%Q 0%Q policy false []]
  | existing :: rest =>
      if Py.text_eqb (carrier_name existing) (pc_carrier_name c)
      then add_premium existing (pc_premium c) :: rest
      else existing :: add_plain policy rest c
  end.

Definition merge_part_of (policy : option text) (d : layer_dict) (p : part_of) : layer_dict :=
  let bucket := Layer (po_layer_limit p) (po_attachment p) (po_is_primary p) [] in
  dict_update (key_of bucket)
              (fun b => with_carriers (add_part_of policy (carriers b) p) b)
              (open_bucket bucket d).

Definition merge_limit (doc : pdf_result) (d : layer_dict) (limit_info : layer_info)
  : layer_dict :=
  let bucket := Layer (li_limit limit_info) (li_attachment limit_info)
                      (li_is_primary limit_info) [] in
  let d1 := open_bucket bucket d in
  match dict_find (key_of bucket) d1 with
  | Some b =>
      match carriers b with
      | [] =>
          fold_left (fun d c =>
                       dict_update (key_of bucket)
                                   (fun b => with_carriers
                                               (add_plain (pd_policy_number doc) (carriers b) c) b)
                                   d)
                    (pd_carriers doc) d1
      | _ => d1
      end
  | None => d1
  end.

Definition merge_document (d : layer_dict) (doc : pdf_result) : layer_dict :=
  if pd_success doc then
    let d1 := fold_left (merge_part_of (pd_policy_number doc)) (pd_part_of_data doc) d in
    fold_left (merge_limit doc) (pd_limits doc) d1
  else d.

Record merged_program : Type := MergedProgram
  { mp_layers : list layer;
    documents_processed : nat;
    documents_failed : nat }.

Definition merge_parsed_documents (parsed_docs : list pdf_result) : merged_program :=
  let layer_dict := fold_left merge_document parsed_docs [] in
  MergedProgram
    (sorted_by_attachment (map snd layer_dict))
    (length (filter pd_success parsed_docs))
    (length (filter (fun d => negb (pd_success d)) parsed_docs)).

End PdfParser.

(** * Properties *)

Unset Implicit Arguments.

(** ** Definitions used to state the properties *)

(** A precedence table of suffixes: the multiplier of the first suffix, in
    the order of the table, that occurs in the upper-cased text; 1 when none
    occurs. *)
Definition precedence (table : list (text * Z)) (upper_str : text) : Z :=
  match find (fun entry => Py.contains (fst entry) upper_str) table with
  | Some entry => snd entry
  | None => 1%Z
  end.

(** MM, then BL, then B, then M, then K. *)
Definition spreadsheet_suffixes : list (text * Z) :=
  [ ("MM" : text, 1000000%Z); ("BL" : text, 1000000000%Z); ("B" : text, 1000000000%Z);
    ("M" : text, 1000000%Z); ("K" : text, 1000%Z) ].

(** M, then K. *)
Definition pdf_suffixes : list (text * Z) :=
  [ ("M" : text, 1000000%Z); ("K" : text, 1000%Z) ].

(** What [parse_currency] of [excel_parser.py] looks for suffixes in. *)
Definition stripped (s : text) : text :=
  Py.strip (Py.replace "," "" (Py.replace "$" "" s)).

(** An integer that [float] converts without overflow; other values are
    not constrained. *)
Definition in_float_range (v : pyval) : Prop :=
  match v with
  | VInt z => (Z.abs z < 2 ^ 1024 - 2 ^ 970)%Z
  | _ => True
  end.

(** The number a numeric value stands for. *)
Definition numeric_value (v : pyval) : option Q :=
  match v with
  | VInt z => Some (inject_Z z)
  | VFloat q => Some q
  | VBool b => Some (if b then 1%Q else 0%Q)
  | _ => None
  end.

(** The text that reaches [float] in [excel_parser.parse_currency]. *)
Definition spreadsheet_remainder (s : text) : text :=
  ExcelParser.clean_numeric (snd (ExcelParser.detect_suffix (stripped s))).

(** The text that reaches [float] in [pdf_parser.parse_currency]. *)
Definition pdf_remainder (s : text) : text :=
  snd (PdfParser.detect_suffix (PdfParser.clean s)).

(** The first element that satisfies [p], with what comes before and
    after it. *)
Fixpoint split_first {A} (p : A -> bool) (xs : list A) : option (list A * A * list A) :=
  match xs with
  | [] => None
  | x :: rest =>
      if p x then Some ([], x, rest)
      else match split_first p rest with
           | Some (pre, y, post) => Some (x :: pre, y, post)
           | None => None
           end
  end.

(** An entry with the premium and the two fees of [c] added to its own. *)
Definition summed (existing c : carrier) : carrier :=
  Carrier (carrier_name existing) (share existing)
          (Num.add (premium existing) (premium c))
          (Num.add (carrier_fee existing) (carrier_fee c))
          (Num.add (surplus_fee existing) (surplus_fee c))
          (policy_number existing) (has_multiple_rbes existing) (rbes existing).

(** A document of the PDF path with two allocations of one carrier, with
    shares 25% and 50%, in the layer 4,000,000 excess of 1,000,000. *)
Definition two_participations : PdfParser.pdf_result :=
  PdfParser.PdfResult
    "quote.pdf" "Quote" None [] []
    [ PdfParser.PartOf "Carrier A" 1000000 (1 # 4) 4000000 1000000 false
                       "Carrier A: $1M (25%) part of $4M xs $1M";
      PdfParser.PartOf "Carrier A" 2000000 (1 # 2) 4000000 1000000 false
                       "Carrier A: $2M (50%) part of $4M xs $1M" ]
    [] true None.

(** A computation whose outcome does not depend on [DEBUG_PARSING]. *)
Definition pure_value {A} (m : M A) : Prop :=
  forall d d' : bool, value m d = value m d'.

(** A cell that counts as a header keyword: its cleaned text is a header
    keyword, or its text starts with one followed by a space or an opening
    parenthesis. *)
Definition is_header_keyword_cell (float_repr : Q -> text) (cell : pyval) : bool :=
  truthy cell
  && existsb (fun kw =>
                Py.text_eqb (ExcelParser.cell_clean_of (ExcelParser.cell_text_of float_repr cell)) kw
                || Py.startswith (kw ++ (" " : text)) (ExcelParser.cell_text_of float_repr cell)
                || Py.startswith (kw ++ ("(" : text)) (ExcelParser.cell_text_of float_repr cell))
             ExcelParser.header_keywords.

Definition header_keyword_cells (float_repr : Q -> text) (row : list pyval) : nat :=
  length (filter (is_header_keyword_cell float_repr) row).

(** The layer a header with information [info] opens. *)
Definition opened (info : option layer_info) : option layer :=
  match info with
  | Some i => Some (Layer (li_limit i) (li_attachment i) (li_is_primary i) [])
  | None => None
  end.

(** The completed layers once the pending layer of the walker is closed:
    it is kept when it has carriers. *)
Definition flushed (st : ExcelParser.walker) : list layer :=
  match ExcelParser.current_layer st with
  | Some cur =>
      match carriers cur with
      | [] => ExcelParser.all_layers st
      | _ => ExcelParser.all_layers st ++ [cur]
      end
  | None => ExcelParser.all_layers st
  end.

(** A workbook row that is both a layer header and a column header. *)
Definition header_and_columns_row : list pyval :=
  [VStr "$75M ex $100M"; VStr "Participant"; VStr "Line"; VStr "Premium"].

Definition plain_repr (q : Q) : text := "0.0".

(** Whatever a computation returns satisfies [P]. *)
Definition post {A} (m : M A) (P : A -> Prop) : Prop :=
  forall (d : bool) (a : A), value m d = Ret a -> P a.

(** A layer with at least one carrier. *)
Definition has_carrier (l : layer) : Prop := carriers l <> [].

(** A dictionary in which every bucket has a carrier. *)
Definition full_buckets (d : LayerDict.layer_dict) : Prop :=
  Forall (fun entry => has_carrier (snd entry)) d.

(** A row in which [is_layer_header_row] finds no layer header. *)
Definition no_layer_header_row (row : list pyval) : bool :=
  match value (ExcelParser.is_layer_header_row row) false with
  | Ret (false, _) => true
  | _ => false
  end.

(** A workbook in which no row of any sheet is a layer header. *)
Definition no_layer_header (wb : ExcelParser.workbook) : bool :=
  forallb (fun sheet => forallb no_layer_header_row (snd sheet)) wb.

Definition no_match (ci : bool) (r : Re.re) (s : text) : bool :=
  match Re.finditer ci r s with
  | [] => true
  | _ => false
  end.

(** A text in which none of the patterns of the limit and part-of
    families matches and no line holds a percentage. *)
Definition matches_nothing (txt : text) : bool :=
  forallb (fun r => no_match true r txt)
          [ PdfParser.that_being_pattern; PdfParser.part_of_pattern;
            PdfParser.simple_that_being; PdfParser.simple_part_of;
            PdfParser.primary_that_being; PdfParser.primary_part_of;
            PdfParser.excess_pattern; PdfParser.primary_pattern; PdfParser.limit_pattern ]
  && forallb (fun line => match Re.search false PdfParser.percentage_pattern line with
                          | None => true
                          | Some _ => false
                          end)
             (Py.split Re.newline txt).

(** The record [parse_excel_program] returns when [e] is raised. *)
Definition excel_failure (filename : text) (e : exn) : ExcelParser.parse_result :=
  ExcelParser.ParseResult filename [] false (Some (exn_msg e)).

(** The record [parse_insurance_pdf] returns when [e] is raised. *)
Definition pdf_failure (filename : text) (e : exn) : PdfParser.pdf_result :=
  PdfParser.PdfResult filename [] None [] [] [] [] false (Some (exn_msg e)).

(** A workbook with one sheet of notes, and loaders for the examples. *)
Definition notes_workbook : ExcelParser.workbook :=
  [ ("Notes" : text, [ [VStr "Prepared by the broker"]; [VNone; VInt 2024] ]) ].

Definition load_notes (_ : list Byte.byte) : result ExcelParser.workbook :=
  Ret notes_workbook.

Definition cover_page (_ : list Byte.byte) : result (list (option text)) :=
  Ret [Some ("Cover letter for the binder" : text); None].

(** What identifies a bucket and its participations: limit, attachment,
    primary flag, and the name and share of each carrier in order. *)
Definition names_and_shares (cs : list carrier) : list (text * Q) :=
  map (fun c => (carrier_name c, share c)) cs.

Definition bucket_shape (l : layer) : Q * Q * bool * list (text * Q) :=
  (limit l, attachment l, is_primary l, names_and_shares (carriers l)).

Definition dict_shape (d : LayerDict.layer_dict)
  : list (LayerDict.key * (Q * Q * bool * list (text * Q))) :=
  map (fun entry => (fst entry, bucket_shape (snd entry))) d.

(** The premiums of a list of carriers, of a list of layers and of a
    dictionary, added up. *)
Definition carriers_premium (cs : list carrier) : Q :=
  fold_right (fun c acc => (premium c + acc)%Q) 0%Q cs.

Definition total_premium (ls : list layer) : Q :=
  fold_right (fun l acc => (carriers_premium (carriers l) + acc)%Q) 0%Q ls.

Definition dict_premium (d : LayerDict.layer_dict) : Q := total_premium (map snd d).

(** The bucket of the key of [l] holds, for each carrier of [l], an entry
    that is the same entry. *)
Definition covers (d : LayerDict.layer_dict) (l : layer) : Prop :=
  exists b,
    LayerDict.dict_find (LayerDict.key_of l) d = Some b
    /\ forall c, In c (carriers l) ->
                 existsb (fun e => LayerDict.same_entry e c) (carriers b) = true.

(** A parsed schedule: two layers, the first with two participations of
    one carrier. *)
Definition sample_program : ExcelParser.parse_result :=
  ExcelParser.ParseResult
    "schedule.xlsx"
    [ Layer 50000000 0 true
            [ Carrier "Zurich" (1 # 2) 1000 10 5 (Some []) false [];
              Carrier "Zurich" (1 # 4) 500 0 0 (Some []) false [] ];
      Layer 75000000 100000000 false
            [ Carrier "AIG" 1 2000 0 0 (Some []) false [] ] ]
    true None.

(** A workbook whose first sheet holds a layer with one carrier and whose
    second sheet holds a note. *)
Definition two_sheets : ExcelParser.workbook :=
  [ ("Layers" : text,
     [ [VStr "$75M ex $100M"; VStr "Participant"; VStr "Line"; VStr "Premium"];
       [VNone; VStr "Zurich"; VInt 25000000; VInt 1000] ]);
    ("Notes" : text, [ [VStr "Prepared by the broker"] ]) ].

(** The first example of the docstring of [extract_part_of_patterns]. *)
Definition ironshore : text :=
  "Ironshore Limits: $2,500,000 (being 3.333%) part of $75,000,000 excess of $100,000,000".

(** Layers in ascending order of attachment. *)
Definition by_attachment (a b : layer) : Prop := (attachment a <= attachment b)%Q.

(** Two layers with the same (limit, attachment) key. *)
Definition same_key (a b : layer) : bool :=
  LayerDict.key_eqb (LayerDict.key_of a) (LayerDict.key_of b).

(** No entry of the list is the same entry as an earlier one. *)
Definition no_exact_duplicates (cs : list carrier) : Prop :=
  ForallOrdPairs (fun earlier later => LayerDict.same_entry earlier later = false) cs.

(** A dictionary whose keys are pairwise different and are the limit and
    attachment of their buckets. *)
Definition keyed (d : LayerDict.layer_dict) : Prop :=
  ForallOrdPairs (fun k1 k2 => LayerDict.key_eqb k1 k2 = false) (map fst d)
  /\ Forall (fun e => LayerDict.key_of (snd e) = fst e) d.

(** An invariant of the buckets of a dictionary. *)
Definition every_bucket (P : layer -> Prop) (d : LayerDict.layer_dict) : Prop :=
  Forall (fun e => P (snd e)) d.

(** The carriers of a layer have pairwise different names. *)
Definition distinct_names (l : layer) : Prop := NoDup (map carrier_name (carriers l)).

(** A cell whose cleaned text is exactly a header keyword. *)
Definition is_exact_keyword_cell (float_repr : Q -> text) (cell : pyval) : bool :=
  truthy cell
  && Py.mem (ExcelParser.cell_clean_of (ExcelParser.cell_text_of float_repr cell))
            ExcelParser.header_keywords.

Definition exact_keyword_cells (float_repr : Q -> text) (row : list pyval) : nat :=
  length (filter (is_exact_keyword_cell float_repr) row).

(** A divider row that also holds a layer text and column keywords. *)
Definition divider_row : list pyval :=
  [VStr "-----"; VStr "$75M ex $100M"; VStr "Participant"; VStr "Line"; VStr "Premium"].

(** A walker in the middle of a layer. *)
Definition busy_walker : ExcelParser.walker :=
  ExcelParser.Walker
    (Some (Layer 75000000 100000000 false [Carrier "Zurich" (1 # 3) 1000 0 0 (Some []) false []]))
    (Some (LayerInfo 75000000 100000000 false "$75M ex $100M"))
    (ExcelParser.ColMap (Some 1) (Some 2) None (Some 3) None None None (Some 1))
    [].

(** The roles of the column map. *)
Inductive role : Type :=
| RCarrier | RLine | RPpm | RPremium | RFees | RSlTax | RTotal.

(** [col_map.get(role)] *)
Definition column_of (r : role) (m : ExcelParser.col_map) : option nat :=
  match r with
  | RCarrier => ExcelParser.cm_carrier m
  | RLine => ExcelParser.cm_line m
  | RPpm => ExcelParser.cm_ppm m
  | RPremium => ExcelParser.cm_premium m
  | RFees => ExcelParser.cm_fees m
  | RSlTax => ExcelParser.cm_sl_tax m
  | RTotal => ExcelParser.cm_total m
  end.

(** The header texts of a role: the cleaned text of the cell is one of
    the words of the role; for the tax column, the text may also just
    hold "sl" and "tax". *)
Definition role_words (r : role) : list text :=
  match r with
  | RCarrier => [ "participant" : text; "participants" : text; "carrier" : text;
                  "carriers" : text; "firm" : text ]
  | RLine => [ "line" : text; "lines" : text ]
  | RPpm => [ "ppm" : text; "rate" : text ]
  | RPremium => [ "premium" : text; "premiums" : text ]
  | RFees => [ "fee" : text; "fees" : text ]
  | RSlTax => [ "sl tax" : text; "sl taxes" : text ]
  | RTotal => [ "total" : text; "totals" : text ]
  end.

Definition heads_role (float_repr : Q -> text) (r : role) (cell : pyval) : bool :=
  Py.mem (ExcelParser.cell_clean_of (ExcelParser.cell_text_of float_repr cell)) (role_words r)
  || match r with
     | RSlTax => Py.contains "sl" (ExcelParser.cell_text_of float_repr cell)
                 && Py.contains "tax" (ExcelParser.cell_text_of float_repr cell)
     | _ => false
     end.

(** The column of role [r], when there is one, is a cell of the row at or
    after [start_col] that is not empty and heads the role. *)
Definition well_mapped (float_repr : Q -> text) (row : list pyval) (start_col : nat)
           (m : ExcelParser.col_map) : Prop :=
  forall r i,
    column_of r m = Some i ->
    start_col <= i
    /\ exists cell, nth_error row i = Some cell
                    /\ truthy cell = true
                    /\ heads_role float_repr r cell = true.

(** A carrier entry as the walker makes them: the name is stripped, has
    three characters or more, is no boilerplate word and does not look like
    a number; the share is not negative; there is no policy number and no
    risk bearing entity. *)
Definition walker_carrier (c : carrier) : Prop :=
  Py.strip (carrier_name c) = carrier_name c
  /\ 3 <= length (carrier_name c)
  /\ Py.mem (Py.upper (carrier_name c)) ExcelParser.skip_names = false
  /\ Re.match_ false ExcelParser.numeric_name_pattern (carrier_name c) = None
  /\ (0 <= share c)%Q
  /\ policy_number c = Some []
  /\ has_multiple_rbes c = false
  /\ rbes c = [].

(** A primary layer attaches at zero. *)
Definition primary_at_zero (l : layer) : Prop :=
  is_primary l = true -> attachment l = 0%Q.

Definition walker_layer (l : layer) : Prop :=
  primary_at_zero l /\ Forall walker_carrier (carriers l).

(** The same for the dictionary a recognizer returns. *)
Definition info_primary_at_zero (info : option layer_info) : Prop :=
  forall i, info = Some i -> li_is_primary i = true -> li_attachment i = 0%Q.

(** The invariant of the loop over the rows. *)
Definition walker_ok (st : ExcelParser.walker) : Prop :=
  (forall cur, ExcelParser.current_layer st = Some cur -> walker_layer cur)
  /\ Forall walker_layer (ExcelParser.all_layers st).

(** The words a pattern can consume, whatever the order in which the
    matcher tries them. *)
Fixpoint lang (ci : bool) (r : Re.re) (w : text) : Prop :=
  match r with
  | Re.Eps => w = []
  | Re.Lit p => Re.lit_match ci p w = Some []
  | Re.Set_ neg items => exists c, w = [c] /\ xorb neg (Re.set_has ci items c) = true
  | Re.Dot => exists c, w = [c] /\ Py.ascii_eqb c Re.newline = false
  | Re.Cat r1 r2 => exists w1 w2, w = w1 ++ w2 /\ lang ci r1 w1 /\ lang ci r2 w2
  | Re.Alt r1 r2 => lang ci r1 w \/ lang ci r2 w
  | Re.Star _ r1 => exists ws, w = concat ws /\ Forall (lang ci r1) ws
  | Re.Grp _ r1 => lang ci r1 w
  | Re.Bol => w = []
  | Re.Eol => w = []
  end.

(** Every word of the pattern has a character with the property. *)
Definition needs (ci : bool) (r : Re.re) (P : ascii -> bool) : Prop :=
  forall w, lang ci r w -> existsb P w = true.

Definition digit_or_comma (c : ascii) : bool := Py.is_digit c || Py.ascii_eqb c ",".

(** The characters of the decimal numbers [float] reads, and white space. *)
Definition numeric_char (c : ascii) : bool :=
  Py.is_digit c || Py.is_space c
  || existsb (Py.ascii_eqb c) (text_of_string "_+-.eE").

Definition numeric (c : ascii) : Prop := numeric_char c = true.

(** A letter that is in no number: not the exponent [e], not the suffixes
    [k] and [m], and not a letter of [inf], [infinity] or [nan]. *)
Definition foreign_letter (c : ascii) : bool :=
  Py.is_alpha c && negb (existsb (Py.ascii_eqb (Py.to_upper c)) (text_of_string "AEFIKMNTY")).

(** The characters [re.sub(r"[...]", "", s)] keeps: those the set, negated
    or not, does not match. *)
Definition outside_set (neg : bool) (items : list Re.item) (c : ascii) : bool :=
  negb (xorb neg (Re.set_has false items c)).

(** A carrier line and the line with its premium. *)
Definition premium_lines : text :=
  text_of_string "Acme Insurance Company - 50%" ++ [Re.newline]
  ++ text_of_string "Premium: $1,000".

(** The bucket of key [k] has an entry with the carrier name [name]. *)
Definition names_in (d : LayerDict.layer_dict) (k : LayerDict.key) (name : text) : Prop :=
  exists b,
    LayerDict.dict_find k d = Some b /\ In name (map carrier_name (carriers b)).

(** A document with one part-of allocation. *)
Definition allocation_document : PdfParser.pdf_result :=
  PdfParser.PdfResult
    "binder.pdf" "Binder" (Some (text_of_string "P-1")) [] []
    [PdfParser.PartOf "Ironshore" 2500000 (1 # 4) 10000000 5000000 false
                      "Ironshore: $2.5M (25%) part of $10M xs $5M"]
    [] true None.

(** A document whose one limit is the layer of its part-of allocation, and
    which has a plain carrier too. *)
Definition allocation_and_limit_document : PdfParser.pdf_result :=
  PdfParser.PdfResult
    "binder.pdf" "Binder" (Some (text_of_string "P-1"))
    [LayerInfo 10000000 5000000 false "$10M xs $5M"]
    [PdfParser.PdfCarrier "Acme Insurance Company" (1 # 2) 0 "Acme Insurance Company - 50%"]
    [PdfParser.PartOf "Ironshore" 2500000 (1 # 4) 10000000 5000000 false
                      "Ironshore: $2.5M (25%) part of $10M xs $5M"]
    [] true None.

(** The document without its plain carriers. *)
Definition without_carriers (doc : PdfParser.pdf_result) : PdfParser.pdf_result :=
  PdfParser.PdfResult
    (PdfParser.pd_filename doc) (PdfParser.pd_document_type doc)
    (PdfParser.pd_policy_number doc) (PdfParser.pd_limits doc) []
    (PdfParser.pd_part_of_data doc) (PdfParser.pd_raw_text doc)
    (PdfParser.pd_success doc) (PdfParser.pd_error doc).

(** Every limit of the document is the layer of one of its allocations. *)
Definition limits_are_allocated (doc : PdfParser.pdf_result) : Prop :=
  forall info, In info (PdfParser.pd_limits doc) ->
    exists p, In p (PdfParser.pd_part_of_data doc)
              /\ LayerDict.key_eqb (PdfParser.po_layer_limit p, PdfParser.po_attachment p)
                                   (li_limit info, li_attachment info) = true.

(** The text has no colon. *)
Definition no_colon (w : text) : Prop := existsb (fun c => Py.ascii_eqb c ":") w = false.

(** ** Numeric normalizer *)

Lemma spreadsheet_multiplier (v : text) :
  fst (ExcelParser.detect_suffix v) = precedence spreadsheet_suffixes (Py.upper v).
Proof.
  unfold ExcelParser.detect_suffix, precedence, spreadsheet_suffixes.
  cbn [find fst snd].
  destruct (Py.contains "MM" (Py.upper v)); [reflexivity|].
  destruct (Py.contains "BL" (Py.upper v)); [reflexivity|].
  destruct (Py.contains "B" (Py.upper v)); [reflexivity|].
  destruct (Py.contains "M" (Py.upper v)); [reflexivity|].
  destruct (Py.contains "K" (Py.upper v)); reflexivity.
Qed.

Lemma pdf_multiplier (c : text) :
  fst (PdfParser.detect_suffix c) = precedence pdf_suffixes c.
Proof.
  unfold PdfParser.detect_suffix, precedence, pdf_suffixes.
  cbn [find fst snd].
  destruct (Py.contains "M" c); [reflexivity|].
  destruct (Py.contains "K" c); reflexivity.
Qed.

Lemma spreadsheet_parse_text (s : text) :
  ExcelParser.parse_currency (VStr s)
  = Ret (ExcelParser.scaled (spreadsheet_remainder s)
                            (fst (ExcelParser.detect_suffix (stripped s)))).
Proof.
  unfold ExcelParser.parse_currency, spreadsheet_remainder, stripped.
  destruct (ExcelParser.detect_suffix _) as [m r]. reflexivity.
Qed.

Lemma pdf_parse_text (s : text) :
  PdfParser.parse_currency (VStr s)
  = Ret (match s with
         | [] => 0%Q
         | _ =>
             match Num.py_float (pdf_remainder s) with
             | Some q => Num.mul q (Num.of_Z (fst (PdfParser.detect_suffix (PdfParser.clean s))))
             | None => 0%Q
             end
         end).
Proof.
  unfold PdfParser.parse_currency, pdf_remainder.
  destruct s as [|c s]; [reflexivity|].
  cbn [truthy negb].
  destruct (PdfParser.detect_suffix _) as [m r]. cbn [fst snd].
  destruct (Num.py_float r); reflexivity.
Qed.

(** Examples of the spreadsheet cascade. *)
Example spreadsheet_BL : ExcelParser.parse_currency (VStr "$1.5BL") = Ret 1500000000%Q.
Proof. vm_compute. reflexivity. Qed.

Example spreadsheet_MM : ExcelParser.parse_currency (VStr "2.5mm") = Ret 2500000%Q.
Proof. vm_compute. reflexivity. Qed.

Example spreadsheet_MM_before_BL : ExcelParser.parse_currency (VStr "1MMBL") = Ret 1000000%Q.
Proof. vm_compute. reflexivity. Qed.

(** C1, as stated, fails on the PDF path: the text "1BL" contains the
    suffix BL, the spreadsheet normalizer reads it as one billion, and the
    normalizer of [pdf_parser.py], which has no BL or B suffix, reads it
    as zero. *)
Lemma pdf_parse_currency_has_no_BL :
  Py.contains "BL" (Py.upper "1BL") = true
  /\ ExcelParser.parse_currency (VStr "1BL") = Ret 1000000000%Q
  /\ PdfParser.parse_currency (VStr "1BL") = Ret 0%Q
  /\ PdfParser.parse_currency (VStr "1BL") <> Ret 1000000000%Q.
Proof.
  repeat split; try (vm_compute; reflexivity).
  vm_compute. discriminate.
Qed.

(** C1 (amended): on every text, the spreadsheet normalizer multiplies the
    number it reads by the multiplier of the first suffix found in the
    order MM, BL, B, M, K (1 when there is none), the search being made in
    the upper-cased text; the normalizer of the PDF path does the same with
    the order M, K only. *)
Theorem parse_currency_suffix_precedence (s : text) :
  ExcelParser.parse_currency (VStr s)
  = Ret (match spreadsheet_remainder s with
         | [] => 0%Q
         | _ =>
             match Num.py_float (spreadsheet_remainder s) with
             | Some q =>
                 Num.mul q (Num.of_Z (precedence spreadsheet_suffixes (Py.upper (stripped s))))
             | None => 0%Q
             end
         end)
  /\ PdfParser.parse_currency (VStr s)
     = Ret (match s with
            | [] => 0%Q
            | _ =>
                match Num.py_float (pdf_remainder s) with
                | Some q => Num.mul q (Num.of_Z (precedence pdf_suffixes (PdfParser.clean s)))
                | None => 0%Q
                end
            end).
Proof.
  split.
  - rewrite spreadsheet_parse_text, spreadsheet_multiplier. unfold ExcelParser.scaled.
    destruct (spreadsheet_remainder s); reflexivity.
  - rewrite pdf_parse_text, pdf_multiplier. reflexivity.
Qed.

Lemma spreadsheet_parse_text_returns (s : text) :
  exists q, ExcelParser.parse_currency (VStr s) = Ret q.
Proof. rewrite spreadsheet_parse_text. eexists. reflexivity. Qed.

Lemma pdf_parse_text_returns (s : text) :
  exists q, PdfParser.parse_currency (VStr s) = Ret q.
Proof. rewrite pdf_parse_text. eexists. reflexivity. Qed.

Lemma py_float_empty : Num.py_float [] = None.
Proof. reflexivity. Qed.

(** An integer cell beyond the range of a double makes the spreadsheet
    normalizer raise. *)
Example spreadsheet_parse_currency_overflow :
  ExcelParser.parse_currency (VInt (10 ^ 400)) = Raise Num.OverflowError.
Proof. vm_compute. reflexivity. Qed.

(** C2, as stated, fails on the PDF path: its [parse_currency] takes text
    only, and a number that is not zero raises [AttributeError]. *)
Lemma pdf_parse_currency_raises_on_number :
  PdfParser.parse_currency (VInt 5) = Raise (PdfParser.AttributeError "int")
  /\ ~ (exists q, PdfParser.parse_currency (VInt 5) = Ret q).
Proof.
  split; [reflexivity|]. intros [q H]. discriminate H.
Qed.

(** C2 (amended): the spreadsheet normalizer returns a number, without
    raising, on [None], on text, on a float and on an integer within the
    range of a double: 0 on [None] and on text whose remainder is empty or
    does not parse, the value itself on a number.  The PDF normalizer
    returns a number on [None] and on text, 0 on [None] and on text whose
    remainder is empty or does not parse; numbers are outside its input
    type. *)
Theorem parse_currency_total (v : pyval) :
  in_float_range v ->
  match v with
  | VNone =>
      ExcelParser.parse_currency VNone = Ret 0%Q
      /\ PdfParser.parse_currency VNone = Ret 0%Q
  | VStr s =>
      (exists q, ExcelParser.parse_currency (VStr s) = Ret q)
      /\ (Num.py_float (spreadsheet_remainder s) = None ->
          ExcelParser.parse_currency (VStr s) = Ret 0%Q)
      /\ (exists q, PdfParser.parse_currency (VStr s) = Ret q)
      /\ (Num.py_float (pdf_remainder s) = None ->
          PdfParser.parse_currency (VStr s) = Ret 0%Q)
  | VInt z => ExcelParser.parse_currency (VInt z) = Ret (inject_Z z)
  | VFloat q => ExcelParser.parse_currency (VFloat q) = Ret q
  | VBool b => ExcelParser.parse_currency (VBool b) = Ret (if b then 1%Q else 0%Q)
  end.
Proof.
  intros Hrange. destruct v as [|s|z|q|b].
  - split; reflexivity.
  - split; [apply spreadsheet_parse_text_returns|].
    split.
    + intros Hnone. rewrite spreadsheet_parse_text. unfold ExcelParser.scaled.
      rewrite Hnone. destruct (spreadsheet_remainder s); reflexivity.
    + split; [apply pdf_parse_text_returns|].
      intros Hnone. rewrite pdf_parse_text, Hnone. destruct s; reflexivity.
  - cbn [in_float_range] in Hrange. cbn [ExcelParser.parse_currency].
    unfold Num.float_of_int.
    destruct (Z.ltb_spec (Z.abs z) (2 ^ 1024 - 2 ^ 970)) as [_|Hge]; [reflexivity|].
    exfalso. apply (Z.lt_irrefl (Z.abs z)). eapply Z.lt_le_trans; eassumption.
  - reflexivity.
  - destruct b; reflexivity.
Qed.

Lemma parse_currency_total_witness :
  in_float_range (VInt 25000000)
  /\ ExcelParser.parse_currency (VInt 25000000) = Ret 25000000%Q.
Proof.
  assert (H : in_float_range (VInt 25000000)) by (vm_compute; reflexivity).
  split; [exact H | exact (parse_currency_total (VInt 25000000) H)].
Defined.

(** ** Layer pattern recognizer *)

(** C3: the recognizer on the four inputs of the specification.  The
    excess pattern, then the primary pattern, then the standalone pattern
    give the first three layers.  On "ALL RISKS EX ZURICH LEAD" the text
    recognizer returns no layer; the row recognizer reports a layer header
    without information when no other cell of the row holds 1,000,000 or
    more, and takes the limit from such a cell when there is one. *)
Theorem layer_recognizer_examples (debug_parsing : bool) :
  value (ExcelParser.extract_layer_from_text (VStr "$75M ex $100M EQ")) debug_parsing
  = Ret (Some (LayerInfo 75000000 100000000 false "$75M ex $100M EQ"))
  /\ value (ExcelParser.extract_layer_from_text (VStr "$1BL Primary")) debug_parsing
     = Ret (Some (LayerInfo 1000000000 0 true "$1BL Primary"))
  /\ value (ExcelParser.extract_layer_from_text (VStr "$250M Terrorism")) debug_parsing
     = Ret (Some (LayerInfo 250000000 0 true "$250M Terrorism"))
  /\ value (ExcelParser.extract_layer_from_text (VStr "ALL RISKS EX ZURICH LEAD")) debug_parsing
     = Ret None
  /\ value (ExcelParser.is_layer_header_row [VStr "ALL RISKS EX ZURICH LEAD"]) debug_parsing
     = Ret (true, None)
  /\ value (ExcelParser.is_layer_header_row [VStr "ALL RISKS EX ZURICH LEAD"; VInt 999999])
           debug_parsing
     = Ret (true, None)
  /\ value (ExcelParser.is_layer_header_row [VStr "ALL RISKS EX ZURICH LEAD"; VInt 1000000])
           debug_parsing
     = Ret (true, Some (LayerInfo 1000000 0 false "ALL RISKS EX ZURICH LEAD"))
  /\ value (ExcelParser.is_layer_header_row
              [VStr "ALL RISKS EX ZURICH LEAD"; VNone; VStr "$250M"]) debug_parsing
     = Ret (true, Some (LayerInfo 250000000 0 false "ALL RISKS EX ZURICH LEAD")).
Proof.
  destruct debug_parsing; repeat split; vm_compute; reflexivity.
Qed.

(** ** Free-text extractor *)

(** C4 fails on the code: the allocation of the docstring's own example is
    found by the named pattern and again by the carrier-less pattern, and
    is emitted twice.  The test of the source asks whether the raw text of
    a collected result occurs inside the new match, where the new match is
    the shorter of the two. *)
Theorem part_of_allocation_emitted_twice :
  PdfParser.extract_part_of_patterns ironshore
  = Ret [ PdfParser.PartOf "Ironshore" 2500000 (3333 # 100000) 75000000 100000000 false
                           ironshore;
          PdfParser.PartOf "Unknown Carrier" 2500000 (3333 # 100000) 75000000 100000000 false
                           "$2,500,000 (being 3.333%) part of $75,000,000 excess of $100,000,000" ].
Proof. vm_compute. reflexivity. Qed.

(** ** Merge and dedup engine *)

Lemma text_eqb_eq (a b : text) : Py.text_eqb a b = true <-> a = b.
Proof.
  revert b. induction a as [|x a IH]; intros [|y b]; cbn; split; intros H;
    try reflexivity; try discriminate.
  - apply andb_true_iff in H. destruct H as [Hxy Hab].
    apply Ascii.eqb_eq in Hxy. apply IH in Hab. subst. reflexivity.
  - injection H as -> ->. apply andb_true_iff. split.
    + apply Ascii.eqb_refl.
    + apply IH. reflexivity.
Qed.

Lemma ltb_lt (x y : Q) : Num.ltb x y = true <-> (x < y)%Q.
Proof.
  unfold Num.ltb. rewrite negb_true_iff. split; intros H.
  - apply Qnot_le_lt. intros Hle. apply Qle_bool_iff in Hle. congruence.
  - destruct (Qle_bool y x) eqn:E; [|reflexivity].
    apply Qle_bool_iff in E. exfalso. exact (Qlt_not_le _ _ H E).
Qed.

Lemma same_entry_iff (e c : carrier) :
  LayerDict.same_entry e c = true
  <-> carrier_name e = carrier_name c /\ (Qabs (share e - share c) < 1 # 10000)%Q.
Proof.
  unfold LayerDict.same_entry. rewrite andb_true_iff, text_eqb_eq, ltb_lt.
  unfold Num.abs, Num.sub. rewrite (Qred_correct (share e - share c)). reflexivity.
Qed.

Lemma merge_carrier_rule (cs : list carrier) (c : carrier) :
  ExcelParser.merge_carrier cs c
  = match split_first (fun e => LayerDict.same_entry e c) cs with
    | Some (pre, e, post) => pre ++ summed e c :: post
    | None => cs ++ [c]
    end.
Proof.
  induction cs as [|x cs IH]; cbn; [reflexivity|].
  destruct (LayerDict.same_entry x c); [reflexivity|].
  rewrite IH. destruct (split_first _ cs) as [[[pre e] post]|]; reflexivity.
Qed.

Lemma add_part_of_rule (policy : option text) (cs : list carrier) (p : PdfParser.part_of) :
  PdfParser.add_part_of policy cs p
  = match split_first (fun e => Py.text_eqb (carrier_name e) (PdfParser.po_carrier_name p)) cs
    with
    | Some (pre, e, post) =>
        pre ++ PdfParser.add_premium e (PdfParser.po_carrier_limit p) :: post
    | None =>
        cs ++ [Carrier (PdfParser.po_carrier_name p) (PdfParser.po_share p)
                       (PdfParser.po_carrier_limit p) 0 0 policy false []]
    end.
Proof.
  induction cs as [|x cs IH]; cbn; [reflexivity|].
  destruct (Py.text_eqb (carrier_name x) (PdfParser.po_carrier_name p)); [reflexivity|].
  rewrite IH. destruct (split_first _ cs) as [[[pre e] post]|]; reflexivity.
Qed.

Lemma add_plain_rule (policy : option text) (cs : list carrier) (c : PdfParser.pdf_carrier) :
  PdfParser.add_plain policy cs c
  = match split_first (fun e => Py.text_eqb (carrier_name e) (PdfParser.pc_carrier_name c)) cs
    with
    | Some (pre, e, post) => pre ++ PdfParser.add_premium e (PdfParser.pc_premium c) :: post
    | None =>
        cs ++ [Carrier (PdfParser.pc_carrier_name c) (PdfParser.pc_share c)
                       (PdfParser.pc_premium c) 0 0 policy false []]
    end.
Proof.
  induction cs as [|x cs IH]; cbn; [reflexivity|].
  destruct (Py.text_eqb (carrier_name x) (PdfParser.pc_carrier_name c)); [reflexivity|].
  rewrite IH. destruct (split_first _ cs) as [[[pre e] post]|]; reflexivity.
Qed.

Section DictUpdate.
Import LayerDict.

Lemma dict_update_ext (k : key) (f g : layer -> layer) (d : layer_dict) :
  (forall b, f b = g b) -> dict_update k f d = dict_update k g d.
Proof.
  intros Hfg. induction d as [|[k' b] d IH]; cbn; [reflexivity|].
  destruct (key_eqb k k'); [rewrite Hfg | rewrite IH]; reflexivity.
Qed.

Lemma dict_update_fuse (k : key) (f g : layer -> layer) (d : layer_dict) :
  dict_update k g (dict_update k f d) = dict_update k (fun b => g (f b)) d.
Proof.
  induction d as [|[k' b] d IH]; cbn; [reflexivity|].
  destruct (key_eqb k k') eqn:E; cbn; rewrite E; [reflexivity|].
  rewrite IH. reflexivity.
Qed.

Lemma dict_update_same (k : key) (d : layer_dict) :
  dict_update k (fun b => with_carriers (carriers b) b) d = d.
Proof.
  induction d as [|[k' b] d IH]; cbn; [reflexivity|].
  destruct (key_eqb k k'); [destruct b; reflexivity|].
  rewrite IH. reflexivity.
Qed.

(** A loop that updates one bucket carrier by carrier is one update of
    the bucket with the carriers folded in. *)
Lemma fold_update (k : key) (step : list carrier -> carrier -> list carrier)
      (cs : list carrier) (d : layer_dict) :
  fold_left (fun d c => dict_update k (fun b => with_carriers (step (carriers b) c) b) d) cs d
  = dict_update k (fun b => with_carriers (fold_left step cs (carriers b)) b) d.
Proof.
  revert d. induction cs as [|c cs IH]; intros d; cbn [fold_left].
  - symmetry. apply dict_update_same.
  - rewrite IH, dict_update_fuse. apply dict_update_ext. intros b. reflexivity.
Qed.

End DictUpdate.

Lemma merge_layer_rule (d : LayerDict.layer_dict) (l : layer) :
  ExcelParser.merge_layer d l
  = LayerDict.dict_update
      (LayerDict.key_of l)
      (fun b => LayerDict.with_carriers
                  (fold_left ExcelParser.merge_carrier (carriers l) (carriers b)) b)
      (LayerDict.open_bucket l d).
Proof. unfold ExcelParser.merge_layer. apply fold_update. Qed.

(** C5, as stated, fails on the PDF path: two allocations of one carrier
    with shares 25% and 50% in the same layer are merged into a single
    entry, which keeps the first share and has the two amounts added: the
    textual merge compares names only. *)
Lemma textual_merge_ignores_share :
  map (fun l => (limit l, attachment l,
                 map (fun c => (carrier_name c, share c, premium c)) (carriers l)))
      (PdfParser.mp_layers (PdfParser.merge_parsed_documents [two_participations]))
  = [ (4000000%Q, 1000000%Q, [("Carrier A" : text, 1 # 4, 3000000%Q)]) ].
Proof. vm_compute. reflexivity. Qed.

(** C5 (amended): in the spreadsheet merge an incoming carrier is the same
    entry as an existing one exactly when the names are equal and the
    shares differ by less than 0.0001; the carriers of an incoming layer go
    one by one into the bucket of its (limit, attachment) key, each summed
    (premium and both fees) into the first such entry, or appended when
    there is none.  In the textual merge an incoming allocation or carrier
    is added to the premium of the first entry of the bucket with its name,
    whatever the share, and the fees are left alone; it is appended when no
    entry has its name. *)
Theorem carrier_merge_rule (cs : list carrier) (c : carrier) :
  (forall e, LayerDict.same_entry e c = true
             <-> carrier_name e = carrier_name c
                 /\ (Qabs (share e - share c) < 1 # 10000)%Q)
  /\ ExcelParser.merge_carrier cs c
     = match split_first (fun e => LayerDict.same_entry e c) cs with
       | Some (pre, e, post) => pre ++ summed e c :: post
       | None => cs ++ [c]
       end
  /\ (forall d l,
        ExcelParser.merge_layer d l
        = LayerDict.dict_update
            (LayerDict.key_of l)
            (fun b => LayerDict.with_carriers
                        (fold_left ExcelParser.merge_carrier (carriers l) (carriers b)) b)
            (LayerDict.open_bucket l d))
  /\ (forall policy p,
        PdfParser.add_part_of policy cs p
        = match split_first
                  (fun e => Py.text_eqb (carrier_name e) (PdfParser.po_carrier_name p)) cs with
          | Some (pre, e, post) =>
              pre ++ PdfParser.add_premium e (PdfParser.po_carrier_limit p) :: post
          | None =>
              cs ++ [Carrier (PdfParser.po_carrier_name p) (PdfParser.po_share p)
                             (PdfParser.po_carrier_limit p) 0 0 policy false []]
          end)
  /\ (forall policy pc,
        PdfParser.add_plain policy cs pc
        = match split_first
                  (fun e => Py.text_eqb (carrier_name e) (PdfParser.pc_carrier_name pc)) cs with
          | Some (pre, e, post) =>
              pre ++ PdfParser.add_premium e (PdfParser.pc_premium pc) :: post
          | None =>
              cs ++ [Carrier (PdfParser.pc_carrier_name pc) (PdfParser.pc_share pc)
                             (PdfParser.pc_premium pc) 0 0 policy false []]
          end).
Proof.
  split; [intros e; apply same_entry_iff|].
  split; [apply merge_carrier_rule|].
  split; [intros d l; apply merge_layer_rule|].
  split; [intros policy p; apply add_part_of_rule|].
  intros policy pc. apply add_plain_rule.
Qed.

(** ** The monad of [excel_parser.py] *)

Lemma value_bind {A B} (m : M A) (f : A -> M B) (d : bool) :
  value (bind m f) d
  = match value m d with
    | Ret a => value (f a) d
    | Raise e => Raise e
    end.
Proof.
  unfold value, bind. destruct (m d) as [[a|e] l]; cbn; [|reflexivity].
  destruct (f a d). reflexivity.
Qed.

Lemma value_ret {A} (a : A) (d : bool) : value (ret a) d = Ret a.
Proof. reflexivity. Qed.

Lemma value_lift {A} (r : result A) (d : bool) : value (lift r) d = r.
Proof. reflexivity. Qed.

Lemma value_debug_log (template : string) (args : list log_arg) (d : bool) :
  value (debug_log template args) d = Ret tt.
Proof. reflexivity. Qed.

Lemma pv_ret {A} (a : A) : pure_value (ret a).
Proof. intros d d'. reflexivity. Qed.

Lemma pv_raise {A} (e : exn) : pure_value (@raise A e).
Proof. intros d d'. reflexivity. Qed.

Lemma pv_lift {A} (r : result A) : pure_value (lift r).
Proof. intros d d'. reflexivity. Qed.

Lemma pv_debug_log (template : string) (args : list log_arg) :
  pure_value (debug_log template args).
Proof. intros d d'. reflexivity. Qed.

Lemma pv_bind {A B} (m : M A) (f : A -> M B) :
  pure_value m -> (forall a, pure_value (f a)) -> pure_value (bind m f).
Proof.
  intros Hm Hf d d'. rewrite !value_bind, (Hm d d').
  destruct (value m d'); [apply Hf | reflexivity].
Qed.

(** One step of a proof of [pure_value]: follow the structure of the
    computation. *)
Ltac pv_step :=
  match goal with
  | |- pure_value (bind _ _) => apply pv_bind; [| intros ?]
  | |- pure_value (ret _) => apply pv_ret
  | |- pure_value (raise _) => apply pv_raise
  | |- pure_value (lift _) => apply pv_lift
  | |- pure_value (debug_log _ _) => apply pv_debug_log
  | H : context [pure_value _] |- pure_value _ => solve [apply H]
  | |- pure_value (match ?x with _ => _ end) => destruct x
  end.

Ltac pv := cbv zeta; repeat pv_step.

Section FlagIndependence.
Variable float_repr : Q -> text.
Variable load_workbook : list Byte.byte -> result (ExcelParser.workbook).

Lemma pv_extract_layer_from_text (arg : pyval) :
  pure_value (ExcelParser.extract_layer_from_text arg).
Proof. unfold ExcelParser.extract_layer_from_text. pv. Qed.

Lemma pv_scan_cells (row_values : list pyval) (cells : list pyval) (i : nat) :
  pure_value (ExcelParser.scan_cells row_values i cells).
Proof.
  revert i. induction cells as [|cell rest IH]; intros i; cbn [ExcelParser.scan_cells].
  - pv.
  - pose proof pv_extract_layer_from_text as Hx. pv.
Qed.

Lemma pv_is_layer_header_row (row_values : list pyval) :
  pure_value (ExcelParser.is_layer_header_row row_values).
Proof.
  unfold ExcelParser.is_layer_header_row. pose proof pv_scan_cells as Hs. pv.
Qed.

Lemma pv_is_participant_header_row (row_values : list pyval) :
  pure_value (ExcelParser.is_participant_header_row float_repr row_values).
Proof. unfold ExcelParser.is_participant_header_row. pv. Qed.

Lemma pv_scan_total (cells : list pyval) (i : nat) :
  pure_value (ExcelParser.scan_total float_repr i cells).
Proof.
  revert i. induction cells as [|cell rest IH]; intros i; cbn [ExcelParser.scan_total]; pv.
Qed.

Lemma pv_is_total_row (row_values : list pyval) :
  pure_value (ExcelParser.is_total_row float_repr row_values).
Proof. unfold ExcelParser.is_total_row. apply pv_scan_total. Qed.

Lemma pv_map_columns (row_values : list pyval) :
  pure_value (ExcelParser.map_columns float_repr row_values).
Proof. unfold ExcelParser.map_columns. pv. Qed.

Lemma pv_extract_carrier (st : ExcelParser.walker) (row_list : list pyval) :
  pure_value (ExcelParser.extract_carrier float_repr st row_list).
Proof. unfold ExcelParser.extract_carrier. pv. Qed.

Lemma pv_on_layer_header (st : ExcelParser.walker) (info : option layer_info) :
  pure_value (ExcelParser.on_layer_header st info).
Proof. unfold ExcelParser.on_layer_header. pv. Qed.

Lemma pv_process_row (st : ExcelParser.walker) (row_idx : nat) (row : list pyval) :
  pure_value (ExcelParser.process_row float_repr st row_idx row).
Proof.
  unfold ExcelParser.process_row.
  pose proof pv_is_total_row as H1. pose proof pv_is_layer_header_row as H2.
  pose proof pv_is_participant_header_row as H3. pose proof pv_map_columns as H4.
  pose proof pv_extract_carrier as H5. pose proof pv_on_layer_header as H6.
  pv.
Qed.

Lemma pv_process_rows (rows : list (list pyval)) (st : ExcelParser.walker) (row_idx : nat) :
  pure_value (ExcelParser.process_rows float_repr st row_idx rows).
Proof.
  revert st row_idx. induction rows as [|row rest IH]; intros st row_idx;
    cbn [ExcelParser.process_rows].
  - pv.
  - pose proof pv_process_row as Hr. pv.
Qed.

Lemma pv_process_sheets (sheets : ExcelParser.workbook) (layers : list layer)
      (last : option (option layer)) :
  pure_value (ExcelParser.process_sheets float_repr layers last sheets).
Proof.
  revert layers last. induction sheets as [|[name rows] rest IH]; intros layers last;
    cbn [ExcelParser.process_sheets].
  - pv.
  - pose proof pv_process_rows as Hr. pv.
Qed.

Lemma pv_warning_log (template : string) (args : list log_arg) :
  pure_value (ExcelParser.warning_log template args).
Proof. intros d d'. reflexivity. Qed.

Lemma pv_exception_log (template : string) (args : list log_arg) :
  pure_value (ExcelParser.exception_log template args).
Proof. intros d d'. reflexivity. Qed.

Lemma pv_for_each {A} (f : A -> M unit) (xs : list A) :
  (forall x, pure_value (f x)) -> pure_value (ExcelParser.for_each f xs).
Proof.
  intros Hf. induction xs as [|x rest IH]; cbn [ExcelParser.for_each]; pv.
Qed.

Lemma pv_report_layer (l : layer) : pure_value (ExcelParser.report_layer l).
Proof.
  unfold ExcelParser.report_layer. destruct (carriers l) as [|c cs]; [pv|].
  pv.
  - apply pv_for_each. intros x. pv.
  - apply pv_warning_log.
Qed.

Lemma pv_parse_body (excel_bytes : list Byte.byte) (filename : text) :
  pure_value (ExcelParser.parse_body float_repr load_workbook excel_bytes filename).
Proof.
  unfold ExcelParser.parse_body. pose proof pv_process_sheets as Hs. pv.
  apply pv_for_each. apply pv_report_layer.
Qed.

Lemma pv_try_except {A} (body : M A) (handler : exn -> M A) :
  pure_value body -> (forall e, pure_value (handler e)) ->
  pure_value (ExcelParser.try_except body handler).
Proof.
  intros Hb Hh d d'. specialize (Hb d d'). unfold value in *.
  unfold ExcelParser.try_except.
  destruct (body d) as [[a|e] l], (body d') as [[a'|e'] l']; cbn in *;
    try discriminate; try (injection Hb as ->).
  - reflexivity.
  - specialize (Hh e' d d'). unfold value in Hh.
    destruct (handler e' d), (handler e' d'). cbn in *. exact Hh.
Qed.

(** C8: the [debug] argument of [parse_excel_program] does not change the
    result it returns (file name, layers, success and error), whatever
    the bytes, the file name and the value of [DEBUG_PARSING] at the
    call; the flag only decides which log records are written. *)
Theorem debug_flag_does_not_change_result
        (excel_bytes : list Byte.byte) (filename : text) (original_debug : bool) :
  value (ExcelParser.parse_excel_program float_repr load_workbook excel_bytes filename true)
        original_debug
  = value (ExcelParser.parse_excel_program float_repr load_workbook excel_bytes filename false)
          original_debug.
Proof.
  assert (Hpure : pure_value
                    (ExcelParser.try_except
                       (ExcelParser.parse_body float_repr load_workbook excel_bytes filename)
                       (fun e =>
                          bind (ExcelParser.exception_log "Error parsing Excel file: {}"
                                                          [LText (exn_msg e)])
                               (fun _ => ret (ExcelParser.ParseResult filename [] false
                                                                      (Some (exn_msg e))))))).
  { apply pv_try_except.
    - apply pv_parse_body.
    - intros e. pv. apply pv_exception_log. }
  exact (Hpure (original_debug || true) (original_debug || false)).
Qed.

End FlagIndependence.

(** ** Sheet walker *)

Section Walker.
Variable float_repr : Q -> text.

Lemma keyword_hits_of_keyword_cell (cell : pyval) :
  is_header_keyword_cell float_repr cell = true ->
  1 <= ExcelParser.keyword_hits float_repr cell.
Proof.
  unfold is_header_keyword_cell, ExcelParser.keyword_hits.
  intros H. apply andb_true_iff in H. destruct H as [Ht Hk].
  rewrite Ht. cbv zeta. rewrite Hk. lia.
Qed.

Lemma keyword_matches_from (row : list pyval) (n : nat) :
  n + header_keyword_cells float_repr row
  <= fold_left (fun n cell => n + ExcelParser.keyword_hits float_repr cell) row n.
Proof.
  revert n. unfold header_keyword_cells.
  induction row as [|cell row IH]; intros n; cbn [fold_left filter].
  - cbn. lia.
  - specialize (IH (n + ExcelParser.keyword_hits float_repr cell)).
    destruct (is_header_keyword_cell float_repr cell) eqn:E.
    + apply keyword_hits_of_keyword_cell in E. cbn [length]. lia.
    + lia.
Qed.

(** Three header-keyword cells make the row a column header. *)
Lemma three_keyword_cells_make_a_header (row : list pyval) (d : bool) :
  any row = true ->
  3 <= header_keyword_cells float_repr row ->
  value (ExcelParser.is_participant_header_row float_repr row) d = Ret true.
Proof.
  intros Hany Hcount. unfold ExcelParser.is_participant_header_row.
  rewrite Hany. cbn [negb]. cbv zeta.
  assert (Hm : (3 <=? ExcelParser.keyword_matches float_repr row) = true).
  { apply Nat.leb_le. unfold ExcelParser.keyword_matches.
    pose proof (keyword_matches_from row 0). lia. }
  rewrite Hm, value_bind, value_debug_log. reflexivity.
Qed.

Lemma value_on_layer_header (st : ExcelParser.walker) (info : option layer_info) (d : bool) :
  value (ExcelParser.on_layer_header st info) d
  = Ret (ExcelParser.Walker (opened info) info (ExcelParser.w_col_map st) (flushed st)).
Proof.
  unfold ExcelParser.on_layer_header, flushed, opened, ExcelParser.has_carriers.
  rewrite value_bind, value_debug_log.
  destruct (ExcelParser.current_layer st) as [cur|].
  - destruct (carriers cur) as [|c cs].
    + rewrite value_bind, value_ret. destruct info; reflexivity.
    + rewrite !value_bind, value_debug_log, value_ret. destruct info; reflexivity.
  - rewrite value_bind, value_ret. destruct info; reflexivity.
Qed.

Lemma value_map_columns (row : list pyval) (d : bool) :
  exists cm, forall d', value (ExcelParser.map_columns float_repr row) d' = Ret cm.
Proof.
  unfold ExcelParser.map_columns. cbv zeta. eexists. intros d'.
  rewrite value_bind, value_debug_log. reflexivity.
Qed.

(** C7: a row that is recognized as a layer header is still tested as a
    column header.  When such a row has at least three header-keyword
    cells, the walker first updates the layer state (the pending layer is
    closed, the layer of the header is opened) and then recomputes the
    column map from that same row. *)
Theorem layer_header_row_is_also_checked_for_columns
        (st : ExcelParser.walker) (row_idx : nat) (row : list pyval)
        (info : option layer_info) (d : bool) :
  any row = true ->
  ExcelParser.is_skip_row float_repr row = false ->
  value (ExcelParser.is_total_row float_repr row) d = Ret false ->
  value (ExcelParser.is_layer_header_row row) d = Ret (true, info) ->
  3 <= header_keyword_cells float_repr row ->
  exists cm,
    value (ExcelParser.map_columns float_repr row) d = Ret cm
    /\ value (ExcelParser.process_row float_repr st row_idx row) d
       = Ret (ExcelParser.Walker (opened info) info cm (flushed st)).
Proof.
  intros Hany Hskip Htotal Hlayer Hcount.
  destruct (value_map_columns row d) as [cm Hcm].
  exists cm. split; [apply Hcm|].
  unfold ExcelParser.process_row.
  rewrite Hany. cbn [negb].
  rewrite value_bind, value_debug_log, Hskip.
  rewrite value_bind, Htotal.
  rewrite value_bind, Hlayer. cbn [fst snd].
  rewrite value_bind, value_on_layer_header.
  rewrite value_bind, (three_keyword_cells_make_a_header row d Hany Hcount).
  rewrite value_bind, Hcm, value_bind, value_debug_log.
  reflexivity.
Qed.

End Walker.

Lemma layer_header_row_is_also_checked_for_columns_witness :
  exists cm,
    value (ExcelParser.map_columns plain_repr header_and_columns_row) false = Ret cm
    /\ value (ExcelParser.process_row plain_repr
                (ExcelParser.Walker None None ExcelParser.empty_col_map []) 1
                header_and_columns_row) false
       = Ret (ExcelParser.Walker (opened (Some (LayerInfo 75000000 100000000 false
                                                          "$75M ex $100M")))
                                 (Some (LayerInfo 75000000 100000000 false "$75M ex $100M"))
                                 cm
                                 (flushed (ExcelParser.Walker None None
                                                              ExcelParser.empty_col_map []))).
Proof.
  apply (layer_header_row_is_also_checked_for_columns
           plain_repr (ExcelParser.Walker None None ExcelParser.empty_col_map []) 1
           header_and_columns_row (Some (LayerInfo 75000000 100000000 false "$75M ex $100M"))
           false).
  - vm_compute. reflexivity.
  - vm_compute. reflexivity.
  - vm_compute. reflexivity.
  - vm_compute. reflexivity.
  - vm_compute. lia.
Defined.

(** ** Layers of a parsed workbook have carriers *)

Lemma post_ret {A} (a : A) (P : A -> Prop) : P a -> post (ret a) P.
Proof. intros H d a' E. cbn in E. injection E as <-. exact H. Qed.

Lemma post_raise {A} (e : exn) (P : A -> Prop) : post (raise e) P.
Proof. intros d a E. discriminate E. Qed.

Lemma post_bind {A B} (m : M A) (f : A -> M B) (Q : A -> Prop) (P : B -> Prop) :
  post m Q -> (forall a, Q a -> post (f a) P) -> post (bind m f) P.
Proof.
  intros Hm Hf d b E. rewrite value_bind in E.
  destruct (value m d) as [a|e] eqn:Em; [|discriminate E].
  exact (Hf a (Hm d a Em) d b E).
Qed.

Lemma post_then {A B} (m : M A) (f : A -> M B) (P : B -> Prop) :
  (forall a, post (f a) P) -> post (bind m f) P.
Proof.
  intros Hf. apply (post_bind m f (fun _ => True)); [intros d a _; exact I|].
  intros a _. apply Hf.
Qed.

Lemma post_weaken {A} (m : M A) (P Q : A -> Prop) :
  post m P -> (forall a, P a -> Q a) -> post m Q.
Proof. intros H HPQ d a E. apply HPQ. exact (H d a E). Qed.

(** One step of a proof of [post] for a computation whose earlier results
    do not matter. *)
Ltac post_step :=
  match goal with
  | |- post (bind _ _) _ => apply post_then; intros ?
  | |- post (ret _) _ => apply post_ret
  | |- post (raise _) _ => apply post_raise
  | |- post (match ?x with _ => _ end) _ => destruct x
  end.

Section NonEmptyLayers.
Import LayerDict.
Variable float_repr : Q -> text.
Variable load_workbook : list Byte.byte -> result (ExcelParser.workbook).

Lemma extract_carrier_keeps_layers (st : ExcelParser.walker) (row_list : list pyval) :
  post (ExcelParser.extract_carrier float_repr st row_list)
       (fun st' => ExcelParser.all_layers st' = ExcelParser.all_layers st).
Proof.
  unfold ExcelParser.extract_carrier. cbv zeta. repeat post_step; reflexivity.
Qed.

Lemma flushed_has_carriers (st : ExcelParser.walker) :
  Forall has_carrier (ExcelParser.all_layers st) -> Forall has_carrier (flushed st).
Proof.
  intros H. unfold flushed.
  destruct (ExcelParser.current_layer st) as [cur|]; [|exact H].
  destruct (carriers cur) as [|c cs] eqn:E; [exact H|].
  apply Forall_app. split; [exact H|].
  constructor; [|constructor]. unfold has_carrier. rewrite E. discriminate.
Qed.

Lemma process_row_layers (st : ExcelParser.walker) (row_idx : nat) (row : list pyval) :
  post (ExcelParser.process_row float_repr st row_idx row)
       (fun st' => ExcelParser.all_layers st' = ExcelParser.all_layers st
                   \/ ExcelParser.all_layers st' = flushed st).
Proof.
  unfold ExcelParser.process_row.
  destruct (negb (any row)); [apply post_ret; left; reflexivity|].
  apply post_then; intros _.
  destruct (ExcelParser.is_skip_row float_repr row).
  { apply post_then; intros _. apply post_ret. left. reflexivity. }
  apply post_then; intros total. destruct total.
  { apply post_then; intros _. apply post_ret. left. reflexivity. }
  apply post_then; intros header.
  apply (post_bind _ _ (fun st1 => ExcelParser.all_layers st1 = ExcelParser.all_layers st
                                  \/ ExcelParser.all_layers st1 = flushed st)).
  { destruct (fst header).
    - intros d st1 E. rewrite value_on_layer_header in E. injection E as <-.
      right. reflexivity.
    - apply post_ret. left. reflexivity. }
  intros st1 Hst1. apply post_then; intros columns. destruct columns.
  - apply post_then; intros cm. apply post_then; intros _. apply post_ret. exact Hst1.
  - eapply post_weaken; [apply extract_carrier_keeps_layers|].
    cbn beta. intros st' E. rewrite E. exact Hst1.
Qed.

Lemma process_rows_layers (rows : list (list pyval)) (st : ExcelParser.walker)
      (row_idx : nat) :
  Forall has_carrier (ExcelParser.all_layers st) ->
  post (ExcelParser.process_rows float_repr st row_idx rows)
       (fun st' => Forall has_carrier (ExcelParser.all_layers st')).
Proof.
  revert st row_idx. induction rows as [|row rest IH]; intros st row_idx Hst;
    cbn [ExcelParser.process_rows].
  - apply post_ret. exact Hst.
  - eapply post_bind; [apply process_row_layers|].
    cbn beta. intros st' [E|E]; apply IH; rewrite E;
      [exact Hst | apply flushed_has_carriers; exact Hst].
Qed.

Lemma process_sheets_layers (sheets : ExcelParser.workbook) (layers : list layer)
      (last : option (option layer)) :
  Forall has_carrier layers ->
  post (ExcelParser.process_sheets float_repr layers last sheets)
       (fun r => Forall has_carrier (fst r)).
Proof.
  revert layers last. induction sheets as [|[name rows] rest IH]; intros layers last Hl;
    cbn [ExcelParser.process_sheets].
  - apply post_ret. exact Hl.
  - do 3 (apply post_then; intros _).
    eapply post_bind; [apply process_rows_layers; exact Hl|].
    cbn beta. intros st Hst. apply IH. exact Hst.
Qed.

(** **** The per-document merge keeps every bucket non-empty *)

Lemma eqb_refl (q : Q) : Num.eqb q q = true.
Proof. apply Qeq_bool_iff. reflexivity. Qed.

Lemma key_eqb_refl (k : key) : key_eqb k k = true.
Proof. unfold key_eqb. rewrite !eqb_refl. reflexivity. Qed.

Lemma dict_update_absent (k : key) (f : layer -> layer) (d d' : layer_dict) :
  dict_mem k d = false -> dict_update k f (d ++ d') = d ++ dict_update k f d'.
Proof.
  induction d as [|[k' b] d IH]; cbn; [reflexivity|].
  intros H. apply orb_false_iff in H. destruct H as [Hk Hd].
  rewrite Hk, (IH Hd). reflexivity.
Qed.

Lemma dict_update_full (k : key) (f : layer -> layer) (d : layer_dict) :
  (forall b, has_carrier (f b)) -> full_buckets d -> full_buckets (dict_update k f d).
Proof.
  intros Hf. induction d as [|[k' b] d IH]; intros Hd; cbn; [constructor|].
  inversion Hd as [|? ? Hb Hrest]; subst.
  destruct (key_eqb k k'); constructor; cbn; auto.
  apply IH. exact Hrest.
Qed.

Lemma dedup_carrier_nonempty (cs : list carrier) (c : carrier) :
  ExcelParser.dedup_carrier cs c <> [].
Proof.
  unfold ExcelParser.dedup_carrier. destruct cs as [|x cs]; cbn; [discriminate|].
  destruct (_ || _); discriminate.
Qed.

Lemma fold_dedup_nonempty (cs : list carrier) (start : list carrier) :
  start <> [] -> fold_left ExcelParser.dedup_carrier cs start <> [].
Proof.
  revert start. induction cs as [|c cs IH]; intros start H; cbn; [exact H|].
  apply IH. apply dedup_carrier_nonempty.
Qed.

Lemma dedup_layer_full (d : layer_dict) (l : layer) :
  has_carrier l -> full_buckets d -> full_buckets (ExcelParser.dedup_layer d l).
Proof.
  intros Hl Hd. unfold ExcelParser.dedup_layer. rewrite fold_update.
  assert (Hf : forall b, has_carrier
                           (with_carriers
                              (fold_left ExcelParser.dedup_carrier (carriers l) (carriers b)) b)).
  { intros b. unfold has_carrier in *. cbn.
    destruct (carriers l) as [|c cs]; [contradiction|].
    cbn [fold_left]. apply fold_dedup_nonempty. apply dedup_carrier_nonempty. }
  unfold open_bucket. destruct (dict_mem (key_of l) d) eqn:E.
  - apply dict_update_full; assumption.
  - rewrite dict_update_absent by exact E. cbn. rewrite key_eqb_refl.
    apply Forall_app. split; [exact Hd|].
    constructor; [apply Hf | constructor].
Qed.

Lemma merged_layers_full (layers : list layer) :
  Forall has_carrier layers -> full_buckets (ExcelParser.merged_layers layers).
Proof.
  unfold ExcelParser.merged_layers.
  assert (H : forall d, full_buckets d -> Forall has_carrier layers ->
                        full_buckets (fold_left ExcelParser.dedup_layer layers d)).
  { induction layers as [|l layers IH]; intros d Hd Hl; cbn; [exact Hd|].
    inversion Hl; subst. apply IH; [apply dedup_layer_full|]; assumption. }
  intros Hl. apply H; [constructor | exact Hl].
Qed.

Lemma insert_sorted_Forall (P : layer -> Prop) (x : layer) (ls : list layer) :
  P x -> Forall P ls -> Forall P (insert_sorted x ls).
Proof.
  intros Hx. induction ls as [|y ls IH]; intros Hl; cbn; [constructor; auto|].
  inversion Hl; subst. destruct (Num.ltb _ _); constructor; auto.
Qed.

Lemma sorted_Forall (P : layer -> Prop) (ls : list layer) :
  Forall P ls -> Forall P (sorted_by_attachment ls).
Proof.
  induction ls as [|x ls IH]; intros H; cbn; [constructor|].
  inversion H; subst. apply insert_sorted_Forall; auto.
Qed.

Lemma parse_body_layers (excel_bytes : list Byte.byte) (filename : text) :
  post (ExcelParser.parse_body float_repr load_workbook excel_bytes filename)
       (fun r => Forall has_carrier (ExcelParser.pr_layers r)).
Proof.
  unfold ExcelParser.parse_body.
  apply post_then; intros wb.
  eapply post_bind; [apply process_sheets_layers; constructor|].
  cbn beta. intros walked Hw.
  destruct (snd walked) as [cur|]; [|apply post_raise].
  apply (post_bind _ _ (Forall has_carrier)).
  { unfold ExcelParser.has_carriers. destruct cur as [l|]; [|apply post_ret; exact Hw].
    destruct (carriers l) as [|c cs] eqn:E; [apply post_ret; exact Hw|].
    apply post_then; intros _. apply post_ret.
    apply Forall_app. split; [exact Hw|].
    constructor; [|constructor]. unfold has_carrier. rewrite E. discriminate. }
  intros layers Hl. cbv zeta. do 3 (apply post_then; intros _).
  apply post_ret. cbn. apply sorted_Forall.
  apply Forall_map. apply merged_layers_full. exact Hl.
Qed.

Lemma value_try_except {A} (body : M A) (handler : exn -> M A) (d : bool) :
  value (ExcelParser.try_except body handler) d
  = match value body d with
    | Ret a => Ret a
    | Raise e => value (handler e) d
    end.
Proof.
  unfold value, ExcelParser.try_except.
  destruct (body d) as [[a|e] l]; cbn; [reflexivity|].
  destruct (handler e d). reflexivity.
Qed.

Lemma value_parse_excel_program (excel_bytes : list Byte.byte) (filename : text)
      (debug original_debug : bool) :
  value (ExcelParser.parse_excel_program float_repr load_workbook excel_bytes filename debug)
        original_debug
  = Ret (match value (ExcelParser.parse_body float_repr load_workbook excel_bytes filename)
                     (original_debug || debug) with
         | Ret r => r
         | Raise e => ExcelParser.ParseResult filename [] false (Some (exn_msg e))
         end).
Proof.
  unfold ExcelParser.parse_excel_program.
  change (value (fun od => ?f (od || debug)) original_debug)
    with (value f (original_debug || debug)).
  rewrite value_try_except.
  destruct (value _ (original_debug || debug)); [reflexivity|].
  rewrite value_bind. reflexivity.
Qed.

(** C10: [parse_excel_program] always returns a result, and every layer
    of the result has at least one carrier; in particular a successful
    parse never reports a layer without carriers. *)
Theorem parsed_layers_have_carriers (excel_bytes : list Byte.byte) (filename : text)
        (debug original_debug : bool) :
  exists r,
    value (ExcelParser.parse_excel_program float_repr load_workbook excel_bytes filename debug)
          original_debug = Ret r
    /\ Forall has_carrier (ExcelParser.pr_layers r).
Proof.
  rewrite value_parse_excel_program. eexists. split; [reflexivity|].
  destruct (value _ (original_debug || debug)) as [r|e] eqn:E.
  - exact (parse_body_layers excel_bytes filename _ r E).
  - constructor.
Qed.

End NonEmptyLayers.

(** ** Errors of a parse are reported in its result *)

Section ParseErrors.
Variable float_repr : Q -> text.
Variable load_workbook : list Byte.byte -> result (ExcelParser.workbook).
Variable pdf_pages : list Byte.byte -> result (list (option text)).

Lemma scan_total_returns (cells : list pyval) (i : nat) (d : bool) :
  exists b, value (ExcelParser.scan_total float_repr i cells) d = Ret b.
Proof.
  revert i. induction cells as [|cell rest IH]; intros i; cbn [ExcelParser.scan_total].
  - exists false. reflexivity.
  - cbv zeta. destruct (Py.mem _ _).
    + exists true. rewrite value_bind, value_debug_log. reflexivity.
    + apply IH.
Qed.

Lemma is_participant_header_row_returns (row : list pyval) (d : bool) :
  exists b, value (ExcelParser.is_participant_header_row float_repr row) d = Ret b.
Proof.
  unfold ExcelParser.is_participant_header_row.
  destruct (negb (any row)); [exists false; reflexivity|].
  cbv zeta.
  destruct (3 <=? _); eexists; rewrite value_bind;
    [rewrite value_debug_log | rewrite value_ret]; reflexivity.
Qed.

Lemma extract_carrier_without_layer (st : ExcelParser.walker) (row : list pyval) (d : bool) :
  ExcelParser.current_layer st = None ->
  value (ExcelParser.extract_carrier float_repr st row) d = Ret st.
Proof.
  intros H. unfold ExcelParser.extract_carrier. rewrite H. reflexivity.
Qed.

(** A row without layer header leaves a walker without pending layer as
    it is, but for the column map. *)
Lemma process_row_idle (st : ExcelParser.walker) (row_idx : nat) (row : list pyval)
      (d : bool) :
  ExcelParser.current_layer st = None ->
  no_layer_header_row row = true ->
  exists st',
    value (ExcelParser.process_row float_repr st row_idx row) d = Ret st'
    /\ ExcelParser.current_layer st' = None
    /\ ExcelParser.all_layers st' = ExcelParser.all_layers st.
Proof.
  intros Hcur Hrow. unfold ExcelParser.process_row.
  destruct (negb (any row)); [exists st; repeat split; assumption|].
  rewrite value_bind, value_debug_log.
  destruct (ExcelParser.is_skip_row float_repr row).
  { exists st. rewrite value_bind, value_debug_log. repeat split; assumption. }
  rewrite value_bind. unfold ExcelParser.is_total_row.
  destruct (scan_total_returns (firstn 4 row) 0 d) as [total ->].
  destruct total.
  { exists st. rewrite value_bind, value_debug_log. repeat split; assumption. }
  rewrite value_bind. unfold no_layer_header_row in Hrow.
  rewrite (pv_is_layer_header_row row d false).
  destruct (value (ExcelParser.is_layer_header_row row) false) as [[is_layer info]|e];
    [|discriminate Hrow].
  destruct is_layer; [discriminate Hrow|]. cbn [fst snd].
  rewrite value_bind, value_ret, value_bind.
  destruct (is_participant_header_row_returns row d) as [columns ->].
  destruct columns.
  - destruct (value_map_columns float_repr row d) as [cm Hcm].
    rewrite value_bind, Hcm, value_bind, value_debug_log.
    eexists. split; [reflexivity|]. split; [exact Hcur | reflexivity].
  - rewrite (extract_carrier_without_layer st row d Hcur).
    exists st. repeat split; assumption.
Qed.

Lemma process_rows_idle (rows : list (list pyval)) (st : ExcelParser.walker)
      (row_idx : nat) (d : bool) :
  ExcelParser.current_layer st = None ->
  forallb no_layer_header_row rows = true ->
  exists st',
    value (ExcelParser.process_rows float_repr st row_idx rows) d = Ret st'
    /\ ExcelParser.current_layer st' = None
    /\ ExcelParser.all_layers st' = ExcelParser.all_layers st.
Proof.
  revert st row_idx. induction rows as [|row rest IH]; intros st row_idx Hcur Hrows;
    cbn [ExcelParser.process_rows].
  - exists st. repeat split; assumption.
  - cbn [forallb] in Hrows. apply andb_true_iff in Hrows. destruct Hrows as [Hrow Hrest].
    destruct (process_row_idle st row_idx row d Hcur Hrow) as [st1 [E1 [C1 L1]]].
    destruct (IH st1 (S row_idx) C1 Hrest) as [st2 [E2 [C2 L2]]].
    exists st2. rewrite value_bind, E1. split; [exact E2|].
    split; [exact C2 | congruence].
Qed.

Lemma process_sheets_idle (sheets : ExcelParser.workbook) (last : option (option layer))
      (d : bool) :
  no_layer_header sheets = true ->
  value (ExcelParser.process_sheets float_repr [] last sheets) d
  = Ret ([], match sheets with [] => last | _ => Some None end).
Proof.
  revert last. induction sheets as [|[name rows] rest IH]; intros last H;
    cbn [ExcelParser.process_sheets]; [reflexivity|].
  cbn [no_layer_header forallb snd] in H. apply andb_true_iff in H. destruct H as [Hr Hs].
  rewrite !value_bind, !value_debug_log.
  destruct (process_rows_idle rows (ExcelParser.Walker None None ExcelParser.empty_col_map [])
                              1 d eq_refl Hr) as [st [E [C L]]].
  rewrite E, C, L. cbn [ExcelParser.all_layers].
  rewrite (IH (Some None) Hs). destruct rest; reflexivity.
Qed.

Lemma parse_body_without_layers (excel_bytes : list Byte.byte) (filename : text)
      (wb : ExcelParser.workbook) (d : bool) :
  load_workbook excel_bytes = Ret wb ->
  wb <> [] ->
  no_layer_header wb = true ->
  value (ExcelParser.parse_body float_repr load_workbook excel_bytes filename) d
  = Ret (ExcelParser.ParseResult filename [] true None).
Proof.
  intros Hload Hwb Hquiet. unfold ExcelParser.parse_body.
  rewrite value_bind, value_lift, Hload.
  rewrite value_bind, (process_sheets_idle wb None d Hquiet). cbn [fst snd].
  destruct wb as [|sheet rest]; [contradiction|].
  cbn [ExcelParser.has_carriers]. rewrite value_bind, value_ret. cbv zeta.
  cbn [ExcelParser.merged_layers fold_left map LayerDict.sorted_by_attachment].
  rewrite !value_bind, !value_debug_log. reflexivity.
Qed.

Lemma parse_body_success (excel_bytes : list Byte.byte) (filename : text) :
  post (ExcelParser.parse_body float_repr load_workbook excel_bytes filename)
       (fun r => ExcelParser.pr_filename r = filename
                 /\ ExcelParser.pr_success r = true
                 /\ ExcelParser.pr_error r = None).
Proof.
  unfold ExcelParser.parse_body. cbv zeta. repeat post_step; repeat split.
Qed.

(** **** The PDF path *)

Lemma for_matches_nil (body : list PdfParser.part_of -> Re.mobj
                              -> result (list PdfParser.part_of))
      (results : list PdfParser.part_of) :
  PdfParser.for_matches body [] results = Ret results.
Proof. reflexivity. Qed.

Lemma no_match_nil (ci : bool) (r : Re.re) (s : text) :
  no_match ci r s = true -> Re.finditer ci r s = [].
Proof. unfold no_match. destruct (Re.finditer ci r s); [reflexivity | discriminate]. Qed.

Lemma carriers_from_nothing (lines todo : list text) (i : nat) :
  forallb (fun line => match Re.search false PdfParser.percentage_pattern line with
                       | None => true
                       | Some _ => false
                       end) todo = true ->
  PdfParser.carriers_from lines i todo = Ret [].
Proof.
  revert i. induction todo as [|line rest IH]; intros i H; cbn [PdfParser.carriers_from];
    [reflexivity|].
  cbn [forallb] in H. apply andb_true_iff in H. destruct H as [Hl Hr].
  unfold PdfParser.carrier_of_line.
  destruct (Re.search false PdfParser.percentage_pattern line); [discriminate Hl|].
  cbn [rbind]. rewrite (IH (S i) Hr). reflexivity.
Qed.

Lemma parse_pdf_without_matches (pdf_bytes : list Byte.byte) (filename txt : text) :
  PdfParser.extract_text_from_pdf pdf_pages pdf_bytes = Ret txt ->
  matches_nothing txt = true ->
  PdfParser.parse_insurance_pdf pdf_pages pdf_bytes filename
  = PdfParser.PdfResult filename (PdfParser.document_type txt)
                        (PdfParser.extract_policy_number txt) [] [] [] (firstn 1000 txt)
                        true None.
Proof.
  intros Htext Hnone. unfold matches_nothing in Hnone.
  apply andb_true_iff in Hnone. destruct Hnone as [Hpat Hlines].
  cbn [forallb] in Hpat.
  repeat (apply andb_true_iff in Hpat;
          let H := fresh "Hp" in destruct Hpat as [H Hpat]; apply no_match_nil in H).
  unfold PdfParser.parse_insurance_pdf, PdfParser.parse_body.
  rewrite Htext. cbn [rbind].
  unfold PdfParser.extract_part_of_patterns, PdfParser.extract_limit_patterns,
    PdfParser.extract_carrier_info.
  rewrite Hp, Hp0, Hp1, Hp2, Hp3, Hp4, Hp5, Hp6, Hp7.
  cbn [PdfParser.for_matches PdfParser.collect rbind app].
  rewrite (carriers_from_nothing _ _ 0 Hlines). reflexivity.
Qed.

Lemma extract_text_failure (pdf_bytes : list Byte.byte) (e : exn) :
  pdf_pages pdf_bytes = Raise e ->
  PdfParser.extract_text_from_pdf pdf_pages pdf_bytes
  = Raise (Exn "Exception" (("Error extracting PDF text: " : text) ++ exn_msg e)).
Proof. intros H. unfold PdfParser.extract_text_from_pdf. rewrite H. reflexivity. Qed.

(** C9: neither parse function raises.  [parse_excel_program] returns a
    result that is successful without error, or failed with an error
    message and no layers; it is the failure record of the exception
    whenever opening or walking the workbook raises one, and the
    successful record with no layers for a workbook with a sheet and no
    layer header.  [parse_insurance_pdf] likewise returns a successful
    result, or a failed one with an error message and empty limits and
    carriers: the failure record of the exception when one is raised (as
    when the bytes cannot be read as a PDF), a successful record with no
    limits, carriers or allocations for a text that matches no pattern. *)
Theorem parse_reports_errors_in_result
        (doc_bytes : list Byte.byte) (filename : text) (debug original_debug : bool) :
  (exists r,
     value (ExcelParser.parse_excel_program float_repr load_workbook doc_bytes filename debug)
           original_debug = Ret r
     /\ ExcelParser.pr_filename r = filename
     /\ (ExcelParser.pr_success r = true /\ ExcelParser.pr_error r = None
         \/ ExcelParser.pr_success r = false /\ ExcelParser.pr_layers r = []
            /\ exists msg, ExcelParser.pr_error r = Some msg))
  /\ (forall e,
        value (ExcelParser.parse_body float_repr load_workbook doc_bytes filename)
              (original_debug || debug) = Raise e ->
        value (ExcelParser.parse_excel_program float_repr load_workbook doc_bytes filename
                                               debug) original_debug
        = Ret (excel_failure filename e))
  /\ (forall e,
        load_workbook doc_bytes = Raise e ->
        value (ExcelParser.parse_excel_program float_repr load_workbook doc_bytes filename
                                               debug) original_debug
        = Ret (excel_failure filename e))
  /\ (forall wb,
        load_workbook doc_bytes = Ret wb -> wb <> [] -> no_layer_header wb = true ->
        value (ExcelParser.parse_excel_program float_repr load_workbook doc_bytes filename
                                               debug) original_debug
        = Ret (ExcelParser.ParseResult filename [] true None))
  /\ (PdfParser.pd_filename (PdfParser.parse_insurance_pdf pdf_pages doc_bytes filename)
      = filename
      /\ (PdfParser.pd_success (PdfParser.parse_insurance_pdf pdf_pages doc_bytes filename)
          = true
          /\ PdfParser.pd_error (PdfParser.parse_insurance_pdf pdf_pages doc_bytes filename)
             = None
          \/ PdfParser.pd_success (PdfParser.parse_insurance_pdf pdf_pages doc_bytes filename)
             = false
             /\ PdfParser.pd_limits (PdfParser.parse_insurance_pdf pdf_pages doc_bytes filename)
                = []
             /\ PdfParser.pd_carriers
                  (PdfParser.parse_insurance_pdf pdf_pages doc_bytes filename) = []
             /\ exists msg,
                 PdfParser.pd_error (PdfParser.parse_insurance_pdf pdf_pages doc_bytes filename)
                 = Some msg))
  /\ (forall e,
        PdfParser.parse_body pdf_pages doc_bytes filename = Raise e ->
        PdfParser.parse_insurance_pdf pdf_pages doc_bytes filename = pdf_failure filename e)
  /\ (forall e,
        pdf_pages doc_bytes = Raise e ->
        PdfParser.parse_insurance_pdf pdf_pages doc_bytes filename
        = pdf_failure filename
                      (Exn "Exception" (("Error extracting PDF text: " : text) ++ exn_msg e)))
  /\ (forall txt,
        PdfParser.extract_text_from_pdf pdf_pages doc_bytes = Ret txt ->
        matches_nothing txt = true ->
        PdfParser.parse_insurance_pdf pdf_pages doc_bytes filename
        = PdfParser.PdfResult filename (PdfParser.document_type txt)
                              (PdfParser.extract_policy_number txt) [] [] []
                              (firstn 1000 txt) true None).
Proof.
  split.
  { rewrite value_parse_excel_program. eexists. split; [reflexivity|].
    destruct (value _ (original_debug || debug)) as [r|e] eqn:E.
    - destruct (parse_body_success doc_bytes filename _ r E) as [Hf [Hs He]].
      split; [exact Hf|]. left. split; assumption.
    - split; [reflexivity|]. right. cbn. repeat split. eexists. reflexivity. }
  split.
  { intros e E. rewrite value_parse_excel_program, E. reflexivity. }
  split.
  { intros e E. rewrite value_parse_excel_program. unfold ExcelParser.parse_body.
    rewrite value_bind, value_lift, E. reflexivity. }
  split.
  { intros wb Hload Hwb Hquiet. rewrite value_parse_excel_program.
    rewrite (parse_body_without_layers doc_bytes filename wb _ Hload Hwb Hquiet).
    reflexivity. }
  split.
  { unfold PdfParser.parse_insurance_pdf.
    destruct (PdfParser.parse_body pdf_pages doc_bytes filename) as [r|e] eqn:E.
    - unfold PdfParser.parse_body in E.
      repeat match type of E with
             | rbind ?x _ = Ret _ => destruct x; cbn [rbind] in E; [|discriminate E]
             end.
      injection E as <-. cbn. split; [reflexivity|]. left. split; reflexivity.
    - cbn. split; [reflexivity|]. right. repeat split. eexists. reflexivity. }
  split.
  { intros e E. unfold PdfParser.parse_insurance_pdf. rewrite E. reflexivity. }
  split.
  { intros e E. unfold PdfParser.parse_insurance_pdf, PdfParser.parse_body.
    rewrite (extract_text_failure doc_bytes e E). reflexivity. }
  intros txt Htext Hnone. apply parse_pdf_without_matches; assumption.
Qed.

End ParseErrors.

Lemma parse_reports_errors_in_result_witness :
  value (ExcelParser.parse_excel_program plain_repr load_notes [] "notes.xlsx" false) false
  = Ret (ExcelParser.ParseResult "notes.xlsx" [] true None)
  /\ PdfParser.parse_insurance_pdf cover_page [] "cover.pdf"
     = PdfParser.PdfResult "cover.pdf" "Binder" None [] [] [] "Cover letter for the binder"
                           true None.
Proof.
  pose proof (parse_reports_errors_in_result plain_repr load_notes cover_page []) as H.
  split.
  - destruct (H "notes.xlsx" false false) as [_ [_ [_ [Hx _]]]].
    apply (Hx notes_workbook).
    + reflexivity.
    + discriminate.
    + vm_compute. reflexivity.
  - destruct (H "cover.pdf" false false) as [_ [_ [_ [_ [_ [_ [_ Hp]]]]]]].
    apply (Hp "Cover letter for the binder").
    + vm_compute. reflexivity.
    + vm_compute. reflexivity.
Defined.

(** ** Merging a document with itself *)

Section MergeTwice.
Import LayerDict.

Lemma eqb_compat (a b c : Q) : Num.eqb a b = true -> Num.eqb a c = Num.eqb b c.
Proof.
  unfold Num.eqb. intros H. apply Qeq_bool_iff in H.
  destruct (Qeq_bool a c) eqn:E1, (Qeq_bool b c) eqn:E2; try reflexivity.
  - apply Qeq_bool_iff in E1. assert (E : (b == c)%Q) by (rewrite <- H; exact E1).
    apply Qeq_bool_iff in E. congruence.
  - apply Qeq_bool_iff in E2. assert (E : (a == c)%Q) by (rewrite H; exact E2).
    apply Qeq_bool_iff in E. congruence.
Qed.

Lemma eqb_sym (a b : Q) : Num.eqb a b = Num.eqb b a.
Proof.
  unfold Num.eqb.
  destruct (Qeq_bool a b) eqn:E1, (Qeq_bool b a) eqn:E2; try reflexivity.
  - apply Qeq_bool_iff in E1. symmetry in E1. apply Qeq_bool_iff in E1. congruence.
  - apply Qeq_bool_iff in E2. symmetry in E2. apply Qeq_bool_iff in E2. congruence.
Qed.

Lemma key_eqb_compat (a b c : key) : key_eqb a b = true -> key_eqb a c = key_eqb b c.
Proof.
  unfold key_eqb. intros H. apply andb_true_iff in H. destruct H as [H1 H2].
  rewrite (eqb_compat _ _ (fst c) H1), (eqb_compat _ _ (snd c) H2). reflexivity.
Qed.

Lemma key_eqb_sym (a b : key) : key_eqb a b = key_eqb b a.
Proof. unfold key_eqb. rewrite (eqb_sym (fst a)), (eqb_sym (snd a)). reflexivity. Qed.

Lemma dict_find_update_same (k k' : key) (f : layer -> layer) (d : layer_dict) :
  key_eqb k k' = true ->
  dict_find k' (dict_update k f d) = option_map f (dict_find k' d).
Proof.
  intros Hk. induction d as [|[k0 b] d IH]; cbn; [reflexivity|].
  rewrite <- (key_eqb_compat k k' k0 Hk).
  destruct (key_eqb k k0) eqn:E; cbn; rewrite <- (key_eqb_compat k k' k0 Hk), E;
    [reflexivity | exact IH].
Qed.

Lemma dict_find_update_other (k k' : key) (f : layer -> layer) (d : layer_dict) :
  key_eqb k k' = false ->
  dict_find k' (dict_update k f d) = dict_find k' d.
Proof.
  intros Hk. induction d as [|[k0 b] d IH]; cbn; [reflexivity|].
  destruct (key_eqb k k0) eqn:E; cbn.
  - assert (E' : key_eqb k' k0 = false).
    { rewrite key_eqb_sym. rewrite <- (key_eqb_compat k k0 k' E). exact Hk. }
    rewrite E'. reflexivity.
  - destruct (key_eqb k' k0); [reflexivity | exact IH].
Qed.

Lemma dict_find_app (k : key) (d d' : layer_dict) (b : layer) :
  dict_find k d = Some b -> dict_find k (d ++ d') = Some b.
Proof.
  induction d as [|[k0 b0] d IH]; cbn; [discriminate|].
  destruct (key_eqb k k0); [trivial | exact IH].
Qed.

Lemma dict_mem_find (k : key) (d : layer_dict) :
  dict_mem k d = true <-> exists b, dict_find k d = Some b.
Proof.
  induction d as [|[k0 b0] d IH]; cbn.
  - split; [discriminate | intros [b H]; discriminate].
  - destruct (key_eqb k k0); cbn.
    + split; [intros _; eexists; reflexivity | reflexivity].
    + exact IH.
Qed.

Lemma dict_find_absent_app (k : key) (d d' : layer_dict) :
  dict_mem k d = false -> dict_find k (d ++ d') = dict_find k d'.
Proof.
  induction d as [|[k0 b0] d IH]; cbn; [reflexivity|].
  intros H. apply orb_false_iff in H. destruct H as [H1 H2]. rewrite H1. exact (IH H2).
Qed.

Lemma open_bucket_find (l : layer) (d : layer_dict) :
  exists b, dict_find (key_of l) (open_bucket l d) = Some b
            /\ match dict_find (key_of l) d with
               | Some b' => b = b' /\ open_bucket l d = d
               | None => carriers b = []
               end.
Proof.
  unfold open_bucket. destruct (dict_mem (key_of l) d) eqn:E.
  - apply dict_mem_find in E. destruct E as [b E]. exists b. rewrite E. auto.
  - rewrite (dict_find_absent_app _ _ _ E). cbn. rewrite key_eqb_refl.
    eexists. split; [reflexivity|].
    destruct (dict_find (key_of l) d) eqn:F; [|reflexivity].
    assert (dict_mem (key_of l) d = true) by (apply dict_mem_find; eauto). congruence.
Qed.

Lemma open_bucket_keeps (l : layer) (k : key) (d : layer_dict) (b : layer) :
  dict_find k d = Some b -> dict_find k (open_bucket l d) = Some b.
Proof.
  intros H. unfold open_bucket. destruct (dict_mem (key_of l) d); [exact H|].
  apply dict_find_app. exact H.
Qed.

(** **** One carrier into a bucket *)

Lemma same_entry_refl (c : carrier) : same_entry c c = true.
Proof.
  apply same_entry_iff. split; [reflexivity|].
  assert (H : (share c - share c == 0)%Q) by ring.
  rewrite H. reflexivity.
Qed.

Lemma names_and_shares_merge (cs : list carrier) (c : carrier) :
  names_and_shares (ExcelParser.merge_carrier cs c)
  = if existsb (fun e => same_entry e c) cs then names_and_shares cs
    else names_and_shares cs ++ [(carrier_name c, share c)].
Proof.
  unfold names_and_shares.
  induction cs as [|e cs IH]; cbn; [reflexivity|].
  destruct (same_entry e c); cbn; [reflexivity|].
  rewrite IH. destruct (existsb _ cs); reflexivity.
Qed.

Lemma merge_carrier_keeps (cs : list carrier) (c c' : carrier) :
  existsb (fun e => same_entry e c') cs = true ->
  existsb (fun e => same_entry e c') (ExcelParser.merge_carrier cs c) = true.
Proof.
  induction cs as [|e cs IH]; cbn; [discriminate|].
  intros H. destruct (same_entry e c); cbn.
  - exact H.
  - apply orb_true_iff in H. apply orb_true_iff. destruct H as [H|H]; auto.
Qed.

Lemma merge_carrier_has (cs : list carrier) (c : carrier) :
  existsb (fun e => same_entry e c) (ExcelParser.merge_carrier cs c) = true.
Proof.
  induction cs as [|e cs IH]; cbn.
  - rewrite same_entry_refl. reflexivity.
  - destruct (same_entry e c) eqn:E; cbn [existsb].
    + apply orb_true_iff. left. exact E.
    + rewrite E, IH. reflexivity.
Qed.

Lemma fold_merge_keeps (cs start : list carrier) (c' : carrier) :
  existsb (fun e => same_entry e c') start = true ->
  existsb (fun e => same_entry e c') (fold_left ExcelParser.merge_carrier cs start) = true.
Proof.
  revert start. induction cs as [|c cs IH]; intros start H; cbn; [exact H|].
  apply IH. apply merge_carrier_keeps. exact H.
Qed.

Lemma fold_merge_has (cs start : list carrier) (c : carrier) :
  In c cs ->
  existsb (fun e => same_entry e c) (fold_left ExcelParser.merge_carrier cs start) = true.
Proof.
  revert start. induction cs as [|x cs IH]; intros start H; cbn; [contradiction|].
  destruct H as [->|H].
  - apply fold_merge_keeps. apply merge_carrier_has.
  - apply IH. exact H.
Qed.

Lemma fold_merge_covered (cs start : list carrier) :
  (forall c, In c cs -> existsb (fun e => same_entry e c) start = true) ->
  names_and_shares (fold_left ExcelParser.merge_carrier cs start) = names_and_shares start.
Proof.
  revert start. induction cs as [|x cs IH]; intros start H; cbn; [reflexivity|].
  rewrite IH.
  - rewrite names_and_shares_merge, (H x (or_introl eq_refl)). reflexivity.
  - intros c Hc. apply merge_carrier_keeps. apply H. right. exact Hc.
Qed.

(** **** One layer into the dictionary *)

Lemma merge_layer_covers (d : layer_dict) (l : layer) :
  covers (ExcelParser.merge_layer d l) l.
Proof.
  rewrite merge_layer_rule.
  destruct (open_bucket_find l d) as [b [Hb _]].
  eexists. split.
  - rewrite (dict_find_update_same _ _ _ _ (key_eqb_refl (key_of l))), Hb. reflexivity.
  - cbn. intros c Hc. apply fold_merge_has. exact Hc.
Qed.

Lemma merge_layer_keeps_cover (d : layer_dict) (l l' : layer) :
  covers d l' -> covers (ExcelParser.merge_layer d l) l'.
Proof.
  intros [b [Hb Hc]]. rewrite merge_layer_rule.
  pose proof (open_bucket_keeps l _ _ _ Hb) as Hb'.
  destruct (key_eqb (key_of l) (key_of l')) eqn:E.
  - eexists. split.
    + rewrite (dict_find_update_same _ _ _ _ E), Hb'. reflexivity.
    + cbn. intros c Hin. apply fold_merge_keeps. apply Hc. exact Hin.
  - exists b. split; [|exact Hc].
    rewrite (dict_find_update_other _ _ _ _ E). exact Hb'.
Qed.

Lemma dict_shape_update (k : key) (f : layer -> layer) (d : layer_dict) (b : layer) :
  dict_find k d = Some b ->
  bucket_shape (f b) = bucket_shape b ->
  dict_shape (dict_update k f d) = dict_shape d.
Proof.
  intros Hfind Hshape. unfold dict_shape.
  induction d as [|[k0 b0] d IH]; cbn in *; [reflexivity|].
  destruct (key_eqb k k0); cbn.
  - injection Hfind as ->. rewrite Hshape. reflexivity.
  - rewrite (IH Hfind). reflexivity.
Qed.

Lemma merge_layer_same_shape (d : layer_dict) (l : layer) :
  covers d l -> dict_shape (ExcelParser.merge_layer d l) = dict_shape d.
Proof.
  intros [b [Hb Hc]]. rewrite merge_layer_rule.
  destruct (open_bucket_find l d) as [b' [_ Hopen]]. rewrite Hb in Hopen.
  destruct Hopen as [_ ->].
  apply (dict_shape_update _ _ _ b Hb).
  unfold bucket_shape, with_carriers. cbn [limit attachment is_primary carriers].
  rewrite (fold_merge_covered _ _ Hc). reflexivity.
Qed.

(** **** All the layers of a document *)

Lemma merge_layers_keep_cover (ls : list layer) (d : layer_dict) (l' : layer) :
  covers d l' -> covers (fold_left ExcelParser.merge_layer ls d) l'.
Proof.
  revert d. induction ls as [|l ls IH]; intros d H; cbn; [exact H|].
  apply IH. apply merge_layer_keeps_cover. exact H.
Qed.

Lemma merge_layers_cover (ls : list layer) (d : layer_dict) (l : layer) :
  In l ls -> covers (fold_left ExcelParser.merge_layer ls d) l.
Proof.
  revert d. induction ls as [|x ls IH]; intros d H; cbn; [contradiction|].
  destruct H as [->|H].
  - apply merge_layers_keep_cover. apply merge_layer_covers.
  - apply IH. exact H.
Qed.

Lemma merge_covered_layers_same_shape (ls : list layer) (d : layer_dict) :
  (forall l, In l ls -> covers d l) ->
  dict_shape (fold_left ExcelParser.merge_layer ls d) = dict_shape d.
Proof.
  revert d. induction ls as [|x ls IH]; intros d H; cbn; [reflexivity|].
  rewrite IH.
  - apply merge_layer_same_shape. apply H. left. reflexivity.
  - intros l Hl. apply merge_layer_keeps_cover. apply H. right. exact Hl.
Qed.

(** **** Sorting *)

Lemma insert_sorted_shape (x y : layer) (ls ls' : list layer) :
  bucket_shape x = bucket_shape y ->
  map bucket_shape ls = map bucket_shape ls' ->
  map bucket_shape (insert_sorted x ls) = map bucket_shape (insert_sorted y ls').
Proof.
  intros Hxy. revert ls'.
  induction ls as [|a ls IH]; intros [|b ls'] H; cbn [map insert_sorted] in *;
    try discriminate.
  - rewrite Hxy. reflexivity.
  - assert (Hab : bucket_shape a = bucket_shape b) by congruence.
    assert (Hrest : map bucket_shape ls = map bucket_shape ls') by congruence.
    assert (Ea : attachment a = attachment b) by (unfold bucket_shape in Hab; congruence).
    assert (Ex : attachment x = attachment y) by (unfold bucket_shape in Hxy; congruence).
    rewrite Ea, Ex. destruct (Num.ltb (attachment b) (attachment y)); cbn [map].
    + rewrite Hab, (IH ls' Hrest). reflexivity.
    + rewrite Hxy, Hab, Hrest. reflexivity.
Qed.

Lemma sorted_shape (ls ls' : list layer) :
  map bucket_shape ls = map bucket_shape ls' ->
  map bucket_shape (sorted_by_attachment ls) = map bucket_shape (sorted_by_attachment ls').
Proof.
  revert ls'.
  induction ls as [|a ls IH]; intros [|b ls'] H; cbn [map sorted_by_attachment] in *;
    try discriminate.
  - reflexivity.
  - assert (Hab : bucket_shape a = bucket_shape b) by congruence.
    assert (Hrest : map bucket_shape ls = map bucket_shape ls') by congruence.
    apply insert_sorted_shape; [exact Hab | apply IH; exact Hrest].
Qed.

Lemma dict_shape_values (d d' : layer_dict) :
  dict_shape d = dict_shape d' ->
  map bucket_shape (map snd d) = map bucket_shape (map snd d').
Proof.
  unfold dict_shape. revert d'.
  induction d as [|[k b] d IH]; intros [|[k' b'] d'] H; cbn [map fst snd] in *;
    try discriminate; [reflexivity|].
  assert (Hb : bucket_shape b = bucket_shape b') by congruence.
  rewrite Hb, (IH d'); [reflexivity | congruence].
Qed.

(** **** Premiums *)

Lemma carriers_premium_cons (c : carrier) (cs : list carrier) :
  carriers_premium (c :: cs) = (premium c + carriers_premium cs)%Q.
Proof. reflexivity. Qed.

Lemma total_premium_cons (l : layer) (ls : list layer) :
  total_premium (l :: ls) = (carriers_premium (carriers l) + total_premium ls)%Q.
Proof. reflexivity. Qed.

Lemma dict_premium_cons (k : key) (b : layer) (d : layer_dict) :
  dict_premium ((k, b) :: d) = (carriers_premium (carriers b) + dict_premium d)%Q.
Proof. reflexivity. Qed.

Lemma merge_carrier_premium (cs : list carrier) (c : carrier) :
  (carriers_premium (ExcelParser.merge_carrier cs c) == carriers_premium cs + premium c)%Q.
Proof.
  induction cs as [|e cs IH]; cbn [ExcelParser.merge_carrier].
  - rewrite carriers_premium_cons. change (carriers_premium []) with 0%Q. ring.
  - destruct (same_entry e c); rewrite !carriers_premium_cons.
    + cbn [premium]. unfold Num.add. rewrite Qred_correct. ring.
    + rewrite IH. ring.
Qed.

Lemma fold_merge_premium (cs start : list carrier) :
  (carriers_premium (fold_left ExcelParser.merge_carrier cs start)
   == carriers_premium start + carriers_premium cs)%Q.
Proof.
  revert start. induction cs as [|c cs IH]; intros start; cbn [fold_left].
  - change (carriers_premium []) with 0%Q. ring.
  - rewrite IH, merge_carrier_premium, carriers_premium_cons. ring.
Qed.

Lemma dict_premium_app (d d' : layer_dict) :
  (dict_premium (d ++ d') == dict_premium d + dict_premium d')%Q.
Proof.
  induction d as [|[k b] d IH]; cbn [app].
  - change (dict_premium []) with 0%Q. ring.
  - rewrite !dict_premium_cons, IH. ring.
Qed.

Lemma open_bucket_premium (l : layer) (d : layer_dict) :
  (dict_premium (open_bucket l d) == dict_premium d)%Q.
Proof.
  unfold open_bucket. destruct (dict_mem (key_of l) d); [reflexivity|].
  rewrite dict_premium_app, dict_premium_cons. cbn [carriers].
  change (carriers_premium []) with 0%Q. change (dict_premium []) with 0%Q. ring.
Qed.

Lemma dict_update_premium (k : key) (f : layer -> layer) (d : layer_dict) (b : layer)
      (delta : Q) :
  dict_find k d = Some b ->
  (forall b, carriers_premium (carriers (f b)) == carriers_premium (carriers b) + delta)%Q ->
  (dict_premium (dict_update k f d) == dict_premium d + delta)%Q.
Proof.
  intros Hfind Hf.
  induction d as [|[k0 b0] d IH]; cbn [dict_find dict_update] in *; [discriminate|].
  destruct (key_eqb k k0); rewrite !dict_premium_cons.
  - rewrite Hf. ring.
  - rewrite (IH Hfind). ring.
Qed.

Lemma merge_layer_premium (d : layer_dict) (l : layer) :
  (dict_premium (ExcelParser.merge_layer d l)
   == dict_premium d + carriers_premium (carriers l))%Q.
Proof.
  rewrite merge_layer_rule.
  destruct (open_bucket_find l d) as [b [Hb _]].
  rewrite (dict_update_premium _ _ _ b (carriers_premium (carriers l)) Hb).
  - rewrite open_bucket_premium. reflexivity.
  - intros b'. unfold with_carriers. cbn [carriers]. apply fold_merge_premium.
Qed.

Lemma merge_layers_premium (ls : list layer) (d : layer_dict) :
  (dict_premium (fold_left ExcelParser.merge_layer ls d)
   == dict_premium d + total_premium ls)%Q.
Proof.
  revert d. induction ls as [|l ls IH]; intros d; cbn [fold_left].
  - change (total_premium []) with 0%Q. ring.
  - rewrite IH, merge_layer_premium, total_premium_cons. ring.
Qed.

Lemma insert_sorted_premium (x : layer) (ls : list layer) :
  (total_premium (insert_sorted x ls) == carriers_premium (carriers x) + total_premium ls)%Q.
Proof.
  induction ls as [|y ls IH]; cbn [insert_sorted].
  - reflexivity.
  - destruct (Num.ltb _ _); rewrite !total_premium_cons; [rewrite IH|]; ring.
Qed.

Lemma sorted_premium (ls : list layer) :
  (total_premium (sorted_by_attachment ls) == total_premium ls)%Q.
Proof.
  induction ls as [|x ls IH]; cbn [sorted_by_attachment]; [reflexivity|].
  rewrite insert_sorted_premium, IH, total_premium_cons. reflexivity.
Qed.

(** C6: merging a successful parse result with itself gives as many
    (limit, attachment) buckets as merging it alone, the same buckets
    with the same carrier names and shares in the same order (no
    participation is added), and every premium of the second copy is
    summed into an existing entry: the premiums add up to twice those of
    the single merge. *)
Theorem merge_with_itself_keeps_buckets (doc : ExcelParser.parse_result) :
  ExcelParser.pr_success doc = true ->
  length (ExcelParser.mp_layers (ExcelParser.merge_excel_programs [doc; doc]))
  = length (ExcelParser.mp_layers (ExcelParser.merge_excel_programs [doc]))
  /\ map bucket_shape (ExcelParser.mp_layers (ExcelParser.merge_excel_programs [doc; doc]))
     = map bucket_shape (ExcelParser.mp_layers (ExcelParser.merge_excel_programs [doc]))
  /\ (total_premium (ExcelParser.mp_layers (ExcelParser.merge_excel_programs [doc; doc]))
      == 2 * total_premium (ExcelParser.mp_layers (ExcelParser.merge_excel_programs [doc])))%Q.
Proof.
  intros Hok. unfold ExcelParser.merge_excel_programs.
  cbn [fold_left ExcelParser.mp_layers]. unfold ExcelParser.merge_document. rewrite Hok.
  set (ls := ExcelParser.pr_layers doc).
  set (d1 := fold_left ExcelParser.merge_layer ls []).
  assert (Hshape : dict_shape (fold_left ExcelParser.merge_layer ls d1) = dict_shape d1).
  { apply merge_covered_layers_same_shape. intros l Hl. apply merge_layers_cover. exact Hl. }
  assert (Hmap : map bucket_shape
                     (sorted_by_attachment (map snd (fold_left ExcelParser.merge_layer ls d1)))
                 = map bucket_shape (sorted_by_attachment (map snd d1))).
  { apply sorted_shape. apply dict_shape_values. exact Hshape. }
  split; [|split].
  - rewrite <- (length_map bucket_shape), Hmap, length_map. reflexivity.
  - exact Hmap.
  - rewrite !sorted_premium.
    change (dict_premium (fold_left ExcelParser.merge_layer ls d1) == 2 * dict_premium d1)%Q.
    rewrite merge_layers_premium. unfold d1. rewrite merge_layers_premium.
    change (dict_premium []) with 0%Q. ring.
Qed.

End MergeTwice.

Lemma merge_with_itself_keeps_buckets_witness :
  length (ExcelParser.mp_layers (ExcelParser.merge_excel_programs [sample_program;
                                                                   sample_program]))
  = length (ExcelParser.mp_layers (ExcelParser.merge_excel_programs [sample_program])).
Proof.
  exact (proj1 (merge_with_itself_keeps_buckets sample_program eq_refl)).
Defined.

(** The sample program merged with itself: two buckets as before, each
    premium and fee doubled. *)
Example sample_program_twice :
  ExcelParser.mp_layers (ExcelParser.merge_excel_programs [sample_program; sample_program])
  = [ Layer 50000000 0 true
            [ Carrier "Zurich" (1 # 2) 2000 20 10 (Some []) false [];
              Carrier "Zurich" (1 # 4) 1000 0 0 (Some []) false [] ];
      Layer 75000000 100000000 false
            [ Carrier "AIG" 1 4000 0 0 (Some []) false [] ] ].
Proof. vm_compute. reflexivity. Qed.

(** ** Further examples *)

(** The cascade stops at the first pattern that matches: a text with both
    an excess and a primary phrase is an excess layer. *)
Example excess_pattern_wins_over_primary (debug_parsing : bool) :
  value (ExcelParser.extract_layer_from_text (VStr "$5M xs $1M primary")) debug_parsing
  = Ret (Some (LayerInfo 5000000 1000000 false "$5M xs $1M primary")).
Proof. destruct debug_parsing; vm_compute; reflexivity. Qed.

(** The flag decides what is logged: nothing without it. *)
Example debug_flag_changes_the_log :
  trace (ExcelParser.parse_excel_program plain_repr load_notes [] "notes.xlsx" false) false = []
  /\ length (trace (ExcelParser.parse_excel_program plain_repr load_notes [] "notes.xlsx" true)
                   false) = 11.
Proof. split; vm_compute; reflexivity. Qed.

(** The pending layer is saved after the loop over the sheets, not at the
    end of each sheet: the layer of the first of two sheets is lost, and
    it is kept when its sheet comes last. *)
Example pending_layer_of_an_earlier_sheet_is_dropped :
  value (ExcelParser.parse_excel_program plain_repr (fun _ => Ret two_sheets) []
                                         "program.xlsx" false) false
  = Ret (ExcelParser.ParseResult "program.xlsx" [] true None)
  /\ value (ExcelParser.parse_excel_program plain_repr (fun _ => Ret (rev two_sheets)) []
                                            "program.xlsx" false) false
     = Ret (ExcelParser.ParseResult
              "program.xlsx"
              [ Layer 75000000 100000000 false
                      [ Carrier "Zurich" (1 # 3) 1000 0 0 (Some []) false [] ] ]
              true None).
Proof. split; vm_compute; reflexivity. Qed.

(** What the test of [extract_part_of_patterns] does discard: a
    carrier-less match that contains the raw text of a collected result. *)
Example carrier_less_match_containing_a_result_is_discarded :
  option_map (map PdfParser.po_carrier_name)
             (match PdfParser.extract_part_of_patterns
                      "5 that being 3% XY: $1 that being 2% foo; part of $7 xs $1" with
              | Ret results => Some results
              | Raise _ => None
              end)
  = Some [ "XY" : text ].
Proof. vm_compute. reflexivity. Qed.

(** * Further properties of the two parsers *)

(** ** The merged layers are sorted *)

Lemma ltb_false_le (x y : Q) : Num.ltb x y = false -> (y <= x)%Q.
Proof.
  unfold Num.ltb. intros H. apply negb_false_iff in H. apply Qle_bool_iff. exact H.
Qed.

Lemma insert_sorted_In (x y : layer) (ls : list layer) :
  In y (LayerDict.insert_sorted x ls) <-> y = x \/ In y ls.
Proof.
  induction ls as [|z ls IH]; cbn [LayerDict.insert_sorted].
  - cbn. intuition.
  - destruct (Num.ltb _ _); cbn [In]; [rewrite IH|]; intuition.
Qed.

Lemma sorted_In (y : layer) (ls : list layer) :
  In y (LayerDict.sorted_by_attachment ls) <-> In y ls.
Proof.
  induction ls as [|x ls IH]; cbn [LayerDict.sorted_by_attachment]; [reflexivity|].
  rewrite insert_sorted_In, IH. cbn. intuition.
Qed.

Lemma insert_sorted_sorted (x : layer) (ls : list layer) :
  StronglySorted by_attachment ls ->
  StronglySorted by_attachment (LayerDict.insert_sorted x ls).
Proof.
  induction ls as [|y ls IH]; intros Hs; cbn [LayerDict.insert_sorted].
  - constructor; constructor.
  - inversion Hs as [|? ? Hrest Hy]; subst.
    destruct (Num.ltb (attachment y) (attachment x)) eqn:E.
    + constructor; [apply IH; exact Hrest|].
      apply insert_sorted_Forall; [|exact Hy].
      unfold by_attachment. apply Qlt_le_weak. apply ltb_lt. exact E.
    + apply ltb_false_le in E. constructor; [exact Hs|].
      constructor; [exact E|].
      eapply Forall_impl; [|exact Hy]. unfold by_attachment. intros z Hz.
      eapply Qle_trans; eassumption.
Qed.

Lemma sorted_by_attachment_sorted (ls : list layer) :
  StronglySorted by_attachment (LayerDict.sorted_by_attachment ls).
Proof.
  induction ls as [|x ls IH]; cbn [LayerDict.sorted_by_attachment]; [constructor|].
  apply insert_sorted_sorted. exact IH.
Qed.

(** The layers a parse of a workbook returns are those of the dictionary
    of its closing merge, sorted. *)
Lemma parse_body_shape (float_repr : Q -> text)
      (load_workbook : list Byte.byte -> result ExcelParser.workbook)
      (excel_bytes : list Byte.byte) (filename : text) :
  post (ExcelParser.parse_body float_repr load_workbook excel_bytes filename)
       (fun r => exists layers,
                   ExcelParser.pr_layers r
                   = LayerDict.sorted_by_attachment
                       (map snd (ExcelParser.merged_layers layers))).
Proof.
  unfold ExcelParser.parse_body. cbv zeta.
  repeat post_step; eexists; reflexivity.
Qed.

(** X1: Every result of [merge_excel_programs], of [merge_parsed_documents] and
    of [parse_excel_program] lists its layers in ascending order of
    attachment. *)
Theorem layers_are_sorted_by_attachment
        (float_repr : Q -> text)
        (load_workbook : list Byte.byte -> result ExcelParser.workbook)
        (excel_docs : list ExcelParser.parse_result) (pdf_docs : list PdfParser.pdf_result)
        (excel_bytes : list Byte.byte) (filename : text) (debug original_debug : bool) :
  StronglySorted by_attachment
                 (ExcelParser.mp_layers (ExcelParser.merge_excel_programs excel_docs))
  /\ StronglySorted by_attachment
                    (PdfParser.mp_layers (PdfParser.merge_parsed_documents pdf_docs))
  /\ exists r,
      value (ExcelParser.parse_excel_program float_repr load_workbook excel_bytes filename
                                             debug) original_debug = Ret r
      /\ StronglySorted by_attachment (ExcelParser.pr_layers r).
Proof.
  split; [apply sorted_by_attachment_sorted|].
  split; [apply sorted_by_attachment_sorted|].
  rewrite value_parse_excel_program. eexists. split; [reflexivity|].
  destruct (value _ (original_debug || debug)) as [r|e] eqn:E.
  - destruct (parse_body_shape float_repr load_workbook excel_bytes filename _ r E)
      as [layers ->].
    apply sorted_by_attachment_sorted.
  - constructor.
Qed.

(** ** Failed documents in a merge *)

Lemma excel_merge_skips_failures (docs : list ExcelParser.parse_result)
      (d : LayerDict.layer_dict) :
  fold_left ExcelParser.merge_document docs d
  = fold_left ExcelParser.merge_document (filter ExcelParser.pr_success docs) d.
Proof.
  revert d. induction docs as [|doc docs IH]; intros d; cbn [fold_left filter];
    [reflexivity|].
  destruct (ExcelParser.pr_success doc) eqn:E; cbn [fold_left].
  - apply IH.
  - unfold ExcelParser.merge_document at 2. rewrite E. apply IH.
Qed.

Lemma pdf_merge_skips_failures (docs : list PdfParser.pdf_result) (d : LayerDict.layer_dict) :
  fold_left PdfParser.merge_document docs d
  = fold_left PdfParser.merge_document (filter PdfParser.pd_success docs) d.
Proof.
  revert d. induction docs as [|doc docs IH]; intros d; cbn [fold_left filter];
    [reflexivity|].
  destruct (PdfParser.pd_success doc) eqn:E; cbn [fold_left].
  - apply IH.
  - unfold PdfParser.merge_document at 2. rewrite E. apply IH.
Qed.

Lemma filter_split_length {A} (p : A -> bool) (xs : list A) :
  length (filter p xs) + length (filter (fun x => negb (p x)) xs) = length xs.
Proof.
  induction xs as [|x xs IH]; cbn; [reflexivity|].
  destruct (p x); cbn; lia.
Qed.

(** X2: A failed document changes nothing in a merge but the count of failed
    documents: the merged layers are those of the successful documents
    alone, and every document is counted once, as processed or as failed. *)
Theorem merge_ignores_failed_documents
        (excel_docs : list ExcelParser.parse_result) (pdf_docs : list PdfParser.pdf_result) :
  ExcelParser.mp_layers (ExcelParser.merge_excel_programs excel_docs)
  = ExcelParser.mp_layers
      (ExcelParser.merge_excel_programs (filter ExcelParser.pr_success excel_docs))
  /\ ExcelParser.documents_processed (ExcelParser.merge_excel_programs excel_docs)
     + ExcelParser.documents_failed (ExcelParser.merge_excel_programs excel_docs)
     = length excel_docs
  /\ PdfParser.mp_layers (PdfParser.merge_parsed_documents pdf_docs)
     = PdfParser.mp_layers
         (PdfParser.merge_parsed_documents (filter PdfParser.pd_success pdf_docs))
  /\ PdfParser.documents_processed (PdfParser.merge_parsed_documents pdf_docs)
     + PdfParser.documents_failed (PdfParser.merge_parsed_documents pdf_docs)
     = length pdf_docs.
Proof.
  unfold ExcelParser.merge_excel_programs, PdfParser.merge_parsed_documents.
  cbn [ExcelParser.mp_layers ExcelParser.documents_processed ExcelParser.documents_failed
       PdfParser.mp_layers PdfParser.documents_processed PdfParser.documents_failed].
  split; [rewrite excel_merge_skips_failures; reflexivity|].
  split; [apply filter_split_length|].
  split; [rewrite pdf_merge_skips_failures; reflexivity|].
  apply filter_split_length.
Qed.

(** ** Dictionaries of buckets *)

Section Buckets.
Import LayerDict.

Lemma FOP_snoc {A} (R : A -> A -> Prop) (xs : list A) (x : A) :
  ForallOrdPairs R xs -> Forall (fun a => R a x) xs -> ForallOrdPairs R (xs ++ [x]).
Proof.
  induction xs as [|a xs IH]; intros Hf Hx; cbn [app].
  - constructor; constructor.
  - inversion Hf; subst. inversion Hx; subst.
    constructor; [|apply IH; assumption].
    apply Forall_app. split; [assumption|]. constructor; [assumption | constructor].
Qed.

Lemma dict_update_keys (k : key) (f : layer -> layer) (d : layer_dict) :
  map fst (dict_update k f d) = map fst d.
Proof.
  induction d as [|[k0 b] d IH]; cbn; [reflexivity|].
  destruct (key_eqb k k0); cbn; [reflexivity|]. rewrite IH. reflexivity.
Qed.

Lemma dict_update_every (P : layer -> Prop) (k : key) (f : layer -> layer) (d : layer_dict) :
  (forall b, P b -> P (f b)) -> every_bucket P d -> every_bucket P (dict_update k f d).
Proof.
  intros Hf. unfold every_bucket.
  induction d as [|[k0 b] d IH]; intros Hd; cbn; [constructor|].
  inversion Hd; subst. destruct (key_eqb k k0); constructor; cbn in *; auto.
Qed.

Lemma dict_mem_false (k : key) (d : layer_dict) :
  dict_mem k d = false -> Forall (fun k0 => key_eqb k0 k = false) (map fst d).
Proof.
  induction d as [|[k0 b] d IH]; cbn; intros H; [constructor|].
  apply orb_false_iff in H. destruct H as [H1 H2].
  constructor; [rewrite key_eqb_sym; exact H1 | apply IH; exact H2].
Qed.

Lemma open_bucket_keyed (l : layer) (d : layer_dict) : keyed d -> keyed (open_bucket l d).
Proof.
  intros [Hk Hb]. unfold open_bucket. destruct (dict_mem (key_of l) d) eqn:E; [split; assumption|].
  split.
  - rewrite map_app. cbn [map fst]. apply FOP_snoc; [exact Hk|].
    apply dict_mem_false. exact E.
  - apply Forall_app. split; [exact Hb|]. constructor; [reflexivity | constructor].
Qed.

Lemma dict_update_keyed (k : key) (f : layer -> layer) (d : layer_dict) :
  (forall b, key_of (f b) = key_of b) -> keyed d -> keyed (dict_update k f d).
Proof.
  intros Hf [Hk Hb]. split; [rewrite dict_update_keys; exact Hk|].
  clear Hk. induction d as [|[k0 b] d IH]; cbn; [constructor|].
  inversion Hb; subst. cbn in *.
  destruct (key_eqb k k0); constructor; cbn; auto. rewrite Hf. assumption.
Qed.

Lemma open_bucket_every (P : layer -> Prop) (l : layer) (d : layer_dict) :
  P (Layer (limit l) (attachment l) (is_primary l) []) ->
  every_bucket P d -> every_bucket P (open_bucket l d).
Proof.
  intros Hnew Hd. unfold open_bucket. destruct (dict_mem (key_of l) d); [exact Hd|].
  apply Forall_app. split; [exact Hd|]. constructor; [exact Hnew | constructor].
Qed.

(** The loop that puts the carriers [cs] of a layer in its bucket keeps
    the keys apart, and keeps an invariant of the buckets that the empty
    bucket has and that each step keeps. *)
Lemma carriers_loop_keyed {C} (step : list carrier -> C -> list carrier) (l : layer)
      (cs : list C) (d : layer_dict) :
  keyed d ->
  keyed (fold_left (fun d c => dict_update (key_of l)
                                           (fun b => with_carriers (step (carriers b) c) b) d)
                   cs (open_bucket l d)).
Proof.
  intros Hd. apply open_bucket_keyed with (l := l) in Hd.
  revert Hd. generalize (open_bucket l d). clear d.
  induction cs as [|c cs IH]; intros d Hd; cbn [fold_left]; [exact Hd|].
  apply IH. apply dict_update_keyed; [reflexivity | exact Hd].
Qed.

Lemma carriers_loop_every {C} (P : layer -> Prop)
      (step : list carrier -> C -> list carrier) (l : layer) (cs : list C) (d : layer_dict) :
  P (Layer (limit l) (attachment l) (is_primary l) []) ->
  (forall b c, In c cs -> P b -> P (with_carriers (step (carriers b) c) b)) ->
  every_bucket P d ->
  every_bucket P (fold_left (fun d c => dict_update (key_of l)
                                          (fun b => with_carriers (step (carriers b) c) b) d)
                            cs (open_bucket l d)).
Proof.
  intros Hnew Hstep Hd. apply (open_bucket_every P l d Hnew) in Hd.
  revert Hd Hstep. generalize (open_bucket l d). clear d.
  induction cs as [|c cs IH]; intros d Hd Hstep; cbn [fold_left]; [exact Hd|].
  apply IH.
  - apply dict_update_every; [|exact Hd]. intros b Hb. apply Hstep; [left; reflexivity | exact Hb].
  - intros b c' Hin. apply Hstep. right. exact Hin.
Qed.

Lemma fold_left_invariant {A B} (P : A -> Prop) (f : A -> B -> A) (xs : list B) (a : A) :
  (forall a x, In x xs -> P a -> P (f a x)) -> P a -> P (fold_left f xs a).
Proof.
  revert a. induction xs as [|x xs IH]; intros a Hf Ha; cbn [fold_left]; [exact Ha|].
  apply IH.
  - intros a' x' Hin. apply Hf. right. exact Hin.
  - apply Hf; [left; reflexivity | exact Ha].
Qed.

(** **** The three dictionaries are keyed *)

Lemma excel_merge_keyed (docs : list ExcelParser.parse_result) :
  keyed (fold_left ExcelParser.merge_document docs []).
Proof.
  apply fold_left_invariant; [|split; constructor].
  intros d doc _ Hd. unfold ExcelParser.merge_document.
  destruct (ExcelParser.pr_success doc); [|exact Hd].
  apply fold_left_invariant; [|exact Hd].
  intros d' l _ Hd'. unfold ExcelParser.merge_layer. apply carriers_loop_keyed. exact Hd'.
Qed.

Lemma parse_merge_keyed (layers : list layer) : keyed (ExcelParser.merged_layers layers).
Proof.
  unfold ExcelParser.merged_layers. apply fold_left_invariant; [|split; constructor].
  intros d l _ Hd. unfold ExcelParser.dedup_layer. apply carriers_loop_keyed. exact Hd.
Qed.

Lemma pdf_merge_limit_keyed (doc : PdfParser.pdf_result) (d : layer_dict)
      (limit_info : layer_info) :
  keyed d -> keyed (PdfParser.merge_limit doc d limit_info).
Proof.
  intros Hd. unfold PdfParser.merge_limit. cbv zeta.
  set (bucket := Layer (li_limit limit_info) (li_attachment limit_info)
                       (li_is_primary limit_info) []).
  destruct (dict_find (key_of bucket) (open_bucket bucket d)) as [b|];
    [|apply open_bucket_keyed; exact Hd].
  destruct (carriers b); [|apply open_bucket_keyed; exact Hd].
  apply (carriers_loop_keyed (PdfParser.add_plain (PdfParser.pd_policy_number doc)) bucket).
  exact Hd.
Qed.

Lemma pdf_merge_keyed (docs : list PdfParser.pdf_result) :
  keyed (fold_left PdfParser.merge_document docs []).
Proof.
  apply fold_left_invariant; [|split; constructor].
  intros d doc _ Hd. unfold PdfParser.merge_document.
  destruct (PdfParser.pd_success doc); [|exact Hd]. cbv zeta.
  apply fold_left_invariant.
  - intros d' li _ Hd'. apply pdf_merge_limit_keyed. exact Hd'.
  - apply fold_left_invariant; [|exact Hd].
    intros d' p _ Hd'. unfold PdfParser.merge_part_of. cbv zeta.
    apply dict_update_keyed; [reflexivity|]. apply open_bucket_keyed. exact Hd'.
Qed.

(** **** From the dictionary to the sorted list *)

Lemma keyed_head (k : key) (b : layer) (d : layer_dict) :
  key_of b = k ->
  Forall (fun k0 => key_eqb k k0 = false) (map fst d) ->
  Forall (fun e => key_of (snd e) = fst e) d ->
  Forall (fun b' => same_key b b' = false) (map snd d).
Proof.
  intros Hb. induction d as [|[k' b'] d IH]; cbn [map fst snd]; intros Hk Hd; [constructor|].
  inversion Hk; subst. inversion Hd as [|? ? Hk' Hd']; subst. cbn [fst snd] in Hk'.
  constructor; [|apply IH; assumption].
  unfold same_key. rewrite Hk'. assumption.
Qed.

Lemma keyed_values (d : layer_dict) :
  keyed d -> ForallOrdPairs (fun a b => same_key a b = false) (map snd d).
Proof.
  intros [Hk Hb]. induction d as [|[k b] d IH]; cbn [map fst snd] in *; [constructor|].
  inversion Hk as [|? ? Hhead Hrest]; subst. inversion Hb as [|? ? Hkb Hbs]; subst.
  cbn [fst snd] in Hkb.
  constructor; [|apply IH; assumption].
  apply (keyed_head k b d Hkb Hhead Hbs).
Qed.

Lemma insert_sorted_FOP (R : layer -> layer -> Prop) (x : layer) (ls : list layer) :
  (forall a b, R a b -> R b a) ->
  Forall (R x) ls -> ForallOrdPairs R ls -> ForallOrdPairs R (insert_sorted x ls).
Proof.
  intros Hsym. induction ls as [|y ls IH]; intros Hx Hls; cbn [insert_sorted].
  - constructor; constructor.
  - inversion Hx; subst. inversion Hls; subst.
    destruct (Num.ltb _ _).
    + constructor; [|apply IH; assumption].
      apply insert_sorted_Forall; [apply Hsym|]; assumption.
    + constructor; [exact Hx | exact Hls].
Qed.

Lemma sorted_FOP (R : layer -> layer -> Prop) (ls : list layer) :
  (forall a b, R a b -> R b a) ->
  ForallOrdPairs R ls -> ForallOrdPairs R (sorted_by_attachment ls).
Proof.
  intros Hsym. induction ls as [|x ls IH]; intros Hls; cbn [sorted_by_attachment];
    [constructor|].
  inversion Hls; subst.
  apply insert_sorted_FOP; [exact Hsym | apply sorted_Forall; assumption | apply IH; assumption].
Qed.

Lemma keyed_sorted_values (d : layer_dict) :
  keyed d ->
  ForallOrdPairs (fun a b => same_key a b = false) (sorted_by_attachment (map snd d)).
Proof.
  intros Hd. apply sorted_FOP; [|apply keyed_values; exact Hd].
  intros a b H. unfold same_key in *. rewrite key_eqb_sym. exact H.
Qed.

End Buckets.

(** X3: No two layers of a result of [merge_excel_programs], of
    [merge_parsed_documents] or of [parse_excel_program] have the same
    limit and the same attachment. *)
Theorem layers_have_distinct_keys
        (float_repr : Q -> text)
        (load_workbook : list Byte.byte -> result ExcelParser.workbook)
        (excel_docs : list ExcelParser.parse_result) (pdf_docs : list PdfParser.pdf_result)
        (excel_bytes : list Byte.byte) (filename : text) (debug original_debug : bool) :
  ForallOrdPairs (fun a b => same_key a b = false)
                 (ExcelParser.mp_layers (ExcelParser.merge_excel_programs excel_docs))
  /\ ForallOrdPairs (fun a b => same_key a b = false)
                    (PdfParser.mp_layers (PdfParser.merge_parsed_documents pdf_docs))
  /\ exists r,
      value (ExcelParser.parse_excel_program float_repr load_workbook excel_bytes filename
                                             debug) original_debug = Ret r
      /\ ForallOrdPairs (fun a b => same_key a b = false) (ExcelParser.pr_layers r).
Proof.
  split; [apply keyed_sorted_values; apply excel_merge_keyed|].
  split; [apply keyed_sorted_values; apply pdf_merge_keyed|].
  rewrite value_parse_excel_program. eexists. split; [reflexivity|].
  destruct (value _ (original_debug || debug)) as [r|e] eqn:E.
  - destruct (parse_body_shape float_repr load_workbook excel_bytes filename _ r E)
      as [layers ->].
    apply keyed_sorted_values. apply parse_merge_keyed.
  - constructor.
Qed.

(** ** What a bucket never holds *)

Section BucketContents.
Import LayerDict.

Lemma merge_carrier_unlike (e c : carrier) (cs : list carrier) :
  same_entry e c = false ->
  Forall (fun x => same_entry e x = false) cs ->
  Forall (fun x => same_entry e x = false) (ExcelParser.merge_carrier cs c).
Proof.
  intros Hec. induction cs as [|x cs IH]; intros Hcs; cbn [ExcelParser.merge_carrier].
  - constructor; [exact Hec | constructor].
  - inversion Hcs as [|? ? Hx Hrest]; subst.
    destruct (same_entry x c); constructor; auto.
Qed.

Lemma merge_carrier_no_duplicates (cs : list carrier) (c : carrier) :
  no_exact_duplicates cs -> no_exact_duplicates (ExcelParser.merge_carrier cs c).
Proof.
  unfold no_exact_duplicates.
  induction cs as [|x cs IH]; intros Hcs; cbn [ExcelParser.merge_carrier].
  - constructor; constructor.
  - inversion Hcs as [|? ? Hx Hrest]; subst.
    destruct (same_entry x c) eqn:E.
    + constructor; [exact Hx | exact Hrest].
    + constructor; [apply merge_carrier_unlike; assumption | apply IH; exact Hrest].
Qed.

Lemma dedup_carrier_no_duplicates (cs : list carrier) (c : carrier) :
  no_exact_duplicates cs -> no_exact_duplicates (ExcelParser.dedup_carrier cs c).
Proof.
  unfold no_exact_duplicates, ExcelParser.dedup_carrier. intros Hcs.
  destruct (existsb (fun existing => same_entry existing c) cs) eqn:E; [exact Hcs|].
  apply FOP_snoc; [exact Hcs|].
  apply Forall_forall. intros x Hx.
  destruct (same_entry x c) eqn:Ex; [|reflexivity].
  assert (H : existsb (fun existing => same_entry existing c) cs = true)
    by (apply existsb_exists; exists x; split; assumption).
  congruence.
Qed.

Lemma excel_merge_no_duplicates (docs : list ExcelParser.parse_result) :
  every_bucket (fun b => no_exact_duplicates (carriers b))
               (fold_left ExcelParser.merge_document docs []).
Proof.
  apply fold_left_invariant; [|constructor].
  intros d doc _ Hd. unfold ExcelParser.merge_document.
  destruct (ExcelParser.pr_success doc); [|exact Hd].
  apply fold_left_invariant; [|exact Hd].
  intros d' l _ Hd'. unfold ExcelParser.merge_layer.
  apply (carriers_loop_every (fun b => no_exact_duplicates (carriers b))); [constructor| |exact Hd'].
  intros b c _ Hb. apply merge_carrier_no_duplicates. exact Hb.
Qed.

Lemma parse_merge_no_duplicates (layers : list layer) :
  every_bucket (fun b => no_exact_duplicates (carriers b)) (ExcelParser.merged_layers layers).
Proof.
  unfold ExcelParser.merged_layers. apply fold_left_invariant; [|constructor].
  intros d l _ Hd. unfold ExcelParser.dedup_layer.
  apply (carriers_loop_every (fun b => no_exact_duplicates (carriers b))); [constructor| |exact Hd].
  intros b c _ Hb. apply dedup_carrier_no_duplicates. exact Hb.
Qed.

Lemma every_bucket_sorted (P : layer -> Prop) (d : layer_dict) :
  every_bucket P d -> Forall P (sorted_by_attachment (map snd d)).
Proof.
  intros Hd. apply sorted_Forall. apply Forall_map. exact Hd.
Qed.

(** **** Names in the buckets of the textual merge *)

Lemma text_eqb_refl (a : text) : Py.text_eqb a a = true.
Proof. apply text_eqb_eq. reflexivity. Qed.

Lemma no_entry_named (name : text) (cs : list carrier) :
  split_first (fun e => Py.text_eqb (carrier_name e) name) cs = None ->
  ~ In name (map carrier_name cs).
Proof.
  induction cs as [|x cs IH]; cbn [split_first map In]; [tauto|].
  destruct (Py.text_eqb (carrier_name x) name) eqn:E; [discriminate|].
  destruct (split_first _ cs) as [[[pre e] post]|]; [discriminate|].
  intros _ [H|H].
  - rewrite H, text_eqb_refl in E. discriminate.
  - exact (IH eq_refl H).
Qed.

Lemma split_first_parts {A} (p : A -> bool) (xs pre post : list A) (x : A) :
  split_first p xs = Some (pre, x, post) -> xs = pre ++ x :: post.
Proof.
  revert pre. induction xs as [|y xs IH]; intros pre; cbn [split_first]; [discriminate|].
  destruct (p y).
  - intros H. injection H as <- <- <-. reflexivity.
  - destruct (split_first p xs) as [[[pre' e] post']|]; [|discriminate].
    intros H. injection H as <- <- <-. cbn [app]. rewrite (IH pre' eq_refl). reflexivity.
Qed.

Lemma NoDup_snoc {A} (xs : list A) (x : A) : NoDup xs -> ~ In x xs -> NoDup (xs ++ [x]).
Proof.
  intros Hxs Hx. induction Hxs as [|y ys Hy Hys IH]; cbn [app].
  - constructor; [tauto | constructor].
  - constructor.
    + rewrite in_app_iff. cbn. intros [H|[H|[]]]; [tauto|]. subst. apply Hx. left. reflexivity.
    + apply IH. intros H. apply Hx. right. exact H.
Qed.

Lemma add_part_of_names (policy : option text) (cs : list carrier) (p : PdfParser.part_of) :
  NoDup (map carrier_name cs) ->
  NoDup (map carrier_name (PdfParser.add_part_of policy cs p)).
Proof.
  intros Hcs. rewrite add_part_of_rule.
  destruct (split_first _ cs) as [[[pre e] post]|] eqn:E.
  - apply split_first_parts in E. rewrite E in Hcs.
    rewrite map_app in *. exact Hcs.
  - rewrite map_app. apply NoDup_snoc; [exact Hcs|]. apply no_entry_named. exact E.
Qed.

Lemma add_plain_names (policy : option text) (cs : list carrier) (c : PdfParser.pdf_carrier) :
  NoDup (map carrier_name cs) ->
  NoDup (map carrier_name (PdfParser.add_plain policy cs c)).
Proof.
  intros Hcs. rewrite add_plain_rule.
  destruct (split_first _ cs) as [[[pre e] post]|] eqn:E.
  - apply split_first_parts in E. rewrite E in Hcs.
    rewrite map_app in *. exact Hcs.
  - rewrite map_app. apply NoDup_snoc; [exact Hcs|]. apply no_entry_named. exact E.
Qed.

Lemma pdf_merge_distinct_names (docs : list PdfParser.pdf_result) :
  every_bucket distinct_names (fold_left PdfParser.merge_document docs []).
Proof.
  apply fold_left_invariant; [|constructor].
  intros d doc _ Hd. unfold PdfParser.merge_document.
  destruct (PdfParser.pd_success doc); [|exact Hd]. cbv zeta.
  apply fold_left_invariant.
  - intros d' li _ Hd'. unfold PdfParser.merge_limit. cbv zeta.
    set (bucket := Layer (li_limit li) (li_attachment li) (li_is_primary li) []).
    assert (Hopen : every_bucket distinct_names (open_bucket bucket d'))
      by (apply open_bucket_every; [constructor | exact Hd']).
    destruct (dict_find (key_of bucket) (open_bucket bucket d')) as [b|]; [|exact Hopen].
    destruct (carriers b); [|exact Hopen].
    apply (carriers_loop_every distinct_names
                               (PdfParser.add_plain (PdfParser.pd_policy_number doc)) bucket);
      [constructor| |exact Hd'].
    intros b' c _ Hb'. apply add_plain_names. exact Hb'.
  - apply fold_left_invariant; [|exact Hd].
    intros d' p _ Hd'. unfold PdfParser.merge_part_of. cbv zeta.
    apply dict_update_every.
    + intros b Hb. apply add_part_of_names. exact Hb.
    + apply open_bucket_every; [constructor | exact Hd'].
Qed.

End BucketContents.

(** X4: In every layer of a result of [merge_excel_programs] or of
    [parse_excel_program], no carrier entry is an exact duplicate (same
    name, shares closer than 0.0001) of an entry before it. *)
Theorem spreadsheet_layers_have_no_exact_duplicates
        (float_repr : Q -> text)
        (load_workbook : list Byte.byte -> result ExcelParser.workbook)
        (excel_docs : list ExcelParser.parse_result)
        (excel_bytes : list Byte.byte) (filename : text) (debug original_debug : bool) :
  Forall (fun l => no_exact_duplicates (carriers l))
         (ExcelParser.mp_layers (ExcelParser.merge_excel_programs excel_docs))
  /\ exists r,
      value (ExcelParser.parse_excel_program float_repr load_workbook excel_bytes filename
                                             debug) original_debug = Ret r
      /\ Forall (fun l => no_exact_duplicates (carriers l)) (ExcelParser.pr_layers r).
Proof.
  split; [apply every_bucket_sorted; apply excel_merge_no_duplicates|].
  rewrite value_parse_excel_program. eexists. split; [reflexivity|].
  destruct (value _ (original_debug || debug)) as [r|e] eqn:E.
  - destruct (parse_body_shape float_repr load_workbook excel_bytes filename _ r E)
      as [layers ->].
    apply every_bucket_sorted. apply parse_merge_no_duplicates.
  - constructor.
Qed.

(** X5: In every layer of a result of [merge_parsed_documents] the carriers
    have pairwise different names: a carrier name occurs once per layer,
    whatever the shares of the allocations that were merged. *)
Theorem textual_layers_have_one_entry_per_name (pdf_docs : list PdfParser.pdf_result) :
  Forall distinct_names (PdfParser.mp_layers (PdfParser.merge_parsed_documents pdf_docs)).
Proof.
  apply (every_bucket_sorted distinct_names). apply pdf_merge_distinct_names.
Qed.

(** ** No participation is lost in a merge *)

Section Kept.
Import LayerDict.

Lemma merge_document_keeps_cover (d : layer_dict) (doc : ExcelParser.parse_result)
      (l : layer) :
  covers d l -> covers (ExcelParser.merge_document d doc) l.
Proof.
  intros H. unfold ExcelParser.merge_document.
  destruct (ExcelParser.pr_success doc); [|exact H].
  apply merge_layers_keep_cover. exact H.
Qed.

Lemma merge_documents_keep_cover (docs : list ExcelParser.parse_result) (d : layer_dict)
      (l : layer) :
  covers d l -> covers (fold_left ExcelParser.merge_document docs d) l.
Proof.
  revert d. induction docs as [|doc docs IH]; intros d H; cbn [fold_left]; [exact H|].
  apply IH. apply merge_document_keeps_cover. exact H.
Qed.

Lemma merge_documents_cover (docs : list ExcelParser.parse_result) (d : layer_dict)
      (doc : ExcelParser.parse_result) (l : layer) :
  In doc docs -> ExcelParser.pr_success doc = true -> In l (ExcelParser.pr_layers doc) ->
  covers (fold_left ExcelParser.merge_document docs d) l.
Proof.
  revert d. induction docs as [|x docs IH]; intros d Hin Hok Hl; cbn [fold_left];
    [contradiction|].
  destruct Hin as [->|Hin].
  - apply merge_documents_keep_cover. unfold ExcelParser.merge_document. rewrite Hok.
    apply merge_layers_cover. exact Hl.
  - apply IH; assumption.
Qed.

Lemma dict_find_In (k : key) (d : layer_dict) (b : layer) :
  dict_find k d = Some b -> exists k0, In (k0, b) d /\ key_eqb k k0 = true.
Proof.
  induction d as [|[k0 b0] d IH]; cbn [dict_find]; [discriminate|].
  destruct (key_eqb k k0) eqn:E.
  - intros H. injection H as ->. exists k0. split; [left; reflexivity | exact E].
  - intros H. destruct (IH H) as [k1 [Hin Hk]]. exists k1. split; [right; exact Hin | exact Hk].
Qed.

Lemma covered_in_values (d : layer_dict) (l : layer) (c : carrier) :
  keyed d -> covers d l -> In c (carriers l) ->
  exists b e,
    In b (map snd d) /\ same_key l b = true
    /\ In e (carriers b) /\ same_entry e c = true.
Proof.
  intros [_ Hkeys] [b [Hfind Hall]] Hc.
  destruct (dict_find_In _ _ _ Hfind) as [k0 [Hin Hk]].
  destruct (proj1 (existsb_exists _ _) (Hall c Hc)) as [e [He Hsame]].
  exists b, e. split; [|split; [|split]].
  - apply in_map_iff. exists (k0, b). split; [reflexivity | exact Hin].
  - unfold same_key. rewrite Forall_forall in Hkeys.
    pose proof (Hkeys (k0, b) Hin) as Hb. cbn [fst snd] in Hb. rewrite Hb. exact Hk.
  - exact He.
  - exact Hsame.
Qed.

End Kept.

(** X6: Every carrier of every layer of a successful document is found in the
    result of [merge_excel_programs]: the result has a layer with the limit
    and attachment of the carrier's layer, and in it an entry with the
    carrier's name and a share closer than 0.0001 to its share. *)
Theorem merge_keeps_every_participation
        (docs : list ExcelParser.parse_result) (doc : ExcelParser.parse_result)
        (l : layer) (c : carrier) :
  In doc docs ->
  ExcelParser.pr_success doc = true ->
  In l (ExcelParser.pr_layers doc) ->
  In c (carriers l) ->
  exists b e,
    In b (ExcelParser.mp_layers (ExcelParser.merge_excel_programs docs))
    /\ same_key l b = true
    /\ In e (carriers b)
    /\ carrier_name e = carrier_name c
    /\ (Qabs (share e - share c) < 1 # 10000)%Q.
Proof.
  intros Hdoc Hok Hl Hc.
  destruct (covered_in_values (fold_left ExcelParser.merge_document docs []) l c
                              (excel_merge_keyed docs)
                              (merge_documents_cover docs [] doc l Hdoc Hok Hl) Hc)
    as [b [e [Hb [Hk [He Hs]]]]].
  apply same_entry_iff in Hs. destruct Hs as [Hname Hshare].
  exists b, e. split; [|repeat split; assumption].
  unfold ExcelParser.merge_excel_programs. cbn [ExcelParser.mp_layers].
  apply sorted_In. exact Hb.
Qed.

Lemma merge_keeps_every_participation_witness :
  exists b e,
    In b (ExcelParser.mp_layers (ExcelParser.merge_excel_programs [sample_program]))
    /\ same_key (Layer 75000000 100000000 false
                       [Carrier "AIG" 1 2000 0 0 (Some []) false []]) b = true
    /\ In e (carriers b)
    /\ carrier_name e = carrier_name (Carrier "AIG" 1 2000 0 0 (Some []) false [])
    /\ (Qabs (share e - share (Carrier "AIG" 1 2000 0 0 (Some []) false [])) < 1 # 10000)%Q.
Proof.
  apply (merge_keeps_every_participation [sample_program] sample_program).
  - left. reflexivity.
  - reflexivity.
  - right. left. reflexivity.
  - left. reflexivity.
Defined.

(** ** Rows that the walker passes over *)

(** X7: A skip row and a total row change nothing in the walker, whatever
    else they hold: the two tests come before the tests for a layer header
    and for column headers and before the reading of a carrier. *)
Theorem skip_and_total_rows_change_nothing
        (float_repr : Q -> text) (st : ExcelParser.walker) (row_idx : nat)
        (row : list pyval) (d : bool) :
  ExcelParser.is_skip_row float_repr row = true
  \/ value (ExcelParser.is_total_row float_repr row) d = Ret true ->
  value (ExcelParser.process_row float_repr st row_idx row) d = Ret st.
Proof.
  intros H. unfold ExcelParser.process_row.
  destruct (negb (any row)); [reflexivity|].
  rewrite value_bind, value_debug_log.
  destruct (ExcelParser.is_skip_row float_repr row).
  - rewrite value_bind, value_debug_log. reflexivity.
  - destruct H as [H|H]; [discriminate|].
    rewrite value_bind, H, value_bind, value_debug_log. reflexivity.
Qed.

Lemma skip_and_total_rows_change_nothing_witness :
  value (ExcelParser.process_row plain_repr busy_walker 7 divider_row) false = Ret busy_walker.
Proof.
  apply skip_and_total_rows_change_nothing. left. vm_compute. reflexivity.
Defined.

(** ** What makes a row a column header *)

Lemma keyword_hits_count (float_repr : Q -> text) (cell : pyval) :
  ExcelParser.keyword_hits float_repr cell
  = (if is_header_keyword_cell float_repr cell then 1 else 0)
    + (if is_exact_keyword_cell float_repr cell then 1 else 0).
Proof.
  unfold ExcelParser.keyword_hits, is_header_keyword_cell, is_exact_keyword_cell.
  destruct (truthy cell); cbn [andb]; [|reflexivity]. cbv zeta.
  destruct (Py.mem _ _), (existsb _ _); reflexivity.
Qed.

Lemma keyword_matches_count (float_repr : Q -> text) (row : list pyval) (n : nat) :
  fold_left (fun n cell => n + ExcelParser.keyword_hits float_repr cell) row n
  = n + (header_keyword_cells float_repr row + exact_keyword_cells float_repr row).
Proof.
  revert n. unfold header_keyword_cells, exact_keyword_cells.
  induction row as [|cell row IH]; intros n; cbn [fold_left filter length]; [lia|].
  rewrite IH, keyword_hits_count.
  destruct (is_header_keyword_cell float_repr cell), (is_exact_keyword_cell float_repr cell);
    cbn [length]; lia.
Qed.

Lemma mem_existsb (x : text) (xs : list text) (p : text -> bool) :
  (forall kw, Py.text_eqb x kw = true -> p kw = true) ->
  Py.mem x xs = true -> existsb p xs = true.
Proof.
  intros Hp. unfold Py.mem. induction xs as [|y xs IH]; cbn [existsb]; [trivial|].
  intros H. apply orb_true_iff in H. apply orb_true_iff.
  destruct H as [H|H]; [left; apply Hp; exact H | right; apply IH; exact H].
Qed.

Lemma exact_cell_is_keyword_cell (float_repr : Q -> text) (cell : pyval) :
  is_exact_keyword_cell float_repr cell = true -> is_header_keyword_cell float_repr cell = true.
Proof.
  unfold is_exact_keyword_cell, is_header_keyword_cell. intros H.
  apply andb_true_iff in H. destruct H as [Ht Hm]. rewrite Ht. cbn [andb].
  revert Hm. apply mem_existsb. intros kw Hkw. rewrite Hkw. reflexivity.
Qed.

Lemma exact_cells_are_keyword_cells (float_repr : Q -> text) (row : list pyval) :
  exact_keyword_cells float_repr row <= header_keyword_cells float_repr row.
Proof.
  unfold exact_keyword_cells, header_keyword_cells.
  induction row as [|cell row IH]; cbn [filter length]; [lia|].
  destruct (is_exact_keyword_cell float_repr cell) eqn:E.
  - rewrite (exact_cell_is_keyword_cell _ _ E). cbn [length]. lia.
  - destruct (is_header_keyword_cell float_repr cell); cbn [length]; lia.
Qed.

(** X8: [is_participant_header_row] counts a header-keyword cell once, and
    once more when its cleaned text is exactly a keyword: a row is a
    column header exactly when it has a non-empty cell and these two
    counts add up to three or more.  So a column header has at least two
    header-keyword cells, and two cells that are exactly keywords are
    enough. *)
Theorem column_header_counts_exact_keywords_twice
        (float_repr : Q -> text) (row : list pyval) (d : bool) :
  value (ExcelParser.is_participant_header_row float_repr row) d
  = Ret (any row
         && (3 <=? header_keyword_cells float_repr row + exact_keyword_cells float_repr row))
  /\ exact_keyword_cells float_repr row <= header_keyword_cells float_repr row
  /\ (value (ExcelParser.is_participant_header_row float_repr row) d = Ret true ->
      2 <= header_keyword_cells float_repr row).
Proof.
  assert (Hvalue : value (ExcelParser.is_participant_header_row float_repr row) d
                   = Ret (any row
                          && (3 <=? header_keyword_cells float_repr row
                                    + exact_keyword_cells float_repr row))).
  { unfold ExcelParser.is_participant_header_row.
    destruct (any row); cbn [negb andb]; [|reflexivity]. cbv zeta.
    unfold ExcelParser.keyword_matches. rewrite keyword_matches_count. cbn [Nat.add].
    rewrite value_bind.
    destruct (3 <=? _); [rewrite value_debug_log | rewrite value_ret]; reflexivity. }
  pose proof (exact_cells_are_keyword_cells float_repr row) as Hle.
  split; [exact Hvalue|]. split; [exact Hle|].
  rewrite Hvalue. intros H.
  assert (H' : any row
               && (3 <=? header_keyword_cells float_repr row
                         + exact_keyword_cells float_repr row) = true) by congruence.
  apply andb_true_iff in H'. destruct H' as [_ H']. apply Nat.leb_le in H'. lia.
Qed.

Lemma column_header_counts_exact_keywords_twice_witness :
  2 <= header_keyword_cells plain_repr [VStr "Participant"; VStr "Line"].
Proof.
  apply (proj2 (proj2 (column_header_counts_exact_keywords_twice
                         plain_repr [VStr "Participant"; VStr "Line"] false))).
  vm_compute. reflexivity.
Defined.

(** ** Column map *)

Section ColumnMap.
Variable float_repr : Q -> text.

Lemma map_cell_columns (start_col : nat) (m : ExcelParser.col_map) (col_idx : nat)
      (cell : pyval) (r : role) (i : nat) :
  column_of r (ExcelParser.map_cell float_repr start_col m col_idx cell) = Some i ->
  column_of r m = Some i
  \/ (i = col_idx /\ start_col <= col_idx /\ truthy cell = true
      /\ heads_role float_repr r cell = true).
Proof.
  unfold ExcelParser.map_cell.
  destruct (col_idx <? start_col) eqn:Estart; [left; assumption|].
  apply Nat.ltb_ge in Estart.
  destruct (truthy cell) eqn:Etruthy; cbn [negb]; [|left; assumption].
  cbv zeta. unfold heads_role.
  repeat match goal with
         | |- context [if ?b then _ else _] =>
             lazymatch b with
             | Py.mem _ _ => destruct b eqn:?
             | andb _ _ => destruct b eqn:?
             end
         end;
    destruct r; cbn [column_of ExcelParser.cm_carrier ExcelParser.cm_line ExcelParser.cm_ppm
                               ExcelParser.cm_premium ExcelParser.cm_fees ExcelParser.cm_sl_tax
                               ExcelParser.cm_total role_words];
    intros H; try (left; exact H);
    right; injection H as <-;
    repeat split; try assumption;
    repeat match goal with
           | E : _ = true |- _ => rewrite E
           end; cbn [orb]; try reflexivity; try apply orb_true_r.
Qed.

Lemma map_cells_columns (start_col : nat) (pre cells : list pyval) (m : ExcelParser.col_map) :
  well_mapped float_repr (pre ++ cells) start_col m ->
  well_mapped float_repr (pre ++ cells) start_col
              (ExcelParser.map_cells float_repr start_col m (length pre) cells).
Proof.
  revert pre m. induction cells as [|cell cells IH]; intros pre m Hm;
    cbn [ExcelParser.map_cells]; [exact Hm|].
  replace (S (length pre)) with (length (pre ++ [cell])) by (rewrite length_app; cbn; lia).
  replace (pre ++ cell :: cells) with ((pre ++ [cell]) ++ cells) in *
    by (rewrite <- app_assoc; reflexivity).
  apply IH. intros r i Hi.
  destruct (map_cell_columns _ _ _ _ _ _ Hi) as [H|[-> [Hs [Ht Hr]]]]; [apply Hm; exact H|].
  split; [exact Hs|]. exists cell. split; [|split; assumption].
  rewrite <- app_assoc. rewrite nth_error_app2 by lia.
  rewrite Nat.sub_diag. reflexivity.
Qed.

Lemma start_col_is_0_or_1 (row : list pyval) :
  ExcelParser.start_col_of float_repr row = 0 \/ ExcelParser.start_col_of float_repr row = 1.
Proof.
  unfold ExcelParser.start_col_of. destruct row as [|first rest]; [left; reflexivity|].
  destruct (truthy first); [|left; reflexivity]. cbv zeta.
  destruct (ExcelParser.searches _ _ _); [right; reflexivity|].
  destruct (negb _); [|left; reflexivity].
  destruct (existsb _ _); [right | left]; reflexivity.
Qed.

(** X9: The column map [map_columns] makes of a row points, for each role it
    maps, at a cell of that row which is not empty and heads the role, at
    or after the column where the data starts; this column is 0 or 1. *)
Theorem map_columns_points_at_header_cells (row : list pyval) (d : bool) :
  exists cm,
    value (ExcelParser.map_columns float_repr row) d = Ret cm
    /\ ExcelParser.cm_data_start_col cm = Some (ExcelParser.start_col_of float_repr row)
    /\ (ExcelParser.start_col_of float_repr row = 0
        \/ ExcelParser.start_col_of float_repr row = 1)
    /\ well_mapped float_repr row (ExcelParser.start_col_of float_repr row) cm.
Proof.
  unfold ExcelParser.map_columns. cbv zeta. eexists.
  rewrite value_bind, value_debug_log. split; [reflexivity|].
  split; [reflexivity|]. split; [apply start_col_is_0_or_1|].
  pose proof (map_cells_columns (ExcelParser.start_col_of float_repr row) [] row
                                ExcelParser.empty_col_map) as H.
  cbn [app length] in H.
  intros r i Hi. apply H.
  - intros r' i' Hi'. destruct r'; discriminate Hi'.
  - destruct r; exact Hi.
Qed.

End ColumnMap.

(** ** Stripping *)

Lemma lstrip_fixed (s : text) :
  match s with [] => True | c :: _ => Py.is_space c = false end -> Py.lstrip s = s.
Proof. destruct s as [|c s]; cbn; [reflexivity|]. intros ->. reflexivity. Qed.

Lemma lstrip_head (s : text) :
  match Py.lstrip s with [] => True | c :: _ => Py.is_space c = false end.
Proof.
  induction s as [|c s IH]; cbn; [exact I|].
  destruct (Py.is_space c) eqn:E; [exact IH | exact E].
Qed.

Lemma lstrip_snoc (u : text) (c : ascii) :
  Py.is_space c = false -> Py.lstrip (u ++ [c]) = Py.lstrip u ++ [c].
Proof.
  intros Hc. induction u as [|x u IH]; cbn.
  - rewrite Hc. reflexivity.
  - destruct (Py.is_space x); [exact IH | reflexivity].
Qed.

Lemma rstrip_head (s : text) :
  match s with [] => True | c :: _ => Py.is_space c = false end ->
  match Py.rstrip s with [] => True | c :: _ => Py.is_space c = false end.
Proof.
  unfold Py.rstrip. destruct s as [|c s]; [intros _; exact I|]. intros Hc.
  cbn [rev]. rewrite (lstrip_snoc _ _ Hc), rev_app_distr. cbn. exact Hc.
Qed.

Lemma rstrip_idempotent (s : text) : Py.rstrip (Py.rstrip s) = Py.rstrip s.
Proof.
  unfold Py.rstrip. rewrite rev_involutive.
  rewrite (lstrip_fixed (Py.lstrip (rev s)) (lstrip_head (rev s))). reflexivity.
Qed.

(** [s.strip().strip() == s.strip()] *)
Lemma strip_idempotent (s : text) : Py.strip (Py.strip s) = Py.strip s.
Proof.
  unfold Py.strip.
  rewrite (lstrip_fixed (Py.rstrip (Py.lstrip s)) (rstrip_head _ (lstrip_head s))).
  apply rstrip_idempotent.
Qed.

Lemma to_upper_space (c : ascii) : Py.is_space (Py.to_upper c) = Py.is_space c.
Proof. destruct c as [[] [] [] [] [] [] [] []]; reflexivity. Qed.

Lemma lstrip_upper (s : text) : Py.lstrip (Py.upper s) = Py.upper (Py.lstrip s).
Proof.
  unfold Py.upper. induction s as [|c s IH]; cbn; [reflexivity|].
  rewrite to_upper_space. destruct (Py.is_space c); [exact IH | reflexivity].
Qed.

(** [s.upper().strip() == s.strip().upper()] *)
Lemma strip_upper (s : text) : Py.strip (Py.upper s) = Py.upper (Py.strip s).
Proof.
  unfold Py.strip, Py.rstrip. rewrite lstrip_upper.
  unfold Py.upper at 1. rewrite <- map_rev.
  change (map Py.to_upper (rev (Py.lstrip s))) with (Py.upper (rev (Py.lstrip s))).
  rewrite lstrip_upper. unfold Py.upper. rewrite map_rev. reflexivity.
Qed.

(** ** The layers and carriers the walker makes *)

Section WalkerInvariant.
Variable float_repr : Q -> text.
Variable load_workbook : list Byte.byte -> result ExcelParser.workbook.

Lemma info_none : info_primary_at_zero None.
Proof. intros i H. discriminate H. Qed.

Lemma info_excess (limit attachment : Q) (raw : text) :
  info_primary_at_zero (Some (LayerInfo limit attachment false raw)).
Proof. intros i H Hp. injection H as <-. discriminate Hp. Qed.

Lemma info_at_zero (limit : Q) (primary : bool) (raw : text) :
  info_primary_at_zero (Some (LayerInfo limit 0 primary raw)).
Proof. intros i H Hp. injection H as <-. reflexivity. Qed.

Lemma extract_layer_primary_at_zero (arg : pyval) :
  post (ExcelParser.extract_layer_from_text arg) info_primary_at_zero.
Proof.
  unfold ExcelParser.extract_layer_from_text. cbv zeta.
  repeat post_step;
    first [apply info_none | apply info_excess | apply info_at_zero].
Qed.

Lemma scan_cells_primary_at_zero (row_values cells : list pyval) (i : nat) :
  post (ExcelParser.scan_cells row_values i cells)
       (fun r => info_primary_at_zero (snd r)).
Proof.
  revert i. induction cells as [|cell rest IH]; intros i; cbn [ExcelParser.scan_cells].
  - apply post_ret. apply info_none.
  - destruct cell as [|s| | |]; try apply IH.
    destruct s as [|c s]; [apply IH|]. cbv zeta.
    destruct (existsb _ _); [apply IH|].
    eapply post_bind; [apply extract_layer_primary_at_zero|].
    cbn beta. intros layer_info Hinfo.
    destruct layer_info as [info|].
    { apply post_then; intros _. apply post_ret. exact Hinfo. }
    eapply (post_bind _ _ info_primary_at_zero).
    { destruct (ExcelParser.searches _ _ _);
        [apply extract_layer_primary_at_zero | apply post_ret; apply info_none]. }
    intros retried Hretried. destruct retried as [info|].
    { apply post_then; intros _. apply post_ret. exact Hretried. }
    destruct (find _ _) as [[source pattern]|]; [|apply IH].
    apply post_then; intros _. apply post_then; intros found.
    destruct found; apply post_ret; [apply info_at_zero | apply info_none].
Qed.

Lemma is_layer_header_row_primary_at_zero (row_values : list pyval) :
  post (ExcelParser.is_layer_header_row row_values)
       (fun r => info_primary_at_zero (snd r)).
Proof.
  unfold ExcelParser.is_layer_header_row.
  destruct (negb (any row_values)); [apply post_ret; apply info_none|].
  apply post_then; intros _. apply scan_cells_primary_at_zero.
Qed.

Lemma share_not_negative (line_amount layer_limit : Q) :
  (0 <= (if Num.ltb 0 layer_limit && Num.ltb 0 line_amount
         then Num.div line_amount layer_limit else 0))%Q.
Proof.
  destruct (Num.ltb 0 layer_limit && Num.ltb 0 line_amount) eqn:E; [|apply Qle_refl].
  apply andb_true_iff in E. destruct E as [Hl Ha].
  apply ltb_lt in Hl. apply ltb_lt in Ha.
  unfold Num.div. rewrite Qred_correct. unfold Qdiv.
  apply Qmult_le_0_compat; [apply Qlt_le_weak; exact Ha|].
  apply Qlt_le_weak. apply Qinv_lt_0_compat. exact Hl.
Qed.

Lemma walker_ok_same_layers (st st' : ExcelParser.walker) :
  ExcelParser.current_layer st' = ExcelParser.current_layer st ->
  ExcelParser.all_layers st' = ExcelParser.all_layers st ->
  walker_ok st -> walker_ok st'.
Proof. intros Hc Hl [H1 H2]. split; [rewrite Hc; exact H1 | rewrite Hl; exact H2]. Qed.

Lemma extract_carrier_ok (st : ExcelParser.walker) (row_list : list pyval) :
  walker_ok st ->
  post (ExcelParser.extract_carrier float_repr st row_list) walker_ok.
Proof.
  intros Hst. unfold ExcelParser.extract_carrier.
  destruct (ExcelParser.current_layer st) as [cur|] eqn:Hcur; [|apply post_ret; exact Hst].
  destruct (ExcelParser.cm_carrier _) as [carrier_idx|]; [|apply post_ret; exact Hst].
  cbv zeta. apply post_then; intros _.
  destruct (nth_error row_list carrier_idx) as [cell|]; [|apply post_ret; exact Hst].
  destruct (truthy cell); [|apply post_ret; exact Hst].
  set (name := Py.strip (ExcelParser.py_str float_repr cell)).
  assert (Hname : Py.strip name = name) by apply strip_idempotent.
  rewrite strip_upper, Hname.
  destruct (_ || _) eqn:E1; [apply post_then; intros _; apply post_ret; exact Hst|].
  destruct (length name <? 3) eqn:E2; [apply post_then; intros _; apply post_ret; exact Hst|].
  destruct (Re.match_ false ExcelParser.numeric_name_pattern name) eqn:E3;
    [apply post_then; intros _; apply post_ret; exact Hst|].
  apply post_then; intros line_amount.
  apply post_then; intros premium0.
  apply post_then; intros premium.
  apply post_then; intros carrier_fee.
  apply post_then; intros surplus_fee.
  apply post_then; intros _.
  destruct (_ && _); [|apply post_ret; exact Hst].
  apply post_then; intros _. apply post_ret.
  destruct Hst as [Hc Hl]. split; [|exact Hl].
  cbn [ExcelParser.current_layer]. intros cur' Hcur'. injection Hcur' as <-.
  destruct (Hc cur Hcur) as [Hp Hcs].
  split; [exact Hp|].
  unfold ExcelParser.add_carrier. cbn [carriers].
  apply Forall_app. split; [exact Hcs|]. constructor; [|constructor].
  apply orb_false_iff in E1. destruct E1 as [_ Hskip].
  apply Nat.ltb_ge in E2.
  unfold walker_carrier. cbn [carrier_name share policy_number has_multiple_rbes rbes].
  repeat split; try assumption. apply share_not_negative.
Qed.

Lemma flushed_ok (st : ExcelParser.walker) :
  walker_ok st -> Forall walker_layer (flushed st).
Proof.
  intros [Hc Hl]. unfold flushed.
  destruct (ExcelParser.current_layer st) as [cur|]; [|exact Hl].
  destruct (carriers cur); [exact Hl|].
  apply Forall_app. split; [exact Hl|]. constructor; [apply Hc; reflexivity | constructor].
Qed.

Lemma opened_ok (info : option layer_info) (cur : layer) :
  info_primary_at_zero info -> opened info = Some cur -> walker_layer cur.
Proof.
  intros Hinfo. destruct info as [i|]; cbn [opened]; [|discriminate].
  intros H. injection H as <-. split; [|constructor].
  intros Hp. exact (Hinfo i eq_refl Hp).
Qed.

Lemma process_row_ok (st : ExcelParser.walker) (row_idx : nat) (row : list pyval) :
  walker_ok st ->
  post (ExcelParser.process_row float_repr st row_idx row) walker_ok.
Proof.
  intros Hst. unfold ExcelParser.process_row.
  destruct (negb (any row)); [apply post_ret; exact Hst|].
  apply post_then; intros _.
  destruct (ExcelParser.is_skip_row float_repr row).
  { apply post_then; intros _. apply post_ret. exact Hst. }
  apply post_then; intros total. destruct total.
  { apply post_then; intros _. apply post_ret. exact Hst. }
  eapply post_bind; [apply is_layer_header_row_primary_at_zero|].
  cbn beta. intros header Hheader.
  apply (post_bind _ _ walker_ok).
  { destruct (fst header); [|apply post_ret; exact Hst].
    intros d st1 E. rewrite value_on_layer_header in E. injection E as <-.
    split; [|apply flushed_ok; exact Hst].
    cbn [ExcelParser.current_layer]. intros cur. apply opened_ok. exact Hheader. }
  intros st1 Hst1. apply post_then; intros columns. destruct columns.
  - apply post_then; intros cm. apply post_then; intros _. apply post_ret.
    exact (walker_ok_same_layers st1 _ eq_refl eq_refl Hst1).
  - apply extract_carrier_ok. exact Hst1.
Qed.

Lemma process_rows_ok (rows : list (list pyval)) (st : ExcelParser.walker) (row_idx : nat) :
  walker_ok st ->
  post (ExcelParser.process_rows float_repr st row_idx rows) walker_ok.
Proof.
  revert st row_idx. induction rows as [|row rest IH]; intros st row_idx Hst;
    cbn [ExcelParser.process_rows].
  - apply post_ret. exact Hst.
  - eapply post_bind; [apply process_row_ok; exact Hst|].
    cbn beta. intros st' Hst'. apply IH. exact Hst'.
Qed.

Lemma process_sheets_ok (sheets : ExcelParser.workbook) (layers : list layer)
      (last : option (option layer)) :
  Forall walker_layer layers ->
  (forall cur, last = Some (Some cur) -> walker_layer cur) ->
  post (ExcelParser.process_sheets float_repr layers last sheets)
       (fun r => Forall walker_layer (fst r)
                 /\ forall cur, snd r = Some (Some cur) -> walker_layer cur).
Proof.
  revert layers last. induction sheets as [|[name rows] rest IH]; intros layers last Hl Hc;
    cbn [ExcelParser.process_sheets].
  - apply post_ret. split; assumption.
  - do 3 (apply post_then; intros _).
    eapply post_bind.
    + apply process_rows_ok. split; [intros cur H; discriminate H | exact Hl].
    + cbn beta. intros st [Hcur Hall]. apply IH; [exact Hall|].
      intros cur H. injection H as H. apply Hcur. exact H.
Qed.

(** **** The closing merge *)

Lemma dedup_carrier_from (P : carrier -> Prop) (cs : list carrier) (c : carrier) :
  P c -> Forall P cs -> Forall P (ExcelParser.dedup_carrier cs c).
Proof.
  intros Hc Hcs. unfold ExcelParser.dedup_carrier.
  destruct (existsb _ cs); [exact Hcs|].
  apply Forall_app. split; [exact Hcs | constructor; [exact Hc | constructor]].
Qed.

Lemma merged_layers_ok (layers : list layer) :
  Forall walker_layer layers ->
  every_bucket walker_layer (ExcelParser.merged_layers layers).
Proof.
  intros Hl. unfold ExcelParser.merged_layers.
  apply fold_left_invariant; [|constructor].
  intros d l Hin Hd. unfold ExcelParser.dedup_layer.
  rewrite Forall_forall in Hl. destruct (Hl l Hin) as [Hp Hcs].
  apply (carriers_loop_every walker_layer); [split; [exact Hp | constructor]| |exact Hd].
  intros b c Hc [Hbp Hbc]. split; [exact Hbp|].
  cbn [carriers LayerDict.with_carriers]. apply dedup_carrier_from; [|exact Hbc].
  rewrite Forall_forall in Hcs. apply Hcs. exact Hc.
Qed.

Lemma parse_body_ok (excel_bytes : list Byte.byte) (filename : text) :
  post (ExcelParser.parse_body float_repr load_workbook excel_bytes filename)
       (fun r => Forall walker_layer (ExcelParser.pr_layers r)).
Proof.
  unfold ExcelParser.parse_body.
  apply post_then; intros wb.
  eapply post_bind.
  { apply process_sheets_ok; [constructor | intros cur H; discriminate H]. }
  cbn beta. intros walked [Hall Hcur].
  destruct (snd walked) as [cur|]; [|apply post_raise].
  apply (post_bind _ _ (Forall walker_layer)).
  { unfold ExcelParser.has_carriers. destruct cur as [l|]; [|apply post_ret; exact Hall].
    destruct (carriers l); [apply post_ret; exact Hall|].
    apply post_then; intros _. apply post_ret.
    apply Forall_app. split; [exact Hall|].
    constructor; [apply Hcur; reflexivity | constructor]. }
  intros layers Hl. cbv zeta. do 3 (apply post_then; intros _).
  apply post_ret. cbn [ExcelParser.pr_layers].
  apply every_bucket_sorted. apply merged_layers_ok. exact Hl.
Qed.

Lemma parse_result_ok (excel_bytes : list Byte.byte) (filename : text)
      (debug original_debug : bool) :
  exists r,
    value (ExcelParser.parse_excel_program float_repr load_workbook excel_bytes filename debug)
          original_debug = Ret r
    /\ Forall walker_layer (ExcelParser.pr_layers r).
Proof.
  rewrite value_parse_excel_program. eexists. split; [reflexivity|].
  destruct (value _ (original_debug || debug)) as [r|e] eqn:E.
  - exact (parse_body_ok excel_bytes filename _ r E).
  - constructor.
Qed.

(** X10: Every layer [parse_excel_program] returns that is marked primary has
    attachment 0. *)
Theorem parsed_primary_layers_attach_at_zero
        (excel_bytes : list Byte.byte) (filename : text) (debug original_debug : bool) :
  exists r,
    value (ExcelParser.parse_excel_program float_repr load_workbook excel_bytes filename debug)
          original_debug = Ret r
    /\ Forall primary_at_zero (ExcelParser.pr_layers r).
Proof.
  destruct (parse_result_ok excel_bytes filename debug original_debug) as [r [Hr Hl]].
  exists r. split; [exact Hr|].
  eapply Forall_impl; [|exact Hl]. intros l [Hp _]. exact Hp.
Qed.

(** X11: Every carrier of every layer [parse_excel_program] returns has a
    stripped name of three characters or more that is none of the
    boilerplate words and does not look like a number, a share that is not
    negative, an empty policy number and no risk bearing entities. *)
Theorem parsed_carriers_are_well_formed
        (excel_bytes : list Byte.byte) (filename : text) (debug original_debug : bool) :
  exists r,
    value (ExcelParser.parse_excel_program float_repr load_workbook excel_bytes filename debug)
          original_debug = Ret r
    /\ Forall (fun l => Forall walker_carrier (carriers l)) (ExcelParser.pr_layers r).
Proof.
  destruct (parse_result_ok excel_bytes filename debug original_debug) as [r [Hr Hl]].
  exists r. split; [exact Hr|].
  eapply Forall_impl; [|exact Hl]. intros l [_ Hc]. exact Hc.
Qed.

End WalkerInvariant.

(** ** What the patterns match *)

Lemma lit_match_sound (ci : bool) (p s s' : text) :
  Re.lit_match ci p s = Some s' ->
  exists w, s = w ++ s' /\ length w = length p /\ Re.lit_match ci p w = Some [].
Proof.
  revert s. induction p as [|x p IH]; intros s H; cbn [Re.lit_match] in H.
  - exists []. injection H as <-. repeat split.
  - destruct s as [|y s]; [discriminate|].
    destruct (Re.chr_eq ci x y) eqn:E; [|discriminate].
    destruct (IH s H) as [w [-> [Hl Hw]]].
    exists (y :: w). cbn [Re.lit_match length app]. rewrite E, Hl. repeat split. exact Hw.
Qed.

Section MatcherSound.
Variable A : Type.
Variable ci : bool.

Lemma run_sound (r : Re.re) :
  forall (pos : nat) (s : text) (g : Re.caps) (k : nat -> text -> Re.caps -> option A) (x : A),
    Re.run ci r pos s g k = Some x ->
    exists w s' g', s = w ++ s' /\ lang ci r w /\ k (pos + length w) s' g' = Some x.
Proof.
  induction r as [|p|neg items| |r1 IH1 r2 IH2|r1 IH1 r2 IH2|greedy r1 IH1|n r1 IH1| |];
    intros pos s g k x H; cbn [Re.run] in H; cbn [lang].
  - exists [], s, g. cbn [length app]. rewrite Nat.add_0_r. repeat split. exact H.
  - destruct (Re.lit_match ci p s) as [s'|] eqn:E; [|discriminate].
    destruct (lit_match_sound _ _ _ _ E) as [w [-> [Hl Hw]]].
    exists w, s', g. rewrite Hl. repeat split; assumption.
  - destruct s as [|c s']; [discriminate|].
    destruct (xorb neg (Re.set_has ci items c)) eqn:E; [|discriminate].
    exists [c], s', g. cbn [length app]. rewrite Nat.add_1_r. repeat split; [|exact H].
    exists c. split; [reflexivity | exact E].
  - destruct s as [|c s']; [discriminate|].
    destruct (Py.ascii_eqb c Re.newline) eqn:E; [discriminate|].
    exists [c], s', g. cbn [length app]. rewrite Nat.add_1_r. repeat split; [|exact H].
    exists c. split; [reflexivity | exact E].
  - destruct (IH1 _ _ _ _ _ H) as [w1 [s1 [g1 [-> [H1 K1]]]]].
    destruct (IH2 _ _ _ _ _ K1) as [w2 [s2 [g2 [-> [H2 K2]]]]].
    exists (w1 ++ w2), s2, g2. rewrite length_app, Nat.add_assoc, <- app_assoc.
    repeat split; [|exact K2]. exists w1, w2. repeat split; assumption.
  - destruct (Re.run ci r1 pos s g k) as [y|] eqn:E.
    + injection H as <-. destruct (IH1 _ _ _ _ _ E) as [w [s' [g' [-> [H1 K1]]]]].
      exists w, s', g'. repeat split; [left; exact H1 | exact K1].
    + destruct (IH2 _ _ _ _ _ H) as [w [s' [g' [-> [H2 K2]]]]].
      exists w, s', g'. repeat split; [right; exact H2 | exact K2].
  - assert (Hstop : forall pos s g, k pos s g = Some x ->
                    exists w s' g', s = w ++ s'
                      /\ (exists ws, w = concat ws /\ Forall (lang ci r1) ws)
                      /\ k (pos + length w) s' g' = Some x).
    { intros pos0 s0 g0 Hk. exists [], s0, g0. cbn [length app]. rewrite Nat.add_0_r.
      repeat split; [|exact Hk]. exists []. split; [reflexivity | constructor]. }
    destruct greedy.
    + revert H. generalize (length s) at 1. intros fuel. revert pos s g.
      induction fuel as [|fuel IHf]; intros pos s g H; [exact (Hstop _ _ _ H)|].
      cbv beta iota fix zeta in H.
      match type of H with
      | match ?a with _ => _ end = _ => destruct a as [y|] eqn:E
      end; [|exact (Hstop _ _ _ H)].
      injection H as <-.
      destruct (IH1 _ _ _ _ _ E) as [w1 [s1 [g1 [-> [H1 K1]]]]].
      destruct (length s1 <? length (w1 ++ s1)); [|discriminate].
      destruct (IHf _ _ _ K1) as [w2 [s2 [g2 [-> [[ws [-> Hws]] K2]]]]].
      exists (w1 ++ concat ws), s2, g2.
      rewrite length_app, Nat.add_assoc, <- app_assoc.
      repeat split; [|exact K2].
      exists (w1 :: ws). split; [reflexivity | constructor; assumption].
    + revert H. generalize (length s) at 1. intros fuel. revert pos s g.
      induction fuel as [|fuel IHf]; intros pos s g H; [exact (Hstop _ _ _ H)|].
      cbv beta iota fix zeta in H.
      destruct (k pos s g) as [y|] eqn:E; [injection H as <-; exact (Hstop _ _ _ E)|].
      destruct (IH1 _ _ _ _ _ H) as [w1 [s1 [g1 [-> [H1 K1]]]]].
      destruct (length s1 <? length (w1 ++ s1)); [|discriminate].
      destruct (IHf _ _ _ K1) as [w2 [s2 [g2 [-> [[ws [-> Hws]] K2]]]]].
      exists (w1 ++ concat ws), s2, g2.
      rewrite length_app, Nat.add_assoc, <- app_assoc.
      repeat split; [|exact K2].
      exists (w1 :: ws). split; [reflexivity | constructor; assumption].
  - destruct (IH1 _ _ _ _ _ H) as [w [s' [g' [-> [H1 K1]]]]].
    exists w, s', ((n, (pos, pos + length w)) :: g'). repeat split; assumption.
  - destruct (pos =? 0); [|discriminate].
    exists [], s, g. cbn [length app]. rewrite Nat.add_0_r. repeat split. exact H.
  - assert (Hk : k pos s g = Some x).
    { destruct s as [|c [|c' s']]; [exact H | | discriminate].
      destruct (Py.ascii_eqb c Re.newline); [exact H | discriminate]. }
    exists [], s, g. cbn [length app]. rewrite Nat.add_0_r. repeat split. exact Hk.
Qed.

End MatcherSound.

(** *** What [search] and [finditer] return *)

Lemma skipn_tail {X} (pos : nat) (l : list X) (c : X) (s' : list X) :
  skipn pos l = c :: s' -> skipn (S pos) l = s'.
Proof.
  revert l. induction pos as [|pos IH]; intros l H.
  - cbn in H. subst l. reflexivity.
  - destruct l as [|x l]; [discriminate|]. cbn [skipn] in H. exact (IH l H).
Qed.

Lemma firstn_exact {X} (w s' : list X) : firstn (length w) (w ++ s') = w.
Proof. induction w as [|x w IH]; cbn; [reflexivity | rewrite IH; reflexivity]. Qed.

Section SearchSound.
Variable ci : bool.
Variable r : Re.re.
Variable subject : text.

Lemma match_at_sound (pos : nat) (m : Re.mobj) :
  Re.match_at ci r subject pos (skipn pos subject) = Some m ->
  lang ci r (Re.group0 m).
Proof.
  unfold Re.match_at. intros H.
  destruct (run_sound _ _ _ _ _ _ _ _ H) as [w [s' [g' [Hs [Hw Hm]]]]].
  injection Hm as <-. unfold Re.group0, Py.slice. cbn [Re.m_start Re.m_end Re.m_subject].
  rewrite Hs. replace (pos + length w - pos) with (length w) by lia.
  rewrite firstn_exact. exact Hw.
Qed.

Lemma search_from_sound (s : text) :
  forall (pos : nat) (m : Re.mobj),
    s = skipn pos subject ->
    Re.search_from ci r subject pos s = Some m ->
    lang ci r (Re.group0 m).
Proof.
  induction s as [|c s' IH]; intros pos m Hs H; cbn [Re.search_from] in H.
  - destruct (Re.match_at ci r subject pos []) as [m'|] eqn:E; [|discriminate].
    injection H as <-. rewrite Hs in E. exact (match_at_sound _ _ E).
  - destruct (Re.match_at ci r subject pos (c :: s')) as [m'|] eqn:E.
    + injection H as <-. rewrite Hs in E. exact (match_at_sound _ _ E).
    + apply (IH (S pos)); [|exact H]. symmetry. apply (skipn_tail _ _ c). symmetry. exact Hs.
Qed.

Lemma finditer_from_sound (fuel : nat) :
  forall (pos : nat) (m : Re.mobj),
    In m (Re.finditer_from fuel ci r subject pos (skipn pos subject)) ->
    lang ci r (Re.group0 m).
Proof.
  induction fuel as [|fuel IH]; intros pos m H; cbn [Re.finditer_from] in H; [destruct H|].
  destruct (Re.search_from ci r subject pos (skipn pos subject)) as [m'|] eqn:E;
    [|destruct H].
  destruct H as [<-|H].
  - exact (search_from_sound _ _ _ eq_refl E).
  - exact (IH _ _ H).
Qed.

End SearchSound.

(** [re.search]: the text of the match is a word of the pattern. *)
Lemma search_sound (ci : bool) (r : Re.re) (s : text) (m : Re.mobj) :
  Re.search ci r s = Some m -> lang ci r (Re.group0 m).
Proof. unfold Re.search. apply (search_from_sound ci r s s 0). reflexivity. Qed.

(** [re.finditer]: the same for each match. *)
Lemma finditer_sound (ci : bool) (r : Re.re) (s : text) (m : Re.mobj) :
  In m (Re.finditer ci r s) -> lang ci r (Re.group0 m).
Proof. unfold Re.finditer. apply (finditer_from_sound ci r s (S (length s)) 0). Qed.

(** The text of a match is a piece of the subject. *)
Lemma search_from_piece (ci : bool) (r : Re.re) (subject : text) (s : text) :
  forall (pos : nat) (m : Re.mobj),
    Re.search_from ci r subject pos s = Some m ->
    exists w before after, s = before ++ w ++ after /\ lang ci r w.
Proof.
  induction s as [|c s' IH]; intros pos m H; cbn [Re.search_from] in H.
  - destruct (Re.match_at ci r subject pos []) as [m'|] eqn:E; [|discriminate].
    destruct (run_sound _ _ _ _ _ _ _ _ E) as [w [s1 [g' [Hs [Hw _]]]]].
    exists w, [], s1. split; [exact Hs | exact Hw].
  - destruct (Re.match_at ci r subject pos (c :: s')) as [m'|] eqn:E.
    + destruct (run_sound _ _ _ _ _ _ _ _ E) as [w [s1 [g' [Hs [Hw _]]]]].
      exists w, [], s1. split; [exact Hs | exact Hw].
    + destruct (IH _ _ H) as [w [before [after [-> Hw]]]].
      exists w, (c :: before), after. split; [reflexivity | exact Hw].
Qed.

(** A pattern that needs a character the text does not have is not found. *)
Lemma search_needs (ci : bool) (r : Re.re) (P : ascii -> bool) (s : text) :
  needs ci r P -> existsb P s = false -> Re.search ci r s = None.
Proof.
  intros Hneeds Hs. destruct (Re.search ci r s) as [m|] eqn:E; [|reflexivity].
  destruct (search_from_piece _ _ _ _ _ _ E) as [w [before [after [Heq Hw]]]].
  rewrite Heq, !existsb_app, (Hneeds w Hw), orb_true_r in Hs. discriminate Hs.
Qed.

(** *** Characters a pattern needs *)

Lemma needs_cat_l (ci : bool) (r1 r2 : Re.re) (P : ascii -> bool) :
  needs ci r1 P -> needs ci (Re.Cat r1 r2) P.
Proof.
  intros H w [w1 [w2 [-> [H1 _]]]]. rewrite existsb_app, (H w1 H1). reflexivity.
Qed.

Lemma needs_cat_r (ci : bool) (r1 r2 : Re.re) (P : ascii -> bool) :
  needs ci r2 P -> needs ci (Re.Cat r1 r2) P.
Proof.
  intros H w [w1 [w2 [-> [_ H2]]]]. rewrite existsb_app, (H w2 H2). apply orb_true_r.
Qed.

Lemma needs_alt (ci : bool) (r1 r2 : Re.re) (P : ascii -> bool) :
  needs ci r1 P -> needs ci r2 P -> needs ci (Re.Alt r1 r2) P.
Proof. intros H1 H2 w [H|H]; [exact (H1 w H) | exact (H2 w H)]. Qed.

Lemma needs_grp (ci : bool) (n : nat) (r : Re.re) (P : ascii -> bool) :
  needs ci r P -> needs ci (Re.Grp n r) P.
Proof. intros H w Hw. exact (H w Hw). Qed.

Lemma needs_set (ci : bool) (items : list Re.item) (P : ascii -> bool) :
  (forall c, Re.set_has ci items c = true -> P c = true) ->
  needs ci (Re.Set_ false items) P.
Proof.
  intros H w [c [-> Hc]]. cbn [xorb] in Hc. cbn [existsb]. rewrite (H c Hc). reflexivity.
Qed.

Lemma needs_lit (ci : bool) (x : ascii) (p : text) (P : ascii -> bool) :
  (forall c, Re.chr_eq ci x c = true -> P c = true) ->
  needs ci (Re.Lit (x :: p)) P.
Proof.
  intros H w Hw. cbn [lang Re.lit_match] in Hw.
  destruct w as [|c w]; [discriminate|].
  destruct (Re.chr_eq ci x c) eqn:E; [|discriminate].
  cbn [existsb]. rewrite (H c E). reflexivity.
Qed.

Lemma digits_and_commas (ci : bool) (c : ascii) :
  Re.set_has ci [Re.IDigit; Re.IChar ","] c = true -> digit_or_comma c = true.
Proof.
  destruct ci, c as [[] [] [] [] [] [] [] []]; vm_compute; intros H; first [exact H | reflexivity].
Qed.

Lemma letter_p_is_foreign (ci : bool) (c : ascii) :
  Re.chr_eq ci "p" c = true -> foreign_letter c = true.
Proof.
  destruct ci, c as [[] [] [] [] [] [] [] []]; vm_compute; intros H; first [exact H | reflexivity].
Qed.

(** ** Texts without an amount *)

Lemma existsb_lstrip (P : ascii -> bool) (s : text) :
  existsb P s = false -> existsb P (Py.lstrip s) = false.
Proof.
  induction s as [|c s IH]; cbn [Py.lstrip existsb]; [reflexivity|].
  intros H. destruct (Py.is_space c); [|exact H].
  apply orb_false_iff in H. apply IH. apply H.
Qed.

Lemma existsb_reversed (P : ascii -> bool) (s : text) :
  existsb P (rev s) = existsb P s.
Proof.
  induction s as [|c s IH]; [reflexivity|].
  cbn [rev existsb]. rewrite existsb_app, IH. cbn [existsb].
  rewrite orb_false_r. apply orb_comm.
Qed.

Lemma existsb_strip (P : ascii -> bool) (s : text) :
  existsb P s = false -> existsb P (Py.strip s) = false.
Proof.
  intros H. unfold Py.strip, Py.rstrip. rewrite existsb_reversed.
  apply existsb_lstrip. rewrite existsb_reversed. apply existsb_lstrip. exact H.
Qed.

Lemma amount_needs_digit (ci : bool) (n : nat) :
  needs ci (ExcelParser.amount n) digit_or_comma.
Proof.
  unfold ExcelParser.amount, Re.Plus.
  apply needs_grp, needs_cat_l, needs_cat_l, needs_set, digits_and_commas.
Qed.

Lemma excess_pattern_needs_digit :
  needs true ExcelParser.excess_pattern digit_or_comma.
Proof.
  unfold ExcelParser.excess_pattern, Re.seq. cbn [fold_right].
  apply needs_cat_r, needs_cat_l, amount_needs_digit.
Qed.

Lemma primary_pattern_needs_digit :
  needs true ExcelParser.primary_pattern digit_or_comma.
Proof.
  unfold ExcelParser.primary_pattern, Re.seq. cbn [fold_right].
  apply needs_cat_r, needs_cat_l, amount_needs_digit.
Qed.

Lemma standalone_pattern_needs_digit :
  needs true ExcelParser.standalone_pattern digit_or_comma.
Proof.
  unfold ExcelParser.standalone_pattern, Re.seq. cbn [fold_right].
  apply needs_cat_r, needs_cat_r, needs_cat_l, amount_needs_digit.
Qed.

(** X12: [extract_layer_from_text] returns [None] for every text that has no
    digit and no comma, whatever words it has: "Primary Layer" alone is no
    layer description. *)
Theorem text_without_amount_is_no_layer (s : text) (debug_parsing : bool) :
  existsb digit_or_comma s = false ->
  value (ExcelParser.extract_layer_from_text (VStr s)) debug_parsing = Ret None.
Proof.
  intros Hs. destruct s as [|c s]; [reflexivity|].
  unfold ExcelParser.extract_layer_from_text. cbv zeta.
  pose proof (existsb_strip _ _ Hs) as Ht.
  rewrite value_bind, value_debug_log.
  rewrite (search_needs _ _ _ _ excess_pattern_needs_digit Ht).
  rewrite (search_needs _ _ _ _ primary_pattern_needs_digit Ht).
  rewrite (search_needs _ _ _ _ standalone_pattern_needs_digit Ht).
  destruct (Re.search true ExcelParser.all_risks_pattern _);
    rewrite value_bind, value_debug_log; reflexivity.
Qed.

Lemma text_without_amount_is_no_layer_witness :
  existsb digit_or_comma (text_of_string "Primary Layer") = false
  /\ value (ExcelParser.extract_layer_from_text (VStr (text_of_string "Primary Layer"))) true
     = Ret None.
Proof.
  split; [reflexivity|].
  apply (text_without_amount_is_no_layer (text_of_string "Primary Layer") true).
  reflexivity.
Defined.

(** ** Removing characters *)

Section RemoveSet.
Variable neg : bool.
Variable items : list Re.item.

Lemma search_set_step (subject : text) (pos : nat) (c : ascii) (s' : text) :
  Re.search_from false (Re.Set_ neg items) subject pos (c :: s')
  = if outside_set neg items c then Re.search_from false (Re.Set_ neg items) subject (S pos) s'
    else Some (Re.MObj subject pos (S pos) []).
Proof.
  unfold outside_set. cbn [Re.search_from Re.match_at Re.run].
  destruct (xorb neg (Re.set_has false items c)); reflexivity.
Qed.

Lemma skipn_exact {X} (a b : list X) : skipn (length a) (a ++ b) = b.
Proof. induction a as [|x a IH]; [reflexivity | exact IH]. Qed.

Lemma sub_set_from (repl : Re.mobj -> text) (rest : text) :
  (forall m, repl m = []) ->
  forall (fuel : nat) (subject done mid : text),
    subject = done ++ mid ++ rest ->
    length rest < fuel ->
    Re.sub_pieces repl subject (length done)
                  (Re.finditer_from fuel false (Re.Set_ neg items) subject
                                    (length done + length mid) rest)
    = mid ++ filter (outside_set neg items) rest.
Proof.
  intros Hrepl. induction rest as [|c rest IH]; intros fuel subject done mid Hsub Hfuel;
    (destruct fuel as [|fuel]; [inversion Hfuel|]).
  - cbn [Re.finditer_from Re.search_from Re.match_at Re.run Re.sub_pieces filter].
    rewrite Hsub. apply skipn_exact.
  - cbn [Re.finditer_from]. rewrite search_set_step. cbn [filter].
    destruct (outside_set neg items c) eqn:Hc.
    + assert (Hsub' : subject = done ++ (mid ++ [c]) ++ rest).
      { rewrite Hsub, <- app_assoc. reflexivity. }
      assert (Hfuel' : length rest < S fuel) by (cbn [length] in Hfuel; lia).
      pose proof (IH (S fuel) subject done (mid ++ [c]) Hsub' Hfuel') as Hrest.
      rewrite length_app in Hrest. cbn [length] in Hrest.
      replace (length done + (length mid + 1)) with (S (length done + length mid)) in Hrest
        by lia.
      cbn [Re.finditer_from] in Hrest. rewrite Hrest, <- app_assoc. reflexivity.
    + cbn [Re.m_end Re.m_start]. rewrite (proj2 (Nat.eqb_neq (S (length done + length mid)) (length done + length mid)))
        by lia.
      cbn [Re.sub_pieces Re.m_start Re.m_end]. rewrite Hrepl. cbn [app].
      assert (Hsub' : subject = (done ++ mid ++ [c]) ++ [] ++ rest).
      { rewrite Hsub, <- !app_assoc. reflexivity. }
      assert (Hlen : S (length done + length mid) = length (done ++ mid ++ [c])).
      { rewrite !length_app. cbn [length]. lia. }
      assert (Hskip : skipn (S (length done + length mid)) subject = rest).
      { rewrite Hlen. rewrite Hsub' at 1. cbn [app]. apply skipn_exact. }
      rewrite Hskip.
      assert (Hfuel' : length rest < fuel) by (cbn [length] in Hfuel; lia).
      pose proof (IH fuel subject (done ++ mid ++ [c]) [] Hsub' Hfuel') as Hrest.
      cbn [length app] in Hrest. rewrite Nat.add_0_r, <- Hlen in Hrest.
      rewrite Hrest. unfold Py.slice.
      replace (length done + length mid - length done) with (length mid) by lia.
      rewrite Hsub, skipn_exact, firstn_exact. reflexivity.
Qed.

(** [re.sub(r"[...]", "", s)] keeps the characters outside the set, in
    their order. *)
Lemma sub_set_filter (s : text) :
  Re.sub false (Re.Set_ neg items) (fun _ => []) s = filter (outside_set neg items) s.
Proof.
  unfold Re.sub, Re.finditer.
  exact (sub_set_from (fun _ => []) s (fun _ => eq_refl) (S (length s)) s [] [] eq_refl
                      (Nat.lt_succ_diag_r _)).
Qed.

End RemoveSet.

(** [s.replace(x, "")] for one character [x]. *)
Lemma replace_char_filter (x : ascii) (s : text) :
  Py.replace [x] [] s = filter (fun c => negb (Py.ascii_eqb x c)) s.
Proof.
  unfold Py.replace. induction s as [|c s IH]; [reflexivity|].
  cbn [Py.replace_from Py.startswith filter length Nat.sub app].
  rewrite andb_true_r. destruct (Py.ascii_eqb x c); cbn [negb]; rewrite IH; reflexivity.
Qed.

(** ** What [float] reads *)

Lemma Forall_lstrip (P : ascii -> Prop) (s : text) :
  (forall c, Py.is_space c = true -> P c) ->
  Forall P (Py.lstrip s) -> Forall P s.
Proof.
  intros Hsp. induction s as [|c s IH]; cbn [Py.lstrip]; [intros H; exact H|].
  destruct (Py.is_space c) eqn:E; [|intros H; exact H].
  intros H. constructor; [apply Hsp; exact E | apply IH; exact H].
Qed.

Lemma Forall_strip (P : ascii -> Prop) (s : text) :
  (forall c, Py.is_space c = true -> P c) ->
  Forall P (Py.strip s) -> Forall P s.
Proof.
  intros Hsp H. unfold Py.strip, Py.rstrip in H.
  apply (Forall_lstrip P s Hsp).
  rewrite <- (rev_involutive (Py.lstrip s)). apply Forall_rev.
  apply (Forall_lstrip P _ Hsp). rewrite <- (rev_involutive (Py.lstrip _)).
  apply Forall_rev. exact H.
Qed.

Lemma numeric_space (c : ascii) : Py.is_space c = true -> numeric c.
Proof. unfold numeric, numeric_char. intros ->. rewrite orb_true_r. reflexivity. Qed.

Lemma numeric_digit (c : ascii) : Py.is_digit c = true -> numeric c.
Proof. unfold numeric, numeric_char. intros ->. reflexivity. Qed.

Lemma numeric_listed (c x : ascii) :
  Py.ascii_eqb c x = true -> In x (text_of_string "_+-.eE") -> numeric c.
Proof.
  intros E Hin. unfold numeric, numeric_char. apply orb_true_iff. right.
  apply existsb_exists. exists x. split; assumption.
Qed.

Lemma scan_digits_reads (s : text) :
  forall (acc ds rest : text),
    Num.scan_digits acc s = (ds, rest) ->
    exists pre, s = pre ++ rest /\ Forall numeric pre.
Proof.
  induction s as [|c s IH]; intros acc ds rest H; cbn [Num.scan_digits] in H.
  - injection H as _ <-. exists []. split; [reflexivity | constructor].
  - destruct (Py.is_digit c) eqn:Ed.
    { destruct (IH _ _ _ H) as [pre [-> Hpre]]. exists (c :: pre).
      split; [reflexivity | constructor; [apply numeric_digit; exact Ed | exact Hpre]]. }
    destruct (Py.ascii_eqb c Num.underscore) eqn:Eu.
    + assert (Hstop : (rev acc, c :: s) = (ds, rest) ->
                      exists pre, c :: s = pre ++ rest /\ Forall numeric pre).
      { intros E. injection E as _ <-. exists []. split; [reflexivity | constructor]. }
      destruct acc as [|a acc]; [exact (Hstop H)|].
      destruct s as [|d s]; [exact (Hstop H)|].
      destruct (Py.is_digit d); [|exact (Hstop H)].
      destruct (IH _ _ _ H) as [pre [Heq Hpre]]. exists (c :: pre).
      split; [rewrite Heq; reflexivity|].
      constructor; [|exact Hpre].
      apply (numeric_listed c Num.underscore Eu). vm_compute. tauto.
    + injection H as _ <-. exists []. split; [reflexivity | constructor].
Qed.

Lemma scan_sign_reads (s : text) (neg : bool) (rest : text) :
  Num.scan_sign s = (neg, rest) ->
  exists pre, s = pre ++ rest /\ Forall numeric pre.
Proof.
  unfold Num.scan_sign. destruct s as [|c s].
  - intros H. injection H as _ <-. exists []. split; [reflexivity | constructor].
  - destruct (Py.ascii_eqb c "-") eqn:Em.
    { intros H. injection H as _ <-. exists [c]. split; [reflexivity|].
      constructor; [|constructor]. apply (numeric_listed c "-" Em). vm_compute. tauto. }
    destruct (Py.ascii_eqb c "+") eqn:Ep.
    { intros H. injection H as _ <-. exists [c]. split; [reflexivity|].
      constructor; [|constructor]. apply (numeric_listed c "+" Ep). vm_compute. tauto. }
    intros H. injection H as _ <-. exists []. split; [reflexivity | constructor].
Qed.

Lemma letter_e (c : ascii) :
  Py.ascii_eqb (Py.to_lower c) "e" = true -> numeric c.
Proof.
  unfold numeric. destruct c as [[] [] [] [] [] [] [] []]; vm_compute;
    intros H; first [reflexivity | discriminate H].
Qed.

Lemma scan_exponent_reads (s : text) (e : Z) (rest : text) :
  Num.scan_exponent s = Some (e, rest) ->
  exists pre, s = pre ++ rest /\ Forall numeric pre.
Proof.
  unfold Num.scan_exponent. destruct s as [|c s].
  - intros H. injection H as _ <-. exists []. split; [reflexivity | constructor].
  - destruct (Py.ascii_eqb (Py.to_lower c) "e") eqn:Ee.
    + destruct (Num.scan_sign s) as [neg s1] eqn:Es.
      destruct (Num.scan_digits [] s1) as [ds rest'] eqn:Ed.
      destruct ds as [|d ds]; [discriminate|].
      intros H. injection H as _ <-.
      destruct (scan_sign_reads _ _ _ Es) as [p1 [-> H1]].
      destruct (scan_digits_reads _ _ _ _ Ed) as [p2 [-> H2]].
      exists (c :: p1 ++ p2). split; [cbn [app]; rewrite <- app_assoc; reflexivity|].
      constructor; [apply letter_e; exact Ee|]. apply Forall_app. split; assumption.
    + intros H. injection H as _ <-. exists []. split; [reflexivity | constructor].
Qed.

(** [float(s)] succeeds only on a text made of the characters of decimal
    numbers and white space. *)
Lemma py_float_reads (s : text) (q : Q) :
  Num.py_float s = Some q -> Forall numeric s.
Proof.
  unfold Num.py_float. intros H.
  apply (Forall_strip numeric s numeric_space).
  destruct (Num.scan_sign (Py.strip s)) as [neg s1] eqn:Es.
  destruct (scan_sign_reads _ _ _ Es) as [p1 [-> H1]].
  destruct (Num.scan_digits [] s1) as [ip s2] eqn:Ei.
  destruct (scan_digits_reads _ _ _ _ Ei) as [p2 [-> H2]].
  assert (Hfrac : forall fp s3,
             match s2 with
             | c :: s2' => if Py.ascii_eqb c "." then Num.scan_digits [] s2' else ([], s2)
             | [] => ([], [])
             end = (fp, s3) ->
             exists pre, s2 = pre ++ s3 /\ Forall numeric pre).
  { intros fp s3 E. destruct s2 as [|c s2'].
    - injection E as _ <-. exists []. split; [reflexivity | constructor].
    - destruct (Py.ascii_eqb c ".") eqn:Ec.
      + destruct (scan_digits_reads _ _ _ _ E) as [p [-> Hp]]. exists (c :: p).
        split; [reflexivity|]. constructor; [|exact Hp].
        apply (numeric_listed c "." Ec). vm_compute. tauto.
      + injection E as _ <-. exists []. split; [reflexivity | constructor]. }
  destruct (match s2 with
            | c :: s2' => if Py.ascii_eqb c "." then Num.scan_digits [] s2' else ([], s2)
            | [] => ([], [])
            end) as [fp s3] eqn:Ef.
  destruct (Hfrac _ _ eq_refl) as [p3 [-> H3]].
  assert (Hexp : match Num.scan_exponent s3 with
                 | Some (_, []) => True
                 | _ => False
                 end).
  { destruct ip, fp; try discriminate H;
      destruct (Num.scan_exponent s3) as [[e [|x rest]]|]; try discriminate H; exact I. }
  destruct (Num.scan_exponent s3) as [[e [|x rest]]|] eqn:Ee; try destruct Hexp.
  destruct (scan_exponent_reads _ _ _ Ee) as [p4 [-> H4]].
  rewrite app_nil_r. repeat (apply Forall_app; split); assumption.
Qed.

Lemma py_float_rejects (s : text) (c : ascii) :
  In c s -> numeric_char c = false -> Num.py_float s = None.
Proof.
  intros Hin Hc. destruct (Num.py_float s) as [q|] eqn:E; [|reflexivity].
  pose proof (py_float_reads s q E) as H. rewrite Forall_forall in H.
  specialize (H c Hin). unfold numeric in H. rewrite Hc in H. discriminate H.
Qed.

(** ** Letters in an amount of a document text *)

Lemma foreign_letter_stays (c : ascii) :
  foreign_letter c = true ->
  outside_set false [Re.IChar "$"; Re.IChar ","; Re.ISpace] (Py.to_upper c) = true
  /\ Py.ascii_eqb "M" (Py.to_upper c) = false
  /\ Py.ascii_eqb "K" (Py.to_upper c) = false
  /\ numeric_char (Py.to_upper c) = false.
Proof.
  destruct c as [[] [] [] [] [] [] [] []]; vm_compute; intros H;
    first [discriminate H | repeat split].
Qed.

Lemma parse_currency_foreign_letter (w : text) (c : ascii) :
  In c w -> foreign_letter c = true ->
  PdfParser.parse_currency (VStr w) = Ret 0%Q.
Proof.
  intros Hin Hc. destruct w as [|x w]; [destruct Hin|].
  destruct (foreign_letter_stays c Hc) as [Hset [HM [HK Hnum]]].
  unfold PdfParser.parse_currency. cbn [truthy negb].
  assert (Hclean : In (Py.to_upper c) (PdfParser.clean (x :: w))).
  { unfold PdfParser.clean. rewrite sub_set_filter. apply filter_In.
    split; [apply in_map; exact Hin | exact Hset]. }
  unfold PdfParser.detect_suffix.
  change (text_of_string "M") with ["M"%char].
  change (text_of_string "K") with ["K"%char].
  change (text_of_string "") with (@nil ascii).
  destruct (Py.contains ["M"%char] _).
  { rewrite replace_char_filter, (py_float_rejects _ (Py.to_upper c)); [reflexivity| |exact Hnum].
    apply filter_In. split; [exact Hclean | rewrite HM; reflexivity]. }
  destruct (Py.contains ["K"%char] _).
  { rewrite replace_char_filter, (py_float_rejects _ (Py.to_upper c)); [reflexivity| |exact Hnum].
    apply filter_In. split; [exact Hclean | rewrite HK; reflexivity]. }
  rewrite (py_float_rejects _ (Py.to_upper c) Hclean Hnum). reflexivity.
Qed.

(** X13: [parse_currency] of [pdf_parser.py] gives 0 for every text that has a
    letter other than those of a number ([e], [inf], [infinity], [nan]) and
    the suffixes [k] and [m]. *)
Theorem textual_parse_currency_rejects_letters (w : text) (c : ascii) :
  In c w -> foreign_letter c = true ->
  PdfParser.parse_currency (VStr w) = Ret 0%Q.
Proof. apply parse_currency_foreign_letter. Qed.

Lemma textual_parse_currency_rejects_letters_witness :
  In "p"%char (text_of_string "$5M primary")
  /\ foreign_letter "p" = true
  /\ PdfParser.parse_currency (VStr (text_of_string "$5M primary")) = Ret 0%Q.
Proof.
  assert (Hin : In "p"%char (text_of_string "$5M primary")) by (vm_compute; tauto).
  split; [exact Hin|]. split; [reflexivity|].
  exact (textual_parse_currency_rejects_letters (text_of_string "$5M primary") "p" Hin eq_refl).
Defined.

Lemma parse_currency_of_word (r : Re.re) (w : text) :
  needs true r foreign_letter -> lang true r w ->
  PdfParser.parse_currency (VStr w) = Ret 0%Q.
Proof.
  intros Hr Hw. destruct (proj1 (existsb_exists _ _) (Hr w Hw)) as [c [Hin Hc]].
  exact (parse_currency_foreign_letter w c Hin Hc).
Qed.

Lemma primary_word_needs_p : needs true PdfParser.primary_word foreign_letter.
Proof.
  unfold PdfParser.primary_word, Re.seq. cbn [Re.alts fold_right].
  apply needs_alt; [|apply needs_cat_l];
    exact (needs_lit true "p" (text_of_string "rimary") _ (letter_p_is_foreign true)).
Qed.

Lemma primary_pattern_needs_p : needs true PdfParser.primary_pattern foreign_letter.
Proof.
  unfold PdfParser.primary_pattern, Re.seq. cbn [fold_right].
  apply needs_cat_r, needs_cat_r, needs_cat_r, needs_cat_l, primary_word_needs_p.
Qed.

Lemma premium_pattern_needs_p : needs true PdfParser.premium_pattern foreign_letter.
Proof.
  unfold PdfParser.premium_pattern, Re.seq. cbn [Re.alts fold_right].
  apply needs_cat_l, needs_alt.
  - exact (needs_lit true "p" (text_of_string "remium") _ (letter_p_is_foreign true)).
  - exact (needs_lit true "p" (text_of_string "rem") _ (letter_p_is_foreign true)).
Qed.

Lemma collect_nothing {X Y} (f : X -> result (list Y)) (xs : list X) :
  (forall x, In x xs -> f x = Ret []) -> PdfParser.collect f xs = Ret [].
Proof.
  induction xs as [|x xs IH]; intros H; cbn [PdfParser.collect]; [reflexivity|].
  rewrite (H x (or_introl eq_refl)). cbn [rbind].
  rewrite IH; [reflexivity|]. intros y Hy. apply H. right. exact Hy.
Qed.

(** X14: The "primary" pattern of [extract_limit_patterns] adds no layer: the
    text it matches has the word "primary", whose letters [parse_currency]
    does not read, so that the limit is 0. What the function returns comes
    from the "excess" and the "limit" patterns. *)
Theorem primary_pattern_adds_no_limit (txt : text) :
  PdfParser.collect PdfParser.from_primary (Re.finditer true PdfParser.primary_pattern txt)
  = Ret []
  /\ PdfParser.extract_limit_patterns txt
     = rbind (PdfParser.collect PdfParser.from_excess
                                (Re.finditer true PdfParser.excess_pattern txt))
             (fun from_excess =>
                rbind (PdfParser.collect (PdfParser.from_limit txt)
                                         (Re.finditer true PdfParser.limit_pattern txt))
                      (fun from_limit => Ret (from_excess ++ from_limit))).
Proof.
  assert (H : PdfParser.collect PdfParser.from_primary
                                (Re.finditer true PdfParser.primary_pattern txt) = Ret []).
  { apply collect_nothing. intros m Hm. unfold PdfParser.from_primary. cbv zeta.
    rewrite (parse_currency_of_word _ _ primary_pattern_needs_p (finditer_sound _ _ _ _ Hm)).
    reflexivity. }
  split; [exact H|]. unfold PdfParser.extract_limit_patterns. rewrite H. reflexivity.
Qed.

Lemma nearby_premium_is_zero (context_lines : list text) :
  PdfParser.nearby_premium context_lines = Ret 0%Q.
Proof.
  induction context_lines as [|line rest IH]; cbn [PdfParser.nearby_premium]; [reflexivity|].
  destruct (Re.search true PdfParser.premium_pattern line) as [pm|] eqn:E; [|exact IH].
  exact (parse_currency_of_word _ _ premium_pattern_needs_p (search_sound _ _ _ _ E)).
Qed.

Lemma carriers_from_no_premium (lines todo : list text) :
  forall (i : nat) (cs : list PdfParser.pdf_carrier),
    PdfParser.carriers_from lines i todo = Ret cs ->
    Forall (fun c => PdfParser.pc_premium c = 0%Q) cs.
Proof.
  induction todo as [|line rest IH]; intros i cs H; cbn [PdfParser.carriers_from] in H.
  - injection H as <-. constructor.
  - destruct (PdfParser.carrier_of_line lines i line) as [here|e] eqn:Eh; [|discriminate H].
    cbn [rbind] in H.
    destruct (PdfParser.carriers_from lines (S i) rest) as [more|e] eqn:Em; [|discriminate H].
    cbn [rbind] in H. injection H as <-.
    apply Forall_app. split; [|exact (IH _ _ Em)].
    unfold PdfParser.carrier_of_line in Eh.
    destruct (Re.search false PdfParser.percentage_pattern line);
      [|injection Eh as <-; constructor].
    destruct (_ || _); [|injection Eh as <-; constructor].
    destruct (Re.search false PdfParser.carrier_name_pattern line);
      [|injection Eh as <-; constructor].
    cbv zeta in Eh.
    destruct (PdfParser.float_of_text _) as [percentage|e]; [|discriminate Eh].
    cbn [rbind] in Eh. rewrite nearby_premium_is_zero in Eh. cbn [rbind] in Eh.
    injection Eh as <-. constructor; [reflexivity | constructor].
Qed.

Lemma extract_carrier_info_no_premium (txt : text) (cs : list PdfParser.pdf_carrier) :
  PdfParser.extract_carrier_info txt = Ret cs ->
  Forall (fun c => PdfParser.pc_premium c = 0%Q) cs.
Proof. unfold PdfParser.extract_carrier_info. apply carriers_from_no_premium. Qed.

(** X15: Every carrier [extract_carrier_info] finds, and so every carrier of a
    result of [parse_insurance_pdf], has premium 0: the text the premium
    pattern matches starts with "prem", which [parse_currency] does not
    read. *)
Theorem textual_carriers_have_no_premium
        (pdf_pages : list Byte.byte -> result (list (option text)))
        (pdf_bytes : list Byte.byte) (filename txt : text) :
  match PdfParser.extract_carrier_info txt with
  | Ret cs => Forall (fun c => PdfParser.pc_premium c = 0%Q) cs
  | Raise _ => True
  end
  /\ Forall (fun c => PdfParser.pc_premium c = 0%Q)
            (PdfParser.pd_carriers (PdfParser.parse_insurance_pdf pdf_pages pdf_bytes filename)).
Proof.
  split.
  - destruct (PdfParser.extract_carrier_info txt) as [cs|e] eqn:E; [|exact I].
    exact (extract_carrier_info_no_premium txt cs E).
  - unfold PdfParser.parse_insurance_pdf, PdfParser.parse_body.
    destruct (PdfParser.extract_text_from_pdf pdf_pages pdf_bytes) as [t|e];
      [|constructor]. cbn [rbind].
    destruct (PdfParser.extract_part_of_patterns t) as [part_of_data|e];
      [|constructor]. cbn [rbind].
    destruct (PdfParser.extract_limit_patterns t) as [limits|e];
      [|constructor]. cbn [rbind].
    destruct (PdfParser.extract_carrier_info t) as [cs|e] eqn:E;
      [|constructor]. cbn [rbind PdfParser.pd_carriers].
    exact (extract_carrier_info_no_premium t cs E).
Qed.

(** A line with a premium beside the carrier line: the premium is read as 0. *)
Example premium_beside_a_carrier_is_lost :
  PdfParser.extract_carrier_info premium_lines
  = Ret [PdfParser.PdfCarrier (text_of_string "Acme Insurance Company") (1 # 2) 0
                              (text_of_string "Acme Insurance Company - 50%")].
Proof. vm_compute. reflexivity. Qed.

(** ** No part-of allocation is lost in a merge of document texts *)

Section KeptAllocations.
Import LayerDict.

Lemma add_part_of_keeps (policy : option text) (cs : list carrier) (p : PdfParser.part_of)
      (name : text) :
  In name (map carrier_name cs) ->
  In name (map carrier_name (PdfParser.add_part_of policy cs p)).
Proof.
  induction cs as [|e cs IH]; cbn [PdfParser.add_part_of map In]; [tauto|].
  destruct (Py.text_eqb (carrier_name e) (PdfParser.po_carrier_name p)); cbn [map In].
  - tauto.
  - intros [H|H]; [left; exact H | right; exact (IH H)].
Qed.

Lemma add_part_of_adds (policy : option text) (cs : list carrier) (p : PdfParser.part_of) :
  In (PdfParser.po_carrier_name p) (map carrier_name (PdfParser.add_part_of policy cs p)).
Proof.
  induction cs as [|e cs IH]; cbn [PdfParser.add_part_of map In]; [left; reflexivity|].
  destruct (Py.text_eqb (carrier_name e) (PdfParser.po_carrier_name p)) eqn:E; cbn [map In].
  - left. apply text_eqb_eq. exact E.
  - right. exact IH.
Qed.

Lemma add_plain_keeps (policy : option text) (cs : list carrier) (c : PdfParser.pdf_carrier)
      (name : text) :
  In name (map carrier_name cs) ->
  In name (map carrier_name (PdfParser.add_plain policy cs c)).
Proof.
  induction cs as [|e cs IH]; cbn [PdfParser.add_plain map In]; [tauto|].
  destruct (Py.text_eqb (carrier_name e) (PdfParser.pc_carrier_name c)); cbn [map In].
  - tauto.
  - intros [H|H]; [left; exact H | right; exact (IH H)].
Qed.

Lemma dict_update_keeps_name (k k' : key) (step : list carrier -> list carrier)
      (d : layer_dict) (name : text) :
  (forall cs, In name (map carrier_name cs) -> In name (map carrier_name (step cs))) ->
  names_in d k' name ->
  names_in (dict_update k (fun b => with_carriers (step (carriers b)) b) d) k' name.
Proof.
  intros Hstep [b [Hb Hin]]. destruct (key_eqb k k') eqn:E.
  - eexists. split.
    + rewrite (dict_find_update_same _ _ _ _ E), Hb. reflexivity.
    + cbn [carriers with_carriers]. apply Hstep. exact Hin.
  - exists b. split; [|exact Hin]. rewrite (dict_find_update_other _ _ _ _ E). exact Hb.
Qed.

Lemma open_bucket_keeps_name (l : layer) (d : layer_dict) (k : key) (name : text) :
  names_in d k name -> names_in (open_bucket l d) k name.
Proof.
  intros [b [Hb Hin]]. exists b. split; [|exact Hin]. apply open_bucket_keeps. exact Hb.
Qed.

Lemma merge_part_of_keeps (policy : option text) (d : layer_dict) (p : PdfParser.part_of)
      (k : key) (name : text) :
  names_in d k name -> names_in (PdfParser.merge_part_of policy d p) k name.
Proof.
  intros H. unfold PdfParser.merge_part_of. cbv zeta.
  apply (dict_update_keeps_name _ _ (fun cs => PdfParser.add_part_of policy cs p)).
  - intros cs. apply add_part_of_keeps.
  - apply open_bucket_keeps_name. exact H.
Qed.

Lemma merge_part_of_adds (policy : option text) (d : layer_dict) (p : PdfParser.part_of) :
  names_in (PdfParser.merge_part_of policy d p)
           (PdfParser.po_layer_limit p, PdfParser.po_attachment p)
           (PdfParser.po_carrier_name p).
Proof.
  unfold PdfParser.merge_part_of. cbv zeta.
  set (bucket := Layer (PdfParser.po_layer_limit p) (PdfParser.po_attachment p)
                       (PdfParser.po_is_primary p) []).
  change (PdfParser.po_layer_limit p, PdfParser.po_attachment p) with (key_of bucket).
  destruct (open_bucket_find bucket d) as [b [Hb _]].
  eexists. split.
  - rewrite (dict_find_update_same _ _ _ _ (key_eqb_refl (key_of bucket))), Hb. reflexivity.
  - cbn [carriers with_carriers option_map]. apply add_part_of_adds.
Qed.

Lemma merge_limit_keeps (doc : PdfParser.pdf_result) (d : layer_dict) (info : layer_info)
      (k : key) (name : text) :
  names_in d k name -> names_in (PdfParser.merge_limit doc d info) k name.
Proof.
  intros H. unfold PdfParser.merge_limit. cbv zeta.
  pose proof (open_bucket_keeps_name
                (Layer (li_limit info) (li_attachment info) (li_is_primary info) []) d k name H)
    as H1.
  destruct (dict_find _ (open_bucket _ d)) as [b|]; [|exact H1].
  destruct (carriers b); [|exact H1].
  apply fold_left_invariant; [|exact H1].
  intros d' c _ Hd'.
  apply (dict_update_keeps_name _ _ (fun cs => PdfParser.add_plain _ cs c)); [|exact Hd'].
  intros cs. apply add_plain_keeps.
Qed.

Lemma merge_document_keeps_name (d : layer_dict) (doc : PdfParser.pdf_result)
      (k : key) (name : text) :
  names_in d k name -> names_in (PdfParser.merge_document d doc) k name.
Proof.
  intros H. unfold PdfParser.merge_document.
  destruct (PdfParser.pd_success doc); [|exact H]. cbv zeta.
  apply fold_left_invariant; [intros d' info _; apply merge_limit_keeps|].
  apply fold_left_invariant; [intros d' p _; apply merge_part_of_keeps | exact H].
Qed.

Lemma merge_part_ofs_add (policy : option text) (ps : list PdfParser.part_of)
      (d : layer_dict) (p : PdfParser.part_of) :
  In p ps ->
  names_in (fold_left (PdfParser.merge_part_of policy) ps d)
           (PdfParser.po_layer_limit p, PdfParser.po_attachment p)
           (PdfParser.po_carrier_name p).
Proof.
  revert d. induction ps as [|x ps IH]; intros d Hin; cbn [fold_left]; [contradiction|].
  destruct Hin as [->|Hin]; [|exact (IH _ Hin)].
  apply fold_left_invariant; [intros d' q _; apply merge_part_of_keeps|].
  apply merge_part_of_adds.
Qed.

Lemma merge_documents_add (docs : list PdfParser.pdf_result) (d : layer_dict)
      (doc : PdfParser.pdf_result) (p : PdfParser.part_of) :
  In doc docs -> PdfParser.pd_success doc = true -> In p (PdfParser.pd_part_of_data doc) ->
  names_in (fold_left PdfParser.merge_document docs d)
           (PdfParser.po_layer_limit p, PdfParser.po_attachment p)
           (PdfParser.po_carrier_name p).
Proof.
  revert d. induction docs as [|x docs IH]; intros d Hin Hok Hp; cbn [fold_left];
    [contradiction|].
  destruct Hin as [->|Hin]; [|exact (IH _ Hin Hok Hp)].
  apply fold_left_invariant; [intros d' doc' _; apply merge_document_keeps_name|].
  unfold PdfParser.merge_document. rewrite Hok. cbv zeta.
  apply fold_left_invariant; [intros d' info _; apply merge_limit_keeps|].
  apply merge_part_ofs_add. exact Hp.
Qed.

End KeptAllocations.

(** X16: Every part-of allocation of a successful document is found in the
    result of [merge_parsed_documents]: the result has a layer with the
    layer limit and the attachment of the allocation, and in it an entry
    with the carrier name of the allocation. *)
Theorem textual_merge_keeps_every_allocation
        (docs : list PdfParser.pdf_result) (doc : PdfParser.pdf_result)
        (p : PdfParser.part_of) :
  In doc docs ->
  PdfParser.pd_success doc = true ->
  In p (PdfParser.pd_part_of_data doc) ->
  exists b e,
    In b (PdfParser.mp_layers (PdfParser.merge_parsed_documents docs))
    /\ LayerDict.key_eqb (PdfParser.po_layer_limit p, PdfParser.po_attachment p)
                         (LayerDict.key_of b) = true
    /\ In e (carriers b)
    /\ carrier_name e = PdfParser.po_carrier_name p.
Proof.
  intros Hdoc Hok Hp.
  destruct (merge_documents_add docs [] doc p Hdoc Hok Hp) as [b [Hb Hname]].
  destruct (dict_find_In _ _ _ Hb) as [k0 [Hin Hk]].
  destruct (proj1 (in_map_iff _ _ _) Hname) as [e [He Hine]].
  exists b, e. split; [|split; [|split]].
  - unfold PdfParser.merge_parsed_documents. cbn [PdfParser.mp_layers].
    apply sorted_In. apply in_map_iff. exists (k0, b). split; [reflexivity | exact Hin].
  - destruct (pdf_merge_keyed docs) as [_ Hkeys]. rewrite Forall_forall in Hkeys.
    pose proof (Hkeys (k0, b) Hin) as Hkb. cbn [fst snd] in Hkb. rewrite Hkb. exact Hk.
  - exact Hine.
  - exact He.
Qed.

Lemma textual_merge_keeps_every_allocation_witness :
  exists b e,
    In b (PdfParser.mp_layers (PdfParser.merge_parsed_documents [allocation_document]))
    /\ LayerDict.key_eqb (10000000%Q, 5000000%Q) (LayerDict.key_of b) = true
    /\ In e (carriers b)
    /\ carrier_name e = text_of_string "Ironshore".
Proof.
  apply (textual_merge_keeps_every_allocation
           [allocation_document] allocation_document
           (PdfParser.PartOf "Ironshore" 2500000 (1 # 4) 10000000 5000000 false
                             "Ironshore: $2.5M (25%) part of $10M xs $5M")).
  - left. reflexivity.
  - reflexivity.
  - left. reflexivity.
Defined.

(** ** Allocations come before plain carriers *)

Section Priority.
Import LayerDict.

Lemma dict_find_same_key (k k' : key) (d : layer_dict) :
  key_eqb k k' = true -> dict_find k d = dict_find k' d.
Proof.
  intros Hk. induction d as [|[k0 b] d IH]; cbn [dict_find]; [reflexivity|].
  rewrite (key_eqb_compat k k' k0 Hk). destruct (key_eqb k' k0); [reflexivity | exact IH].
Qed.

Lemma merge_limit_of_full_bucket (doc : PdfParser.pdf_result) (d : layer_dict)
      (info : layer_info) (name : text) :
  names_in d (li_limit info, li_attachment info) name ->
  PdfParser.merge_limit doc d info = d.
Proof.
  intros [b [Hb Hname]]. unfold PdfParser.merge_limit. cbv zeta.
  set (bucket := Layer (li_limit info) (li_attachment info) (li_is_primary info) []).
  change (li_limit info, li_attachment info) with (key_of bucket) in Hb.
  destruct (open_bucket_find bucket d) as [b' [Hb' Hsame]].
  rewrite Hb in Hsame. destruct Hsame as [-> Hopen].
  rewrite Hb', Hopen. destruct (carriers b); [destruct Hname | reflexivity].
Qed.

Lemma merge_limits_of_full_buckets (doc : PdfParser.pdf_result) (infos : list layer_info)
      (d : layer_dict) :
  (forall info, In info infos ->
                exists name, names_in d (li_limit info, li_attachment info) name) ->
  fold_left (PdfParser.merge_limit doc) infos d = d.
Proof.
  induction infos as [|info infos IH]; intros H; cbn [fold_left]; [reflexivity|].
  destruct (H info (or_introl eq_refl)) as [name Hname].
  rewrite (merge_limit_of_full_bucket doc d info name Hname).
  apply IH. intros info' Hin. apply H. right. exact Hin.
Qed.

Lemma allocations_first (d : layer_dict) (doc : PdfParser.pdf_result) :
  PdfParser.pd_success doc = true ->
  limits_are_allocated doc ->
  PdfParser.merge_document d doc
  = fold_left (PdfParser.merge_part_of (PdfParser.pd_policy_number doc))
              (PdfParser.pd_part_of_data doc) d.
Proof.
  intros Hok Hlimits. unfold PdfParser.merge_document. rewrite Hok. cbv zeta.
  apply merge_limits_of_full_buckets. intros info Hin.
  destruct (Hlimits info Hin) as [p [Hp Hk]].
  exists (PdfParser.po_carrier_name p).
  destruct (merge_part_ofs_add (PdfParser.pd_policy_number doc) _ d p Hp) as [b [Hb Hname]].
  exists b. split; [|exact Hname].
  rewrite <- (dict_find_same_key _ _ _ Hk). exact Hb.
Qed.

Lemma merge_without_carriers (docs : list PdfParser.pdf_result) (d : layer_dict) :
  (forall doc, In doc docs -> PdfParser.pd_success doc = true -> limits_are_allocated doc) ->
  fold_left PdfParser.merge_document docs d
  = fold_left PdfParser.merge_document (map without_carriers docs) d.
Proof.
  revert d. induction docs as [|doc docs IH]; intros d H; cbn [fold_left map]; [reflexivity|].
  assert (Hdoc : PdfParser.merge_document d doc
                 = PdfParser.merge_document d (without_carriers doc)).
  { destruct (PdfParser.pd_success doc) eqn:Hok.
    - rewrite (allocations_first d doc Hok (H doc (or_introl eq_refl) Hok)).
      rewrite (allocations_first d (without_carriers doc) Hok (H doc (or_introl eq_refl) Hok)).
      reflexivity.
    - unfold PdfParser.merge_document. cbn [without_carriers PdfParser.pd_success].
      rewrite Hok. reflexivity. }
  rewrite Hdoc. apply IH. intros doc' Hin. apply H. right. exact Hin.
Qed.

End Priority.

(** X17: Allocations come before plain carriers: when every limit of each
    successful document is the layer (same limit, same attachment) of one
    of its part-of allocations, [merge_parsed_documents] does not use the
    plain carriers of the documents at all. *)
Theorem allocations_come_before_plain_carriers (docs : list PdfParser.pdf_result) :
  (forall doc, In doc docs -> PdfParser.pd_success doc = true -> limits_are_allocated doc) ->
  PdfParser.mp_layers (PdfParser.merge_parsed_documents docs)
  = PdfParser.mp_layers (PdfParser.merge_parsed_documents (map without_carriers docs)).
Proof.
  intros H. unfold PdfParser.merge_parsed_documents. cbn [PdfParser.mp_layers].
  rewrite (merge_without_carriers docs [] H). reflexivity.
Qed.

Lemma allocations_come_before_plain_carriers_witness :
  PdfParser.mp_layers (PdfParser.merge_parsed_documents [allocation_and_limit_document])
  = PdfParser.mp_layers
      (PdfParser.merge_parsed_documents (map without_carriers [allocation_and_limit_document])).
Proof.
  apply (allocations_come_before_plain_carriers [allocation_and_limit_document]).
  intros doc [<-|[]] _ info [<-|[]].
  eexists. split; [left; reflexivity | reflexivity].
Defined.

(** ** A limit that no colon introduces *)

Lemma split_without_separator (sep : ascii) (s cur : text) :
  existsb (fun c => Py.ascii_eqb c sep) s = false ->
  Py.split_char sep cur s = [rev cur ++ s].
Proof.
  revert cur. induction s as [|c s IH]; intros cur H; cbn [Py.split_char].
  - rewrite app_nil_r. reflexivity.
  - cbn [existsb] in H. apply orb_false_iff in H. destruct H as [Hc Hs].
    rewrite Hc, (IH (c :: cur) Hs). cbn [rev]. rewrite <- app_assoc. reflexivity.
Qed.

Lemma In_lstrip (c : ascii) (s : text) :
  Py.is_space c = false -> In c s -> In c (Py.lstrip s).
Proof.
  intros Hc. induction s as [|x s IH]; cbn [Py.lstrip In]; [tauto|].
  destruct (Py.is_space x) eqn:E; [|cbn [In]; tauto].
  intros [->|H]; [rewrite Hc in E; discriminate E | exact (IH H)].
Qed.

Lemma In_strip (c : ascii) (s : text) :
  Py.is_space c = false -> In c s -> In c (Py.strip s).
Proof.
  intros Hc H. unfold Py.strip, Py.rstrip.
  apply in_rev. rewrite rev_involutive. apply (In_lstrip c _ Hc).
  apply -> in_rev. apply (In_lstrip c _ Hc). exact H.
Qed.

Lemma foreign_letter_is_no_space (c : ascii) :
  foreign_letter c = true -> Py.is_space c = false.
Proof.
  destruct c as [[] [] [] [] [] [] [] []]; vm_compute; intros H;
    first [reflexivity | discriminate H].
Qed.

Lemma letter_l_is_foreign (ci : bool) (c : ascii) :
  Re.chr_eq ci "l" c = true -> foreign_letter c = true.
Proof.
  destruct ci, c as [[] [] [] [] [] [] [] []]; vm_compute; intros H; first [exact H | reflexivity].
Qed.

Lemma letter_c_is_foreign (ci : bool) (c : ascii) :
  Re.chr_eq ci "c" c = true -> foreign_letter c = true.
Proof.
  destruct ci, c as [[] [] [] [] [] [] [] []]; vm_compute; intros H; first [exact H | reflexivity].
Qed.

Lemma limit_pattern_needs_letter : needs true PdfParser.limit_pattern foreign_letter.
Proof.
  unfold PdfParser.limit_pattern, Re.seq. cbn [Re.alts fold_right].
  apply needs_cat_l, needs_alt.
  - exact (needs_lit true "l" (text_of_string "imit") _ (letter_l_is_foreign true)).
  - exact (needs_lit true "c" (text_of_string "overage") _ (letter_c_is_foreign true)).
Qed.

Lemma limit_match_without_colon (txt : text) (m : Re.mobj) :
  In m (Re.finditer true PdfParser.limit_pattern txt) ->
  no_colon (Re.group0 m) ->
  PdfParser.from_limit txt m = Ret [].
Proof.
  intros Hm Hcolon. unfold PdfParser.from_limit. cbv zeta.
  pose proof (finditer_sound _ _ _ _ Hm) as Hw.
  destruct (proj1 (existsb_exists _ _) (limit_pattern_needs_letter _ Hw)) as [c [Hin Hc]].
  unfold PdfParser.after_last_colon, Py.split.
  rewrite (split_without_separator ":" (Re.group0 m) [] Hcolon). cbn [rev app last].
  rewrite (parse_currency_foreign_letter _ c
             (In_strip c _ (foreign_letter_is_no_space c Hc) Hin) Hc).
  reflexivity.
Qed.

Lemma existsb_firstn (P : ascii -> bool) (n : nat) (s : text) :
  existsb P s = false -> existsb P (firstn n s) = false.
Proof.
  revert n. induction s as [|c s IH]; intros [|n] H; cbn [firstn existsb]; try reflexivity.
  cbn [existsb] in H. apply orb_false_iff in H. destruct H as [Hc Hs].
  rewrite Hc, (IH n Hs). reflexivity.
Qed.

Lemma existsb_skipn (P : ascii -> bool) (n : nat) (s : text) :
  existsb P s = false -> existsb P (skipn n s) = false.
Proof.
  revert n. induction s as [|c s IH]; intros [|n] H; cbn [skipn]; try exact H.
  cbn [existsb] in H. apply orb_false_iff in H. exact (IH n (proj2 H)).
Qed.

Lemma finditer_subject (ci : bool) (r : Re.re) (subject : text) (fuel : nat) :
  forall (pos : nat) (s : text) (m : Re.mobj),
    In m (Re.finditer_from fuel ci r subject pos s) -> Re.m_subject m = subject.
Proof.
  assert (Hrun : forall pos s m,
             Re.match_at ci r subject pos s = Some m -> Re.m_subject m = subject).
  { intros pos s m H. unfold Re.match_at in H.
    destruct (run_sound _ _ _ _ _ _ _ _ H) as [w [s' [g' [_ [_ Hm]]]]].
    injection Hm as <-. reflexivity. }
  assert (Hsearch : forall s pos m,
             Re.search_from ci r subject pos s = Some m -> Re.m_subject m = subject).
  { induction s as [|c s IH]; intros pos m H; cbn [Re.search_from] in H.
    - destruct (Re.match_at ci r subject pos []) as [m'|] eqn:E; [|discriminate H].
      injection H as <-. exact (Hrun _ _ _ E).
    - destruct (Re.match_at ci r subject pos (c :: s)) as [m'|] eqn:E.
      + injection H as <-. exact (Hrun _ _ _ E).
      + exact (IH _ _ H). }
  induction fuel as [|fuel IH]; intros pos s m H; cbn [Re.finditer_from] in H; [destruct H|].
  destruct (Re.search_from ci r subject pos s) as [m'|] eqn:E; [|destruct H].
  destruct H as [<-|H]; [exact (Hsearch _ _ _ E) | exact (IH _ _ _ H)].
Qed.

(** X18: In a text without a colon only the "excess" pattern of
    [extract_limit_patterns] gives layers.  The "limit" pattern also matches
    a limit that white space alone sets apart from the word ("Limit $5M"),
    but without a colon the whole match goes to [parse_currency], word and
    all, and the limit is 0. *)
Theorem text_without_colon_has_excess_layers_only (txt : text) :
  no_colon txt ->
  PdfParser.extract_limit_patterns txt
  = PdfParser.collect PdfParser.from_excess (Re.finditer true PdfParser.excess_pattern txt).
Proof.
  intros Hcolon. unfold PdfParser.extract_limit_patterns.
  assert (Hprimary : PdfParser.collect PdfParser.from_primary
                       (Re.finditer true PdfParser.primary_pattern txt) = Ret []).
  { apply collect_nothing. intros m Hm. unfold PdfParser.from_primary. cbv zeta.
    rewrite (parse_currency_of_word _ _ primary_pattern_needs_p (finditer_sound _ _ _ _ Hm)).
    reflexivity. }
  assert (Hlimit : PdfParser.collect (PdfParser.from_limit txt)
                     (Re.finditer true PdfParser.limit_pattern txt) = Ret []).
  { apply collect_nothing. intros m Hm. apply (limit_match_without_colon txt m Hm).
    unfold no_colon, Re.group0, Py.slice.
    rewrite (finditer_subject _ _ _ _ _ _ _ Hm).
    apply existsb_firstn, existsb_skipn. exact Hcolon. }
  rewrite Hprimary, Hlimit.
  destruct (PdfParser.collect PdfParser.from_excess _) as [l|e]; cbn [rbind app];
    [rewrite app_nil_r|]; reflexivity.
Qed.

Lemma text_without_colon_has_excess_layers_only_witness :
  no_colon (text_of_string "Limit $5M")
  /\ PdfParser.extract_limit_patterns (text_of_string "Limit $5M") = Ret [].
Proof.
  assert (Hc : no_colon (text_of_string "Limit $5M")) by (vm_compute; reflexivity).
  split; [exact Hc|].
  etransitivity;
    [apply (text_without_colon_has_excess_layers_only (text_of_string "Limit $5M")); exact Hc|].
  vm_compute. reflexivity.
Defined.
